(** * Contract analysis pipeline: clause segmentation, classification, risk scoring

    A shallow embedding of the pattern-analysis core of the contract
    analysis tool ([core/clause_extractor.py], [core/contract_classifier.py],
    [core/risk_assessor.py]) and the properties of it that the design
    document states.

    Conventions of the embedding.
    - A Python [str] is a [string]; the character tests ([\s], [\d], [\b],
      [lower], [title], [strip]) are Python's on the ASCII range, and a
      character above 127 is a caseless symbol that is neither a space, a
      digit nor a letter (the catalogue uses one only, the rupee sign, as a
      literal).
    - A pattern is kept as the text the source has; [Re.compile] reads the
      subset of Python's [re] syntax the catalogue uses and [Re.run] is a
      backtracking matcher with Python's priorities (leftmost alternative
      first, greedy before lazy).
    - Python floats are exact rationals ([Q]); [round(x, n)] rounds to the
      nearest multiple of [10^-n], ties to even.
    - Instance attributes ([self.clauses], [self.findings], [self.result])
      are explicit state: a method takes the instance and returns it with
      its result.
    - The order in which [list(set(...))] lists a set is a parameter
      ([SetOrder]): the interpreter fixes it per process. *)

From Stdlib Require Import Bool Arith Lia List String Ascii ZArith QArith Qround Qminmax.
From Stdlib Require Import DecimalString DecimalNat.
From Stdlib Require Import Permutation Sorted.
Import ListNotations.

Open Scope string_scope.
Open Scope nat_scope.

(* ================================================================== *)
(** ** Python strings *)

Module PyStr.

Definition code (c : ascii) : nat := nat_of_ascii c.

Definition between (lo hi : nat) (c : ascii) : bool :=
  (lo <=? code c) && (code c <=? hi).

(** [str.isspace] on the ASCII range: TAB, LF, VT, FF, CR, FS, GS, RS, US
    and the space. *)
Definition isspace (c : ascii) : bool :=
  between 9 13 c || between 28 32 c.

Definition isdigit (c : ascii) : bool := between 48 57 c.
Definition isupper (c : ascii) : bool := between 65 90 c.
Definition islower (c : ascii) : bool := between 97 122 c.
Definition isalpha (c : ascii) : bool := isupper c || islower c.

(** The word characters of [\w] and [\b]. *)
Definition isword (c : ascii) : bool :=
  isalpha c || isdigit c || (code c =? 95).

Definition lower_char (c : ascii) : ascii :=
  if isupper c then ascii_of_nat (code c + 32) else c.

Definition upper_char (c : ascii) : ascii :=
  if islower c then ascii_of_nat (code c - 32) else c.

(** [s.lower()] *)
Fixpoint lower (s : string) : string :=
  match s with
  | EmptyString => EmptyString
  | String c t => String (lower_char c) (lower t)
  end.

(** [s.title()]: a letter is upper-cased when the character before it is
    not a letter and lower-cased otherwise. *)
Fixpoint title_from (previous_is_cased : bool) (s : string) : string :=
  match s with
  | EmptyString => EmptyString
  | String c t =>
      String (if previous_is_cased then lower_char c else upper_char c)
             (title_from (isalpha c) t)
  end.

Definition title (s : string) : string := title_from false s.

(** [s.replace(a, b)] for one-character [a] and [b]. *)
Fixpoint replace_char (a b : ascii) (s : string) : string :=
  match s with
  | EmptyString => EmptyString
  | String c t => String (if Ascii.eqb c a then b else c) (replace_char a b t)
  end.

Fixpoint lstrip (s : string) : string :=
  match s with
  | EmptyString => EmptyString
  | String c t => if isspace c then lstrip t else s
  end.

Fixpoint rstrip (s : string) : string :=
  match s with
  | EmptyString => EmptyString
  | String c t =>
      match rstrip t with
      | EmptyString => if isspace c then EmptyString else String c EmptyString
      | t' => String c t'
      end
  end.

(** [s.strip()] *)
Definition strip (s : string) : string := rstrip (lstrip s).

(** [s[:n]] *)
Fixpoint take (n : nat) (s : string) : string :=
  match n, s with
  | S k, String c t => String c (take k t)
  | _, _ => EmptyString
  end.

(** [s[n:]] *)
Fixpoint drop (n : nat) (s : string) : string :=
  match n, s with
  | S k, String _ t => drop k t
  | _, _ => s
  end.

(** [s[a:b]] for [0 <= a] and [0 <= b]: empty when [b <= a]. *)
Definition slice (s : string) (a b : nat) : string := take (b - a) (drop a s).

(** [needle in hay] *)
Fixpoint contains (needle hay : string) : bool :=
  prefix needle hay ||
  match hay with
  | EmptyString => false
  | String _ t => contains needle t
  end.

(** [hay.count(needle)]: occurrences that do not overlap, from the left. *)
Fixpoint count_from (needle hay : string) (skip : nat) : nat :=
  match hay with
  | EmptyString => 0
  | String _ t =>
      match skip with
      | S k => count_from needle t k
      | 0 =>
          if prefix needle hay
          then S (count_from needle t (String.length needle - 1))
          else count_from needle t 0
      end
  end.

Definition count (hay needle : string) : nat :=
  match needle with
  | EmptyString => S (String.length hay)
  | _ => count_from needle hay 0
  end.

(** The line feed, which a string literal cannot spell. *)
Definition LF : string := String (ascii_of_nat 10) EmptyString.

(** The double quote, which is not written inside a literal here. *)
Definition DQ : string := String (ascii_of_nat 34) EmptyString.

(** [sep.join(parts)] *)
Definition join (sep : string) (parts : list string) : string :=
  String.concat sep parts.

End PyStr.

(* ================================================================== *)
(** ** Python lists: slices, [sorted], [max] *)

Module PyList.

Section Sorting.
Context {A : Type}.
Variable key : A -> Z.
Variable reverse : bool.

(** [x] may stand before [y] in the sorted list. *)
Definition before (x y : A) : bool :=
  if reverse then (key y <=? key x)%Z else (key x <=? key y)%Z.

Fixpoint insert (x : A) (l : list A) : list A :=
  match l with
  | [] => [x]
  | y :: t => if before x y then x :: l else y :: insert x t
  end.

(** [sorted(l, key=key, reverse=reverse)]: Python's sort is stable, also
    with [reverse=True]; a stable sort has one result, given here by
    insertion from the right. *)
Fixpoint sorted (l : list A) : list A :=
  match l with
  | [] => []
  | x :: t => insert x (sorted t)
  end.

(** [max(x :: l, key=key)]: the first element whose key is the greatest. *)
Fixpoint max_from (x : A) (l : list A) : A :=
  match l with
  | [] => x
  | y :: t => if (key x <? key y)%Z then max_from y t else max_from x t
  end.

Definition max_by (l : list A) : option A :=
  match l with
  | [] => None
  | x :: t => Some (max_from x t)
  end.

End Sorting.

End PyList.

(* ================================================================== *)
(** ** Python numbers *)

Module PyNum.

(** The integer nearest to [q], the even one of two equally near. *)
Definition round_half_even (q : Q) : Z :=
  let f := Qfloor q in
  match (q - inject_Z f ?= 1 # 2)%Q with
  | Lt => f
  | Gt => (f + 1)%Z
  | Eq => if Z.even f then f else (f + 1)%Z
  end.

(** [round(x, ndigits)] *)
Definition round (x : Q) (ndigits : nat) : Q :=
  (inject_Z (round_half_even (x * inject_Z (10 ^ Z.of_nat ndigits)))
   / inject_Z (10 ^ Z.of_nat ndigits))%Q.

(** [min(a, b)]: [b] when it is smaller, [a] otherwise. *)
Definition min (a b : Q) : Q := if Qlt_le_dec b a then b else a.

(** [str(n)] for a count. *)
Definition str (n : nat) : string := NilEmpty.string_of_uint (Nat.to_uint n).

End PyNum.

(* ================================================================== *)
(** ** Regular expressions: the subset of Python's [re] the catalogue uses *)

Module Re.
Import PyStr.

Record flags : Type := mkflags
  { IGNORECASE : bool; MULTILINE : bool; DOTALL : bool }.

Definition NOFLAG : flags := mkflags false false false.
Definition I : flags := mkflags true false false.
Definition I_M : flags := mkflags true true false.
Definition I_S : flags := mkflags true false true.
Definition I_M_S : flags := mkflags true true true.

Definition class : Type := ascii -> bool.

Inductive regex : Type :=
| Eps : regex
| Fail : regex
| Chr : class -> regex
| Seq : regex -> regex -> regex
| Alt : regex -> regex -> regex
| Rep : regex -> nat -> option nat -> bool -> regex
| Grp : nat -> regex -> regex
| Look : regex -> regex
| Test : (option ascii -> string -> bool) -> regex.

(** *** Reading a pattern *)

Definition eqc (a : ascii) (c : ascii) : bool := Ascii.eqb a c.

(** With [IGNORECASE] a class holds of a character when it holds of one of
    its two cases. *)
Definition fold_case (fl : flags) (p : class) : class :=
  if IGNORECASE fl then fun c => p (lower_char c) || p (upper_char c) else p.

Definition union (p q : class) : class := fun c => p c || q c.
Definition complement (p : class) : class := fun c => negb (p c).
Definition nothing : class := fun _ => false.

(** [\d], [\s], [\w], [\n], [\t] and an escaped punctuation sign; a letter
    or digit with no meaning here is refused. *)
Definition escape_class (e : ascii) : option class :=
  if eqc "d" e then Some isdigit
  else if eqc "s" e then Some isspace
  else if eqc "w" e then Some isword
  else if eqc "n" e then Some (eqc (ascii_of_nat 10))
  else if eqc "t" e then Some (eqc (ascii_of_nat 9))
  else if isword e then None
  else Some (eqc e).

(** The members of a bracketed class, up to the closing bracket. *)
Fixpoint parse_class (s : string) (acc : class) : option (class * string) :=
  match s with
  | EmptyString => None
  | String a t =>
      if eqc "]" a then Some (acc, t)
      else if eqc "\" a then
        match t with
        | String e t' =>
            match escape_class e with
            | Some p => parse_class t' (union acc p)
            | None => None
            end
        | EmptyString => None
        end
      else
        match t with
        | String dash (String b t') =>
            if eqc "-" dash && negb (eqc "]" b)
            then parse_class t' (union acc (between (code a) (code b)))
            else parse_class t (union acc (eqc a))
        | _ => parse_class t (union acc (eqc a))
        end
  end.

Fixpoint parse_digits (s : string) (acc : nat) : nat * string :=
  match s with
  | EmptyString => (acc, s)
  | String c t =>
      if isdigit c then parse_digits t (10 * acc + (code c - 48)) else (acc, s)
  end.

Definition starts_with_digit (s : string) : bool :=
  match s with
  | String c _ => isdigit c
  | EmptyString => false
  end.

(** After an opening brace: [m}], [m,}] or [m,n}]. *)
Definition parse_braces (s : string) : option (nat * option nat * string) :=
  if starts_with_digit s then
    let (lo, t1) := parse_digits s 0 in
    match t1 with
    | String c t2 =>
        if eqc "}" c then Some (lo, Some lo, t2)
        else if eqc "," c then
          match t2 with
          | String c' t3 =>
              if eqc "}" c' then Some (lo, None, t3)
              else if isdigit c' then
                let (hi, t4) := parse_digits t2 0 in
                match t4 with
                | String c'' t5 => if eqc "}" c'' then Some (lo, Some hi, t5) else None
                | EmptyString => None
                end
              else None
          | EmptyString => None
          end
        else None
    | EmptyString => None
    end
  else None.

(** A trailing [?] makes the repetition lazy. *)
Definition parse_lazy (a : regex) (lo : nat) (hi : option nat) (s : string)
  : regex * string :=
  match s with
  | String c t => if eqc "?" c then (Rep a lo hi false, t) else (Rep a lo hi true, s)
  | EmptyString => (Rep a lo hi true, s)
  end.

Definition parse_quant (a : regex) (s : string) : option (regex * string) :=
  match s with
  | EmptyString => Some (a, s)
  | String c t =>
      if eqc "*" c then Some (parse_lazy a 0 None t)
      else if eqc "+" c then Some (parse_lazy a 1 None t)
      else if eqc "?" c then Some (parse_lazy a 0 (Some 1) t)
      else if eqc "{" c then
        match parse_braces t with
        | Some (lo, hi, t') => Some (parse_lazy a lo hi t')
        | None => None
        end
      else Some (a, s)
  end.

Definition newline (c : ascii) : bool := eqc (ascii_of_nat 10) c.

(** [^]: at the start of the text, and after a line feed with [MULTILINE]. *)
Definition at_bol (fl : flags) (prev : option ascii) (rest : string) : bool :=
  match prev with
  | None => true
  | Some c => MULTILINE fl && newline c
  end.

(** [$]: at the end of the text or before its last line feed; before any
    line feed with [MULTILINE]. *)
Definition at_eol (fl : flags) (prev : option ascii) (rest : string) : bool :=
  match rest with
  | EmptyString => true
  | String c EmptyString => newline c
  | String c _ => MULTILINE fl && newline c
  end.

(** [\Z] *)
Definition at_end (prev : option ascii) (rest : string) : bool :=
  match rest with
  | EmptyString => true
  | _ => false
  end.

(** [\b]: exactly one of the two neighbours is a word character. *)
Definition at_word_boundary (prev : option ascii) (rest : string) : bool :=
  xorb (match prev with Some c => isword c | None => false end)
       (match rest with String c _ => isword c | EmptyString => false end).

Definition closes (s : string) : option string :=
  match s with
  | String c t => if eqc ")" c then Some t else None
  | EmptyString => None
  end.

(** The grammar: alternatives of sequences of quantified atoms. [g] is the
    number of the next capturing group. *)
Fixpoint parse_alt (fuel : nat) (fl : flags) (s : string) (g : nat) {struct fuel}
  : option (regex * string * nat) :=
  match fuel with
  | 0 => None
  | S n =>
      match parse_seq n fl s g with
      | Some (a, String c t, g1) =>
          if eqc "|" c then
            match parse_alt n fl t g1 with
            | Some (b, t', g2) => Some (Alt a b, t', g2)
            | None => None
            end
          else Some (a, String c t, g1)
      | other => other
      end
  end
with parse_seq (fuel : nat) (fl : flags) (s : string) (g : nat) {struct fuel}
  : option (regex * string * nat) :=
  match fuel with
  | 0 => None
  | S n =>
      match s with
      | EmptyString => Some (Eps, s, g)
      | String c _ =>
          if eqc "|" c || eqc ")" c then Some (Eps, s, g)
          else
            match parse_atom n fl s g with
            | Some (a, t, g1) =>
                match parse_quant a t with
                | Some (q, t') =>
                    match parse_seq n fl t' g1 with
                    | Some (b, t'', g2) => Some (Seq q b, t'', g2)
                    | None => None
                    end
                | None => None
                end
            | None => None
            end
      end
  end
with parse_atom (fuel : nat) (fl : flags) (s : string) (g : nat) {struct fuel}
  : option (regex * string * nat) :=
  match fuel with
  | 0 => None
  | S n =>
      match s with
      | EmptyString => None
      | String c t =>
          if eqc "(" c then
            match t with
            | String q (String m t') =>
                if eqc "?" q then
                  if eqc ":" m then
                    match parse_alt n fl t' g with
                    | Some (a, u, g1) =>
                        match closes u with
                        | Some u' => Some (a, u', g1)
                        | None => None
                        end
                    | None => None
                    end
                  else if eqc "=" m then
                    match parse_alt n fl t' g with
                    | Some (a, u, g1) =>
                        match closes u with
                        | Some u' => Some (Look a, u', g1)
                        | None => None
                        end
                    | None => None
                    end
                  else None
                else
                  match parse_alt n fl t (S g) with
                  | Some (a, u, g1) =>
                      match closes u with
                      | Some u' => Some (Grp g a, u', g1)
                      | None => None
                      end
                  | None => None
                  end
            | _ =>
                match parse_alt n fl t (S g) with
                | Some (a, u, g1) =>
                    match closes u with
                    | Some u' => Some (Grp g a, u', g1)
                    | None => None
                    end
                | None => None
                end
            end
          else if eqc "[" c then
            match t with
            | String h t' =>
                if eqc "^" h then
                  match parse_class t' nothing with
                  | Some (p, u) => Some (Chr (complement (fold_case fl p)), u, g)
                  | None => None
                  end
                else
                  match parse_class t nothing with
                  | Some (p, u) => Some (Chr (fold_case fl p), u, g)
                  | None => None
                  end
            | EmptyString => None
            end
          else if eqc "\" c then
            match t with
            | String e t' =>
                if eqc "b" e then Some (Test at_word_boundary, t', g)
                else if eqc "Z" e then Some (Test at_end, t', g)
                else
                  match escape_class e with
                  | Some p => Some (Chr (fold_case fl p), t', g)
                  | None => None
                  end
            | EmptyString => None
            end
          else if eqc "." c then
            Some (Chr (if DOTALL fl then (fun _ => true) else complement newline), t, g)
          else if eqc "^" c then Some (Test (at_bol fl), t, g)
          else if eqc "$" c then Some (Test (at_eol fl), t, g)
          else if eqc "*" c || eqc "+" c || eqc "?" c || eqc "{" c || eqc "}" c || eqc "]" c
          then None
          else Some (Chr (fold_case fl (eqc c)), t, g)
      end
  end.

Definition parse (fl : flags) (pattern : string) : option regex :=
  match parse_alt (4 * String.length pattern + 8) fl pattern 1 with
  | Some (r, EmptyString, _) => Some r
  | _ => None
  end.

(** [re.compile]; a pattern outside the subset matches nothing (Python
    raises instead; lemma [catalogue_compiles] shows that the patterns of
    the four pattern tables are all read). *)
Definition compile (fl : flags) (pattern : string) : regex :=
  match parse fl pattern with
  | Some r => r
  | None => Fail
  end.

(** *** Matching *)

Record state : Type := mkstate
  { pos : nat;
    prev : option ascii;
    rest : string;
    caps : list (nat * (nat * nat)) }.

Definition advance (c : ascii) (t : string) (s : state) : state :=
  mkstate (S (pos s)) (Some c) t (caps s).

Definition capture (i : nat) (from : nat) (s : state) : state :=
  mkstate (pos s) (prev s) (rest s) ((i, (from, pos s)) :: caps s).

Definition below (n : nat) (hi : option nat) : bool :=
  match hi with
  | None => true
  | Some h => n <? h
  end.

(** A repetition of [body], [n] iterations done: greedy, one more
    iteration is tried before stopping; lazy, stopping is tried first. An
    iteration has to consume a character (every repeated body of the
    catalogue does), so a repetition at [s] runs at most [length (rest s)]
    times and its fuel never runs out. *)
Section Repeat.
Variable body : state -> (state -> option state) -> option state.
Variable lo : nat.
Variable hi : option nat.
Variable greedy : bool.
Variable k : state -> option state.

Fixpoint repeat_from (fuel n : nat) (s : state) {struct fuel} : option state :=
  match fuel with
  | 0 => None
  | S fuel' =>
      if greedy then
        match
          (if below n hi
           then body s (fun s1 =>
                  if pos s <? pos s1 then repeat_from fuel' (S n) s1 else None)
           else None)
        with
        | Some f => Some f
        | None => if lo <=? n then k s else None
        end
      else
        match (if lo <=? n then k s else None) with
        | Some f => Some f
        | None =>
            if below n hi
            then body s (fun s1 =>
                   if pos s <? pos s1 then repeat_from fuel' (S n) s1 else None)
            else None
        end
  end.

End Repeat.

(** [run r s k]: match [r] at [s] and hand every way of doing so, in
    Python's order of preference, to the continuation [k] until one
    succeeds. *)
Fixpoint run (r : regex) (s : state) (k : state -> option state) {struct r}
  : option state :=
  match r with
  | Eps => k s
  | Fail => None
  | Chr p =>
      match rest s with
      | String c t => if p c then k (advance c t s) else None
      | EmptyString => None
      end
  | Seq a b => run a s (fun s1 => run b s1 k)
  | Alt a b =>
      match run a s k with
      | Some f => Some f
      | None => run b s k
      end
  | Rep a lo hi greedy =>
      repeat_from (run a) lo hi greedy k (S (String.length (rest s))) 0 s
  | Grp i a => run a s (fun s1 => k (capture i (pos s) s1))
  | Look a =>
      match run a s Some with
      | Some _ => k s
      | None => None
      end
  | Test t => if t (prev s) (rest s) then k s else None
  end.

(** A match object: [start()], [end()] and the spans of its groups. *)
Record Match : Type := mkMatch
  { m_start : nat; m_end : nat; m_caps : list (nat * (nat * nat)) }.

Definition match_at (r : regex) (p : nat) (pv : option ascii) (rs : string)
  : option Match :=
  match run r (mkstate p pv rs []) Some with
  | Some f => Some (mkMatch p (pos f) (caps f))
  | None => None
  end.

(** The matches from position [p] on, none starting before [resume]. After
    a match the scan resumes at its end (one further after an empty match;
    no pattern of the catalogue matches the empty string). *)
Fixpoint scan (r : regex) (p : nat) (pv : option ascii) (rs : string)
  (resume : nat) : list Match :=
  match (if resume <=? p then match_at r p pv rs else None) with
  | Some m =>
      m :: match rs with
           | EmptyString => []
           | String c t =>
               scan r (S p) (Some c) t (if m_end m =? p then S p else m_end m)
           end
  | None =>
      match rs with
      | EmptyString => []
      | String c t => scan r (S p) (Some c) t resume
      end
  end.

(** [re.finditer(pattern, text, flags)] *)
Definition finditer (fl : flags) (pattern text : string) : list Match :=
  scan (compile fl pattern) 0 None text 0.

Fixpoint first_match (r : regex) (p : nat) (pv : option ascii) (rs : string)
  : option Match :=
  match match_at r p pv rs with
  | Some m => Some m
  | None =>
      match rs with
      | EmptyString => None
      | String c t => first_match r (S p) (Some c) t
      end
  end.

(** [re.search(pattern, text, flags)] *)
Definition search (fl : flags) (pattern text : string) : option Match :=
  first_match (compile fl pattern) 0 None text.

Definition found (fl : flags) (pattern text : string) : bool :=
  match search fl pattern text with
  | Some _ => true
  | None => false
  end.

Fixpoint span_of (i : nat) (cs : list (nat * (nat * nat))) : option (nat * nat) :=
  match cs with
  | [] => None
  | (j, sp) :: t => if i =? j then Some sp else span_of i t
  end.

(** [m.group(0)] *)
Definition group0 (text : string) (m : Match) : string :=
  slice text (m_start m) (m_end m).

(** [m.group(i)] for [i >= 1]; [None] when the group took no part. *)
Definition group (text : string) (m : Match) (i : nat) : option string :=
  match span_of i (m_caps m) with
  | Some (a, b) => Some (slice text a b)
  | None => None
  end.

(** [re.findall] for a pattern with no capturing group. *)
Definition findall (fl : flags) (pattern text : string) : list string :=
  map (group0 text) (finditer fl pattern text).

(** [re.findall] for a pattern with one capturing group. *)
Definition findall1 (fl : flags) (pattern text : string) : list string :=
  map (fun m => match group text m 1 with Some g => g | None => "" end)
      (finditer fl pattern text).

(** [re.findall] for a pattern with two capturing groups: a pair per
    match, the empty string for a group that took no part. *)
Definition findall2 (fl : flags) (pattern text : string) : list (string * string) :=
  map (fun m => (match group text m 1 with Some g => g | None => "" end,
                 match group text m 2 with Some g => g | None => "" end))
      (finditer fl pattern text).

End Re.

(* ================================================================== *)
(** ** The interpreter's order of a set *)

(** [list(set(l))] lists the members of [l] once each, in an order that
    follows from the interpreter's string hashing: fixed within one process,
    not given by the program. *)
Record SetOrder : Type := mkSetOrder
  { list_of_set : list string -> list string;
    list_of_set_members :
      forall l, Permutation (list_of_set l) (nodup string_dec l) }.

(** One such order: that of the list, a repeated member at its last place. *)
Definition as_listed : SetOrder :=
  mkSetOrder (nodup string_dec) (fun l => Permutation_refl _).

(** Another, the reverse of it. *)
Definition as_reversed : SetOrder :=
  mkSetOrder (fun l => rev (nodup string_dec l))
             (fun l => Permutation_sym (Permutation_rev _)).

(* ================================================================== *)
(** ** core/clause_extractor.py *)

Module ClauseExtractor.
Import PyStr.

Record ExtractedClause : Type := mkExtractedClause
  { clause_id : string;
    title : string;
    content : string;
    category : string;
    risk_indicators : list string;
    key_terms : list string;
    amounts : list string;
    dates : list string }.

Definition CLAUSE_CATEGORIES : list (string * list string) :=
  [ ("payment",
     ["payment"; "compensation"; "salary"; "fee"; "price"; "cost";
      "invoice"; "billing"; "remuneration"]);
    ("termination",
     ["termination"; "terminate"; "cancel"; "cancellation"; "exit";
      "end of agreement"; "expiry"; "expire"]);
    ("confidentiality",
     ["confidential"; "confidentiality"; "non-disclosure"; "nda";
      "proprietary"; "trade secret"; "sensitive information"]);
    ("liability",
     ["liability"; "liable"; "indemnify"; "indemnification"; "indemnity";
      "hold harmless"; "defend"; "damages"]);
    ("intellectual_property",
     ["intellectual property"; "ip"; "patent"; "copyright"; "trademark";
      "invention"; "work product"; "proprietary rights"]);
    ("non_compete",
     ["non-compete"; "non compete"; "compete"; "competition";
      "competitive activity"; "restraint of trade"]);
    ("arbitration",
     ["arbitration"; "dispute"; "resolution"; "mediation"; "arbitrator"]);
    ("jurisdiction",
     ["jurisdiction"; "governing law"; "venue"; "court"; "applicable law"]);
    ("warranty",
     ["warranty"; "warranties"; "represent"; "representation";
      "guarantee"; "assurance"]);
    ("force_majeure",
     ["force majeure"; "act of god"; "unforeseen"; "beyond control";
      "natural disaster"; "pandemic"]);
    ("renewal",
     ["renewal"; "renew"; "auto-renew"; "automatic renewal"; "extension";
      "extend"; "evergreen"]);
    ("notice",
     ["notice"; "notification"; "notify"; "inform"; "written notice"]);
    ("assignment",
     ["assignment"; "assign"; "transfer"; "delegate"; "succession"]);
    ("amendment",
     ["amendment"; "amend"; "modify"; "modification"; "change"]);
    ("definitions",
     ["definition"; "defined"; "means"; "shall mean"; "interpretation"]);
    ("scope",
     ["scope"; "services"; "deliverables"; "obligations"; "responsibilities";
      "work"; "duties"]) ].

Definition HIGH_RISK_PATTERNS : list (string * list string) :=
  [ ("unlimited_liability",
     ["unlimited\s+liability";
      "full\s+liability";
      "liable\s+for\s+all\s+damages"]);
    ("unilateral_termination",
     ["(?:party\s+[ab12]|employer|company)\s+may\s+terminate\s+(?:at\s+any\s+time|without\s+cause|immediately)";
      "sole\s+discretion.*terminat"]);
    ("excessive_penalty",
     ["penalty\s+of\s+(?:rs\.?|inr|₹)\s*[\d,]+";
      "liquidated\s+damages.*(?:rs\.?|inr|₹)\s*[\d,]+"]);
    ("broad_non_compete",
     ["(?:worldwide|global|unlimited)\s+(?:non-compete|restriction)";
      "non-compete.*(?:\d+\s+years|\d+\s+year\s+period)"]);
    ("ip_assignment",
     ["assign.*all.*(?:intellectual\s+property|ip|rights)";
      "work.*for.*hire";
      "transfer.*ownership.*(?:ip|intellectual)"]);
    ("auto_renewal",
     ["auto(?:matic)?(?:ally)?\s+renew";
      "evergreen.*clause"]);
    ("one_sided_indemnity",
     ["(?:employee|contractor|vendor)\s+shall\s+indemnify";
      "indemnify.*(?:company|employer).*all.*claims"]) ].

(** The instance: [self.clauses]. *)
Record instance : Type := mkinstance { clauses : list ExtractedClause }.

Definition __init__ : instance := mkinstance [].

(** An entry of [all_matches]: the keys ["id"], ["title"], ["start"] and
    ["end"] of the dictionary. *)
Record Heading : Type := mkHeading
  { h_id : string; h_title : string; h_start : nat; h_end : nat }.

Definition clause_patterns : list string :=
  [ "(?:^|\n)\s*(\d+(?:\.\d+)*)\s*[\.:\)]\s*([A-Z][^\n]{0,100})";
    "(?:^|\n)\s*(?:ARTICLE|Article|SECTION|Section|CLAUSE|Clause)\s*(\d+(?:\.\d+)?)[\.:\s]+([^\n]+)";
    "(?:^|\n)\s*([IVXLC]+)\s*[\.:\)]\s*([^\n]+)";
    "(?:^|\n)\s*\(([a-z])\)\s*([^\n]+)" ].

(** [m.group(i)] of a group every match has (both groups of each of the
    four patterns are mandatory). *)
Definition group_str (text : string) (m : Re.Match) (i : nat) : string :=
  match Re.group text m i with
  | Some g => g
  | None => ""
  end.

Definition heading_of (text : string) (m : Re.Match) : Heading :=
  mkHeading (group_str text m 1) (strip (group_str text m 2))
            (Re.m_start m) (Re.m_end m).

(** The matches of the four conventions, collected convention by
    convention and then sorted by position. *)
Definition all_matches (text : string) : list Heading :=
  PyList.sorted (fun h => Z.of_nat (h_start h)) false
    (flat_map (fun pattern => map (heading_of text) (Re.finditer Re.I_M pattern text))
              clause_patterns).

Definition _categorize_clause (title content : string) : string :=
  let combined_text := lower (title ++ " " ++ content) in
  let category_scores :=
    flat_map
      (fun entry : string * list string =>
         let score :=
           List.length (filter (fun keyword => contains keyword combined_text) (snd entry)) in
         if 0 <? score then [(fst entry, score)] else [])
      CLAUSE_CATEGORIES in
  match PyList.max_by (fun cs : string * nat => Z.of_nat (snd cs)) category_scores with
  | Some best => fst best
  | None => "general"
  end.

Definition _extract_key_terms (content : string) : list string :=
  let legal_terms :=
    ["shall"; "must"; "may"; "will"; "agrees"; "warrants"; "represents";
     "indemnify"; "terminate"; "liable"; "confidential"; "proprietary";
     "exclusive"; "non-exclusive"; "irrevocable"; "perpetual"] in
  let content_lower := lower content in
  firstn 10 (filter (fun term => contains term content_lower) legal_terms).

Definition _extract_amounts (content : string) : list string :=
  let patterns :=
    [ "(?:Rs\.?|INR|₹)\s*[\d,]+(?:\.\d{2})?";
      "\$\s*[\d,]+(?:\.\d{2})?";
      "[\d,]+\s*(?:rupees|dollars|lakhs?|crores?)" ] in
  firstn 5 (flat_map (fun pattern => Re.findall Re.I pattern content) patterns).

Definition _extract_dates (content : string) : list string :=
  let patterns :=
    [ "\b\d{1,2}[\/\-]\d{1,2}[\/\-]\d{2,4}\b";
      "\b\d{1,2}(?:st|nd|rd|th)?\s+(?:Jan|Feb|Mar|Apr|May|Jun|Jul|Aug|Sep|Oct|Nov|Dec)[a-z]*\s*,?\s*\d{4}\b";
      "\b(?:January|February|March|April|May|June|July|August|September|October|November|December)\s+\d{1,2},?\s+\d{4}\b" ] in
  firstn 5 (flat_map (fun pattern => Re.findall Re.I pattern content) patterns).

(** The first pattern of the list that is found, if any: the inner loop
    with its [break]. *)
Fixpoint any_found (patterns : list string) (text : string) : bool :=
  match patterns with
  | [] => false
  | pattern :: more => if Re.found Re.I pattern text then true else any_found more text
  end.

Section Methods.
Variable py : SetOrder.

Definition _find_risk_indicators (content : string) : list string :=
  let content_lower := lower content in
  let risk_indicators :=
    fold_left
      (fun acc (entry : string * list string) =>
         if any_found (snd entry) content_lower then (acc ++ [fst entry])%list else acc)
      HIGH_RISK_PATTERNS [] in
  list_of_set py risk_indicators.

(** The clause of a heading whose body [content] (trimmed) is kept. *)
Definition clause_of (h : Heading) (content : string) : ExtractedClause :=
  mkExtractedClause
    (h_id h)
    (take 200 (h_title h))
    (take 2000 content)
    (_categorize_clause (h_title h) content)
    (_find_risk_indicators content)
    (_extract_key_terms content)
    (_extract_amounts content)
    (_extract_dates content).

(** Where the body of the first heading of [hs] ends: at the next heading,
    or at the end of the text. *)
Definition body_end (text : string) (following : list Heading) : nat :=
  match following with
  | next :: _ => h_start next
  | [] => String.length text
  end.

(** The loop over [all_matches]. *)
Fixpoint carve (text : string) (hs : list Heading) (self : instance) : instance :=
  match hs with
  | [] => self
  | h :: following =>
      let content := strip (slice text (h_end h) (body_end text following)) in
      if String.length content <? 20
      then carve text following self
      else carve text following
             (mkinstance (clauses self ++ [clause_of h content])%list)
  end.

Definition extract_clauses (self : instance) (text : string)
  : instance * list ExtractedClause :=
  let self := mkinstance [] in
  let self := carve text (all_matches text) self in
  (self, clauses self).

(** The dictionary [dimensions], a field per key. *)
Record Dimensions : Type := mkDimensions
  { parties : list string;
    financial_amounts : list string;
    obligations : list string;
    liabilities : list string;
    deliverables : list string;
    timeline : list string;
    duration : option string;
    termination_conditions : list string;
    jurisdiction : option string;
    governing_law : option string;
    ip_rights : list string;
    confidentiality_terms : list string;
    nda_terms : list string }.

(** The section under the first heading line that names one of the
    keywords, up to the next numbered heading: [match.group(0)[:1000]]. *)
Fixpoint _extract_section (text : string) (keywords : list string) : option string :=
  match keywords with
  | [] => None
  | keyword :: more =>
      let pattern :=
        "(?:^|\n)\s*(?:\d+(?:\.\d+)*\.?\s*)?[^\n]*" ++ keyword
        ++ "[^\n]*\n(.+?)(?=(?:^|\n)\s*\d+(?:\.\d+)*\.\s*[A-Z]|\Z)" in
      match Re.search Re.I_M_S pattern text with
      | Some m => Some (take 1000 (Re.group0 text m))
      | None => _extract_section text more
      end
  end.

(** The members of a two-group match that are not blank, trimmed. *)
Definition stripped_members (pair : string * string) : list string :=
  filter (fun m => negb (String.eqb m ""))
         [strip (fst pair); strip (snd pair)].

(** A value counts as true when it is there and not empty. *)
Definition truthy (section : option string) : option string :=
  match section with
  | Some EmptyString => None
  | other => other
  end.

Definition extract_data_dimensions (self : instance) (text : string) : Dimensions :=
  let parties :=
    (flat_map stripped_members
       (Re.findall2 Re.I_S
          "(?:between|BETWEEN)\s+(.+?)\s+(?:and|AND)\s+(.+?)(?:\.|,|\n)" text)
     ++ map strip
          (Re.findall1 Re.I_S "(?:Party\s*[AB12])[:\s]+(.+?)(?:\n|,|\.)" text)
     ++ map strip
          (Re.findall1 Re.I_S
             ("(?:hereinafter.*(?:called|referred).*[" ++ DQ ++ "\'](.+?)["
              ++ DQ ++ "\'])")
             text))%list in
  let parties := firstn 10 (list_of_set py parties) in
  let amount_pattern := "(?:Rs\.?|INR|₹|\$)\s*([\d,]+(?:\.\d{2})?)" in
  let financial_amounts := firstn 20 (Re.findall1 Re.NOFLAG amount_pattern text) in
  let duration_pattern :=
    "(?:term|period|duration)\s+(?:of\s+)?(\d+)\s+(years?|months?|days?)" in
  let duration :=
    match Re.search Re.I duration_pattern text with
    | Some m => Some (group_str text m 1 ++ " " ++ group_str text m 2)
    | None => None
    end in
  let jurisdiction_pattern :=
    "(?:governed by|subject to|jurisdiction of)\s+(?:the\s+)?(?:laws?\s+of\s+)?([A-Za-z\s,]+)(?:\.|\n|$)" in
  let jurisdiction :=
    match Re.search Re.I jurisdiction_pattern text with
    | Some m => Some (strip (group_str text m 1))
    | None => None
    end in
  let termination_conditions :=
    match truthy (_extract_section text ["termination"; "terminate"]) with
    | Some termination_section =>
        let conditions :=
          Re.findall1 Re.I
            "(?:may\s+terminate|terminate.*(?:if|upon|when))(.+?)(?:\.|;|$)"
            termination_section in
        map (fun c => take 200 (strip c)) (firstn 5 conditions)
    | None => []
    end in
  let ip_pattern :=
    "(?:intellectual\s+property|patent|copyright|trademark|invention)(.{0,200})" in
  let ip_matches := Re.findall1 Re.I ip_pattern text in
  let ip_rights := map (fun m => take 200 (strip m)) (firstn 5 ip_matches) in
  let confidentiality_terms :=
    match truthy (_extract_section text ["confidential"; "non-disclosure"; "nda"]) with
    | Some conf_section => [take 500 conf_section]
    | None => []
    end in
  mkDimensions parties financial_amounts [] [] [] [] duration
    termination_conditions jurisdiction jurisdiction ip_rights
    confidentiality_terms [].

End Methods.

(** The dictionary [summary], in the order its keys were first set:
    [summary.get(category, 0)]. *)
Fixpoint summary_get (summary : list (string * nat)) (category : string) : nat :=
  match summary with
  | [] => 0
  | (key, n) :: more =>
      if String.eqb key category then n else summary_get more category
  end.

(** [summary[category] = n]: the value of a key that is there is replaced
    where it stands, a new key goes last. *)
Fixpoint summary_set (summary : list (string * nat)) (category : string) (n : nat)
  : list (string * nat) :=
  match summary with
  | [] => [(category, n)]
  | (key, old) :: more =>
      if String.eqb key category then (key, n) :: more
      else (key, old) :: summary_set more category n
  end.

Definition get_clause_summary (self : instance) : list (string * nat) :=
  fold_left
    (fun summary clause =>
       let category := category clause in
       summary_set summary category (summary_get summary category + 1))
    (clauses self) [].

End ClauseExtractor.

(* ================================================================== *)
(** ** core/contract_classifier.py *)

Module ContractClassifier.
Import PyStr.

Record ClassificationResult : Type := mkClassificationResult
  { contract_type : string;
    confidence : Q;
    sub_type : string;
    key_indicators : list string }.

(** A profile of [CONTRACT_PATTERNS]. *)
Record TypeInfo : Type := mkTypeInfo
  { keywords : list string; patterns : list string; sub_types : list string }.

Definition CONTRACT_PATTERNS : list (string * TypeInfo) :=
  [ ("Employment Agreement", mkTypeInfo
      ["employment"; "employee"; "employer"; "salary"; "compensation";
       "working hours"; "leave"; "provident fund"; "gratuity"; "probation";
       "termination of employment"; "notice period"; "designation"; "job duties";
       "reporting"; "workplace"; "office hours"]
      ["employment\s+agreement";
       "contract\s+of\s+employment";
       "letter\s+of\s+appointment";
       "offer\s+letter";
       "service\s+agreement.*employee"]
      ["Full-time"; "Part-time"; "Fixed-term"; "Probationary"; "Executive"]);
    ("Vendor Contract", mkTypeInfo
      ["vendor"; "supplier"; "purchase"; "supply"; "goods"; "materials";
       "delivery"; "invoice"; "procurement"; "quality"; "specifications";
       "order"; "consignment"; "warranty on goods"]
      ["vendor\s+agreement";
       "supply\s+agreement";
       "purchase\s+agreement";
       "procurement\s+contract";
       "supplier\s+contract"]
      ["Supply Agreement"; "Purchase Order"; "Framework Agreement"]);
    ("Lease Agreement", mkTypeInfo
      ["lease"; "lessor"; "lessee"; "rent"; "rental"; "premises"; "property";
       "tenant"; "landlord"; "security deposit"; "maintenance"; "occupancy";
       "possession"; "eviction"; "sub-lease"; "monthly rent"]
      ["lease\s+(?:agreement|deed)";
       "rental\s+agreement";
       "tenancy\s+agreement";
       "leave\s+and\s+license";
       "property\s+lease"]
      ["Residential"; "Commercial"; "Industrial"; "Leave and License"]);
    ("Partnership Deed", mkTypeInfo
      ["partnership"; "partner"; "partners"; "profit sharing"; "capital contribution";
       "partnership firm"; "mutual consent"; "dissolution"; "goodwill";
       "partner's share"; "draw"; "partnership act"]
      ["partnership\s+deed";
       "partnership\s+agreement";
       "articles\s+of\s+partnership";
       "(?:general|limited)\s+partnership"]
      ["General Partnership"; "Limited Partnership"; "LLP"]);
    ("Service Contract", mkTypeInfo
      ["services"; "service provider"; "client"; "deliverables"; "scope of work";
       "milestones"; "project"; "consultancy"; "professional services";
       "statement of work"; "sow"; "service level"; "sla"]
      ["service\s+agreement";
       "consulting\s+agreement";
       "professional\s+services\s+agreement";
       "master\s+service\s+agreement";
       "statement\s+of\s+work"]
      ["Consulting"; "IT Services"; "Professional Services"; "Maintenance"]);
    ("Non-Disclosure Agreement", mkTypeInfo
      ["confidential"; "non-disclosure"; "nda"; "proprietary"; "trade secret";
       "confidential information"; "receiving party"; "disclosing party";
       "sensitive information"; "protect"]
      ["non-disclosure\s+agreement";
       "confidentiality\s+agreement";
       "\bnda\b";
       "mutual\s+(?:non-disclosure|confidentiality)"]
      ["Mutual NDA"; "One-way NDA"; "Employee NDA"]);
    ("Licensing Agreement", mkTypeInfo
      ["license"; "licensor"; "licensee"; "royalty"; "intellectual property";
       "trademark"; "patent"; "copyright"; "sublicense"; "territory";
       "exclusive"; "non-exclusive"; "usage rights"]
      ["licens(?:e|ing)\s+agreement";
       "software\s+license";
       "trademark\s+license";
       "patent\s+license";
       "end\s+user\s+license"]
      ["Software License"; "IP License"; "Franchise"; "Technology License"]);
    ("Sales Agreement", mkTypeInfo
      ["sale"; "seller"; "buyer"; "purchaser"; "purchase price"; "goods";
       "transfer of ownership"; "title"; "delivery"; "payment terms";
       "bill of sale"; "consideration"]
      ["sale\s+agreement";
       "sale\s+deed";
       "agreement\s+(?:for|of)\s+sale";
       "purchase\s+and\s+sale"]
      ["Asset Sale"; "Share Sale"; "Real Estate Sale"; "Business Sale"]);
    ("Loan Agreement", mkTypeInfo
      ["loan"; "lender"; "borrower"; "principal"; "interest"; "repayment";
       "emi"; "collateral"; "security"; "default"; "disbursement";
       "promissory note"; "mortgage"]
      ["loan\s+agreement";
       "credit\s+agreement";
       "facility\s+agreement";
       "promissory\s+note"]
      ["Personal Loan"; "Business Loan"; "Mortgage"; "Line of Credit"]);
    ("Franchise Agreement", mkTypeInfo
      ["franchise"; "franchisee"; "franchisor"; "brand"; "trademark usage";
       "franchise fee"; "royalty"; "territory"; "operational standards";
       "training"; "marketing fund"]
      ["franchise\s+agreement";
       "franchising\s+agreement";
       "master\s+franchise"]
      ["Unit Franchise"; "Master Franchise"; "Area Development"]) ].

(** The instance: [self.result]. *)
Record instance : Type := mkinstance { result : option ClassificationResult }.

Definition __init__ : instance := mkinstance None.

(** [CONTRACT_PATTERNS.get(contract_type)] *)
Fixpoint get (table : list (string * TypeInfo)) (contract_type : string)
  : option TypeInfo :=
  match table with
  | [] => None
  | (name, type_info) :: more =>
      if String.eqb name contract_type then Some type_info else get more contract_type
  end.

Definition Z_min (a b : Z) : Z := if (b <? a)%Z then b else a.

(** The keyword loop: every keyword that occurs adds its count, at most 5. *)
Definition score_keywords (text_lower : string) (keywords : list string)
  (acc : Z * list string) : Z * list string :=
  fold_left
    (fun (acc : Z * list string) keyword =>
       let count := PyStr.count text_lower (lower keyword) in
       if 0 <? count
       then ((fst acc + Z_min (Z.of_nat count) 5)%Z, (snd acc ++ [keyword])%list)
       else acc)
    keywords acc.

(** The pattern loop: every pattern that is found adds 10. *)
Definition score_patterns (text_lower : string) (patterns : list string)
  (acc : Z * list string) : Z * list string :=
  fold_left
    (fun (acc : Z * list string) pattern =>
       if Re.found Re.I pattern text_lower
       then ((fst acc + 10)%Z,
             (snd acc ++ [("[pattern: " ++ take 30 pattern ++ "...]")%string])%list)
       else acc)
    patterns acc.

(** An entry of [scores]: the type with its ["score"] and ["keywords"]. *)
Definition score_entry : Type := string * (Z * list string).

Definition score_type (text_lower : string) (entry : string * TypeInfo)
  : list score_entry :=
  let acc := score_keywords text_lower (keywords (snd entry)) (0%Z, []) in
  let acc := score_patterns text_lower (patterns (snd entry)) acc in
  if (0 <? fst acc)%Z then [(fst entry, (fst acc, firstn 10 (snd acc)))] else [].

Definition scores_of (text_lower : string) : list score_entry :=
  flat_map (score_type text_lower) CONTRACT_PATTERNS.

Fixpoint first_contained (sub_types : list string) (text_lower : string)
  : option string :=
  match sub_types with
  | [] => None
  | sub_type :: more =>
      if contains (lower sub_type) text_lower then Some sub_type
      else first_contained more text_lower
  end.

Definition _determine_sub_type (text_lower contract_type : string) : string :=
  let sub_types :=
    match get CONTRACT_PATTERNS contract_type with
    | Some type_info => sub_types type_info
    | None => []
    end in
  match first_contained sub_types text_lower with
  | Some sub_type => sub_type
  | None =>
      if String.eqb contract_type "Employment Agreement" then
        if contains "probation" text_lower then "Probationary"
        else if contains "fixed term" text_lower || contains "fixed-term" text_lower
        then "Fixed-term"
        else if contains "executive" text_lower || contains "managing director" text_lower
        then "Executive"
        else "Full-time"
      else if String.eqb contract_type "Lease Agreement" then
        if contains "residential" text_lower || contains "house" text_lower
           || contains "apartment" text_lower
        then "Residential"
        else if contains "commercial" text_lower || contains "office" text_lower
                || contains "shop" text_lower
        then "Commercial"
        else if contains "leave and license" text_lower then "Leave and License"
        else "Commercial"
      else if String.eqb contract_type "Non-Disclosure Agreement" then
        if contains "mutual" text_lower then "Mutual NDA" else "One-way NDA"
      else
        match sub_types with
        | first :: _ => first
        | [] => ""
        end
  end.

(** [len(keywords) * 5 + len(patterns) * 10] of the profile of
    [best_type]. *)
Definition max_possible_of (best_type : string) : Z :=
  match get CONTRACT_PATTERNS best_type with
  | Some type_info =>
      (Z.of_nat (List.length (keywords type_info)) * 5
       + Z.of_nat (List.length (patterns type_info)) * 10)%Z
  | None => 0%Z
  end.

Definition classify (self : instance) (text : string)
  : instance * ClassificationResult :=
  let text_lower := lower text in
  let scores := scores_of text_lower in
  match PyList.max_by (fun e : score_entry => fst (snd e)) scores with
  | None =>
      let r := mkClassificationResult "Unknown" 0 "" [] in
      (mkinstance (Some r), r)
  | Some best =>
      let best_type := fst best in
      let best_score := fst (snd best) in
      let max_possible := max_possible_of best_type in
      let confidence :=
        PyNum.min 1 (inject_Z best_score / (inject_Z max_possible * (3 # 10)))%Q in
      let sub_type := _determine_sub_type text_lower best_type in
      let r := mkClassificationResult best_type (PyNum.round confidence 2)
                 sub_type (snd (snd best)) in
      (mkinstance (Some r), r)
  end.

(** The score [get_all_scores] gives a profile: 1 for every keyword that
    occurs, 5 for every pattern that is found. *)
Definition presence_score (text_lower : string) (type_info : TypeInfo) : Z :=
  let score :=
    fold_left
      (fun score keyword =>
         if contains (lower keyword) text_lower then (score + 1)%Z else score)
      (keywords type_info) 0%Z in
  fold_left
    (fun score pattern =>
       if Re.found Re.I pattern text_lower then (score + 5)%Z else score)
    (patterns type_info) score.

Definition get_all_scores (self : instance) (text : string) : list (string * Z) :=
  let text_lower := lower text in
  let scores :=
    flat_map
      (fun entry : string * TypeInfo =>
         let score := presence_score text_lower (snd entry) in
         if (0 <? score)%Z then [(fst entry, score)] else [])
      CONTRACT_PATTERNS in
  PyList.sorted (fun x : string * Z => snd x) true scores.

(** [f"{x:.0%}"] of a confidence: a hundred times it, rounded to a whole
    number, and the percent sign. *)
Definition percent (x : Q) : string :=
  PyNum.str (Z.to_nat (PyNum.round_half_even (x * 100))) ++ "%".

Definition get_classification_summary (self : instance) : string :=
  match result self with
  | None => "No classification performed yet."
  | Some r =>
      let confidence_label :=
        if Qle_bool (7 # 10) (confidence r) then "High"
        else if Qle_bool (4 # 10) (confidence r) then "Medium"
        else "Low" in
      let summary := "Contract Type: " ++ contract_type r in
      let summary :=
        if String.eqb (sub_type r) "" then summary
        else summary ++ " (" ++ sub_type r ++ ")" in
      let summary :=
        summary ++ LF ++ "Confidence: " ++ percent (confidence r)
        ++ " (" ++ confidence_label ++ ")" in
      match key_indicators r with
      | [] => summary
      | _ =>
          summary ++ LF ++ "Key Indicators: "
          ++ join ", " (firstn 5 (key_indicators r))
      end
  end.

End ContractClassifier.

(* ================================================================== *)
(** ** core/risk_assessor.py *)

Module RiskAssessor.
Import PyStr.

Inductive RiskLevel : Type := LOW | MEDIUM | HIGH | CRITICAL.

Definition level_eqb (a b : RiskLevel) : bool :=
  match a, b with
  | LOW, LOW | MEDIUM, MEDIUM | HIGH, HIGH | CRITICAL, CRITICAL => true
  | _, _ => false
  end.

(** A finding; every place that makes one stores an integer weight as its
    [score]. *)
Record RiskFinding : Type := mkRiskFinding
  { clause_id : string;
    risk_type : string;
    risk_level : RiskLevel;
    score : Z;
    description : string;
    original_text : string;
    suggestion : string;
    indian_law_reference : string }.

Record RiskReport : Type := mkRiskReport
  { overall_score : Q;
    overall_level : RiskLevel;
    high_risk_count : nat;
    medium_risk_count : nat;
    low_risk_count : nat;
    findings : list RiskFinding;
    summary : string }.

Definition RISK_WEIGHTS : list (string * Z) :=
  [ ("unlimited_liability", 9);
    ("one_sided_indemnity", 8);
    ("unilateral_termination", 8);
    ("ip_full_transfer", 8);
    ("broad_non_compete", 7);
    ("excessive_penalty", 7);
    ("auto_renewal_hidden", 6);
    ("unfavorable_jurisdiction", 6);
    ("vague_termination", 5);
    ("missing_liability_cap", 5);
    ("missing_notice_period", 4);
    ("ambiguous_deliverables", 4);
    ("missing_dispute_resolution", 4);
    ("unclear_payment_terms", 3);
    ("missing_confidentiality", 3) ]%Z.

(** An entry of [RISK_PATTERNS]: the keys ["patterns"], ["description"],
    ["suggestion"] and ["indian_law"]. *)
Record RiskInfo : Type := mkRiskInfo
  { patterns : list string;
    info_description : string;
    info_suggestion : string;
    indian_law : string }.

Definition RISK_PATTERNS : list (string * RiskInfo) :=
  [ ("unlimited_liability", mkRiskInfo
      ["unlimited\s+liability";
       "liable\s+for\s+all\s+(?:damages|losses|claims)";
       "full\s+liability\s+for";
       "no\s+limitation\s+(?:on|of)\s+liability"]
      "Unlimited liability exposure"
      "Negotiate a liability cap (typically 12 months of fees or specific amount)"
      "Indian Contract Act, Section 73-74 allows for reasonable limitation");
    ("one_sided_indemnity", mkRiskInfo
      ["(?:vendor|contractor|employee|consultant)\s+shall\s+(?:fully\s+)?indemnify";
       "indemnify\s+(?:and\s+hold\s+harmless\s+)?(?:the\s+)?(?:company|employer|client)";
       "defend\s+(?:and\s+)?indemnify.*(?:all|any)\s+claims"]
      "One-sided indemnification favoring the other party"
      "Request mutual indemnification or limit indemnity scope"
      "Should be mutual per fair contract principles");
    ("unilateral_termination", mkRiskInfo
      ["(?:company|employer|client)\s+may\s+terminate\s+(?:at\s+any\s+time|without\s+cause|immediately|forthwith)";
       "terminate\s+(?:this\s+agreement\s+)?at\s+(?:its?\s+)?sole\s+discretion";
       "reserved?\s+(?:the\s+)?right\s+to\s+terminate\s+without"]
      "Only one party can terminate without cause"
      "Ensure mutual termination rights with reasonable notice period"
      "Indian Contract Act requires reasonable opportunity to cure");
    ("ip_full_transfer", mkRiskInfo
      ["assign(?:s|ed)?\s+all\s+(?:right|title|interest).*(?:intellectual\s+property|ip|work\s+product)";
       "work(?:s)?\s+(?:made\s+)?for\s+hire";
       "(?:all|any)\s+(?:inventions?|creations?|developments?).*(?:belong|vest|transfer).*(?:company|employer)";
       "irrevocable.*(?:license|assignment|transfer).*(?:ip|intellectual)"]
      "Complete transfer of intellectual property rights"
      "Negotiate to retain rights to pre-existing IP and general knowledge"
      "Copyright Act, 1957 - Assignment should be in writing and specific");
    ("broad_non_compete", mkRiskInfo
      ["(?:shall\s+)?not\s+(?:directly\s+or\s+indirectly\s+)?(?:engage|work|compete).*(?:worldwide|global|any\s+(?:market|territory))";
       "non-compete.*(?:[2-9]|[1-9]\d+)\s+years";
       "restrain(?:ed|t)?\s+from\s+(?:engaging|working|competing).*(?:perpetual|indefinite)"]
      "Overly broad non-compete restrictions"
      "Limit geographic scope and duration (6-12 months is typical in India)"
      "Section 27 of Indian Contract Act - Restraint of trade is void unless reasonable");
    ("excessive_penalty", mkRiskInfo
      ["(?:penalty|liquidated\s+damages)\s+(?:of|equal\s+to)\s+(?:rs\.?|inr|₹)\s*(?:[5-9]\d{5,}|[1-9]\d{6,})";
       "forfeit.*(?:entire|full|all).*(?:amount|fee|payment)";
       "penalty.*(?:double|triple|twice|thrice)"]
      "Potentially excessive penalty clauses"
      "Negotiate reasonable and proportionate penalties"
      "Section 74 of Indian Contract Act - Only reasonable compensation is recoverable");
    ("auto_renewal_hidden", mkRiskInfo
      ["(?:automatically|auto)\s+renew(?:ed|s)?";
       "shall\s+(?:continue|renew)\s+(?:for|unless).*(?:notice|terminated)";
       "evergreen\s+(?:clause|term|provision)"]
      "Automatic renewal clause that may lock you in"
      "Add clear opt-out mechanism with reasonable notice period"
      "Consumer Protection Act, 2019 requires clear disclosure");
    ("unfavorable_jurisdiction", mkRiskInfo
      ["(?:exclusive\s+)?jurisdiction\s+(?:of|in)\s+(?:courts?\s+(?:of|in)\s+)?(?:london|new\s+york|singapore|hong\s+kong|us|uk|england)";
       "governed\s+by.*(?:laws?\s+of\s+)?(?:england|new\s+york|singapore|delaware)"]
      "Foreign jurisdiction may be costly and inconvenient"
      "Negotiate for local Indian jurisdiction (preferably your state)"
      "Indian courts should have jurisdiction for domestic parties");
    ("vague_termination", mkRiskInfo
      ["terminate.*(?:any\s+reason|no\s+reason|whatsoever)";
       "(?:at\s+will|without\s+cause).*terminat"]
      "Vague termination grounds without proper process"
      "Define specific grounds for termination and cure periods"
      "Industrial Disputes Act requires proper process for employment termination");
    ("missing_liability_cap", mkRiskInfo
      ["(?:no|without)\s+(?:limitation|cap|ceiling)\s+(?:on|of)\s+(?:liability|damages)"]
      "No cap on liability exposure"
      "Include liability cap (e.g., total fees paid in last 12 months)"
      "Parties can contractually limit liability under Indian Contract Act") ].

(** The instance: [self.findings] and [self.overall_score]. *)
Record instance : Type := mkinstance
  { self_findings : list RiskFinding; self_overall_score : Q }.

Definition __init__ : instance := mkinstance [] 0.

Definition set_findings (self : instance) (fs : list RiskFinding) : instance :=
  mkinstance fs (self_overall_score self).

(** [self.findings.append(finding)] *)
Definition append (self : instance) (finding : RiskFinding) : instance :=
  set_findings self (self_findings self ++ [finding])%list.

(** A clause dictionary as the assessor reads it: the keys ["clause_id"],
    ["number"], ["content"] and ["risk_indicators"], each present or not. *)
Record Clause : Type := mkClause
  { key_clause_id : option string;
    key_number : option string;
    key_content : option string;
    key_risk_indicators : option (list string) }.

(** [RISK_WEIGHTS.get(risk_type)] *)
Fixpoint weight_of (table : list (string * Z)) (risk_type : string) : option Z :=
  match table with
  | [] => None
  | (name, w) :: more =>
      if String.eqb name risk_type then Some w else weight_of more risk_type
  end.

(** [RISK_WEIGHTS.get(risk_type, 5)] *)
Definition weight_or_5 (risk_type : string) : Z :=
  match weight_of RISK_WEIGHTS risk_type with
  | Some w => w
  | None => 5%Z
  end.

(** [RISK_PATTERNS.get(indicator)] *)
Fixpoint info_of (table : list (string * RiskInfo)) (risk_type : string)
  : option RiskInfo :=
  match table with
  | [] => None
  | (name, info) :: more =>
      if String.eqb name risk_type then Some info else info_of more risk_type
  end.

Definition _score_to_level (score : Q) : RiskLevel :=
  if Qle_bool 8 score then CRITICAL
  else if Qle_bool 6 score then HIGH
  else if Qle_bool 4 score then MEDIUM
  else LOW.

(** [risk_type.replace("_", " ").title()] *)
Definition label (risk_type : string) : string :=
  title (replace_char "_" " " risk_type).

(** The finding of one match of a document-wide pattern, with 100
    characters of context on each side. *)
Definition text_finding (text risk_type : string) (risk_info : RiskInfo)
  (m : Re.Match) : RiskFinding :=
  let start := Re.m_start m - 100 in
  let stop := Nat.min (String.length text) (Re.m_end m + 100) in
  let context := slice text start stop in
  let score := weight_or_5 risk_type in
  mkRiskFinding "general" (label risk_type) (_score_to_level (inject_Z score))
    score (info_description risk_info) (strip context)
    (info_suggestion risk_info) (indian_law risk_info).

(** Append unless a finding of the same risk type and text is there. *)
Definition add_unless_same_text (self : instance) (finding : RiskFinding) : instance :=
  if existsb (fun f => String.eqb (risk_type f) (risk_type finding)
                       && String.eqb (original_text f) (original_text finding))
             (self_findings self)
  then self
  else append self finding.

Definition _analyze_text_risks (self : instance) (text : string) : instance :=
  let text_lower := lower text in
  fold_left
    (fun self (entry : string * RiskInfo) =>
       fold_left
         (fun self pattern =>
            fold_left
              (fun self m =>
                 add_unless_same_text self (text_finding text (fst entry) (snd entry) m))
              (Re.finditer Re.I pattern text_lower) self)
         (patterns (snd entry)) self)
    RISK_PATTERNS self.

(** [str(clause.get("clause_id", clause.get("number", "unknown")))] *)
Definition clause_id_of (clause : Clause) : string :=
  match key_clause_id clause with
  | Some i => i
  | None =>
      match key_number clause with
      | Some n => n
      | None => "unknown"
      end
  end.

Definition content_of (clause : Clause) : string :=
  match key_content clause with
  | Some c => c
  | None => ""
  end.

Definition indicators_of (clause : Clause) : list string :=
  match key_risk_indicators clause with
  | Some l => l
  | None => []
  end.

(** The finding of an indicator of weight [score]. *)
Definition clause_finding (clause : Clause) (indicator : string) (score : Z)
  : RiskFinding :=
  let risk_info := info_of RISK_PATTERNS indicator in
  mkRiskFinding (clause_id_of clause) (label indicator)
    (_score_to_level (inject_Z score)) score
    (match risk_info with Some i => info_description i | None => indicator end)
    (take 200 (content_of clause))
    (match risk_info with Some i => info_suggestion i | None => "" end)
    (match risk_info with Some i => indian_law i | None => "" end).

(** Append unless a finding of the same clause and risk type is there. *)
Definition add_unless_same_clause (self : instance) (finding : RiskFinding) : instance :=
  if existsb (fun f => String.eqb (clause_id f) (clause_id finding)
                       && String.eqb (risk_type f) (risk_type finding))
             (self_findings self)
  then self
  else append self finding.

Definition _analyze_clause_risks (self : instance) (clause : Clause) : instance :=
  fold_left
    (fun self indicator =>
       match weight_of RISK_WEIGHTS indicator with
       | Some score => add_unless_same_clause self (clause_finding clause indicator score)
       | None => self
       end)
    (indicators_of clause) self.

(** An entry of [missing_checks]. *)
Record CheckInfo : Type := mkCheckInfo
  { check : list string;
    check_description : string;
    check_suggestion : string;
    check_score : Z }.

Definition missing_checks : list (string * CheckInfo) :=
  [ ("liability_cap", mkCheckInfo
      ["limitation of liability"; "liability cap"; "liability shall not exceed";
       "maximum liability"]
      "Missing liability limitation clause"
      "Add a clause capping total liability exposure"
      5);
    ("dispute_resolution", mkCheckInfo
      ["arbitration"; "dispute resolution"; "mediation"; "conciliation"]
      "Missing dispute resolution mechanism"
      "Include arbitration clause as per Arbitration and Conciliation Act, 1996"
      4);
    ("notice_period", mkCheckInfo
      ["notice period"; "days notice"; "written notice"; "prior notice"]
      "Missing or unclear notice period requirements"
      "Specify clear notice periods for termination and other actions"
      4);
    ("force_majeure", mkCheckInfo
      ["force majeure"; "act of god"; "unforeseen circumstances"]
      "Missing force majeure clause"
      "Add force majeure clause to protect against unforeseen events"
      3);
    ("confidentiality", mkCheckInfo
      ["confidential"; "non-disclosure"; "proprietary information"; "trade secret"]
      "Missing confidentiality provisions"
      "Include mutual confidentiality obligations"
      3) ]%Z.

Definition missing_finding (check_type : string) (check_info : CheckInfo)
  : RiskFinding :=
  mkRiskFinding "missing" ("Missing " ++ label check_type)
    (_score_to_level (inject_Z (check_score check_info)))
    (check_score check_info) (check_description check_info)
    "[Not found in contract]" (check_suggestion check_info) "".

Definition _check_missing_protections (self : instance) (text : string) : instance :=
  let text_lower := lower text in
  fold_left
    (fun self (entry : string * CheckInfo) =>
       let found := existsb (fun keyword => contains keyword text_lower)
                            (check (snd entry)) in
       if negb found then append self (missing_finding (fst entry) (snd entry))
       else self)
    missing_checks self.

(** [sum(1 for f in findings if f.risk_level == level)] *)
Definition count_level (level : RiskLevel) (fs : list RiskFinding) : nat :=
  list_sum (map (fun _ => 1)
                (filter (fun f => level_eqb (risk_level f) level) fs)).

(** [sum(f.score for f in findings)] *)
Definition total_of (fs : list RiskFinding) : Z :=
  fold_left (fun acc f => (acc + score f)%Z) fs 0%Z.

(** A part of the summary: [f"{n} ..."] when [n > 0]. *)
Definition summary_part (n : nat) (what : string) : list string :=
  if 0 <? n then [PyNum.str n ++ what] else [].

Definition _calculate_overall_score (self : instance) : RiskReport :=
  match self_findings self with
  | [] =>
      mkRiskReport 2 LOW 0 0 0 []
        "No significant risks found. Contract appears well-balanced."
  | _ =>
      let critical_count := count_level CRITICAL (self_findings self) in
      let high_count := count_level HIGH (self_findings self) in
      let medium_count := count_level MEDIUM (self_findings self) in
      let low_count := count_level LOW (self_findings self) in
      let total_score := total_of (self_findings self) in
      let avg_score :=
        (inject_Z total_score
         / inject_Z (Z.of_nat (List.length (self_findings self))))%Q in
      let avg_score :=
        if 0 <? critical_count
        then PyNum.min 10 (avg_score + inject_Z (Z.of_nat critical_count) * (1 # 2))%Q
        else avg_score in
      let avg_score :=
        if 2 <? high_count then PyNum.min 10 (avg_score + (1 # 2))%Q else avg_score in
      let overall_level := _score_to_level avg_score in
      let summary_parts :=
        (summary_part critical_count " critical risk(s) require immediate attention"
         ++ summary_part high_count " high-risk clause(s) should be renegotiated"
         ++ summary_part medium_count " medium-risk item(s) to review")%list in
      let summary :=
        match summary_parts with
        | [] => "Contract has acceptable risk levels."
        | _ => join ". " summary_parts
        end in
      mkRiskReport (PyNum.round avg_score 1) overall_level
        (critical_count + high_count) medium_count low_count
        (PyList.sorted score true (self_findings self))
        summary
  end.

Definition assess_contract (self : instance) (text : string)
  (clauses : option (list Clause)) : instance * RiskReport :=
  let self := set_findings self [] in
  let self := _analyze_text_risks self text in
  let self :=
    match clauses with
    | Some (clause :: more) => fold_left _analyze_clause_risks (clause :: more) self
    | _ => self
    end in
  let self := _check_missing_protections self text in
  let report := _calculate_overall_score self in
  (self, report).

(** The inner loop with its [break]: is one of the patterns found? *)
Fixpoint any_found (patterns : list string) (text : string) : bool :=
  match patterns with
  | [] => false
  | pattern :: more => if Re.found Re.I pattern text then true else any_found more text
  end.

(** [max(weights)] of a list that is not empty. *)
Fixpoint max_of (w : Z) (more : list Z) : Z :=
  match more with
  | [] => w
  | w' :: rest => if (w <? w')%Z then max_of w' rest else max_of w rest
  end.

Definition get_clause_risk_score (self : instance) (clause_content : string)
  : Q * RiskLevel * list string :=
  let content_lower := lower clause_content in
  let findings :=
    fold_left
      (fun acc (entry : string * RiskInfo) =>
         if any_found (patterns (snd entry)) content_lower
         then (acc ++ [fst entry])%list
         else acc)
      RISK_PATTERNS [] in
  match map weight_or_5 findings with
  | [] => (2%Q, LOW, [])
  | w :: more =>
      let max_score := max_of w more in
      (inject_Z max_score, _score_to_level (inject_Z max_score), findings)
  end.

End RiskAssessor.

(* ================================================================== *)
(** ** The pipeline of [process_document] in app.py *)

Module Pipeline.

(** The three component instances. *)
Record Components : Type := mkComponents
  { classifier : ContractClassifier.instance;
    clause_extractor : ClauseExtractor.instance;
    risk_assessor : RiskAssessor.instance }.

Definition fresh : Components :=
  mkComponents ContractClassifier.__init__ ClauseExtractor.__init__
    RiskAssessor.__init__.

(** What one run hands on. *)
Record Output : Type := mkOutput
  { classification : ContractClassifier.ClassificationResult;
    clauses : list ClauseExtractor.ExtractedClause;
    data_dimensions : ClauseExtractor.Dimensions;
    risk_report : RiskAssessor.RiskReport }.

(** The dictionary made of a clause for the risk assessor; of its keys the
    assessor reads ["clause_id"], ["content"] and ["risk_indicators"]. *)
Definition clause_dict (c : ClauseExtractor.ExtractedClause) : RiskAssessor.Clause :=
  RiskAssessor.mkClause
    (Some (ClauseExtractor.clause_id c)) None
    (Some (ClauseExtractor.content c))
    (Some (ClauseExtractor.risk_indicators c)).

(** Steps 3, 4 and 6 of [process_document]: classify, extract the clauses
    and the dimensions, assess the risks. *)
Definition process (py : SetOrder) (cs : Components) (text : string)
  : Components * Output :=
  let (classifier', classification) :=
    ContractClassifier.classify (classifier cs) text in
  let (clause_extractor', clauses) :=
    ClauseExtractor.extract_clauses py (clause_extractor cs) text in
  let data_dimensions :=
    ClauseExtractor.extract_data_dimensions py clause_extractor' text in
  let clause_dicts := map clause_dict clauses in
  let (risk_assessor', risk_report) :=
    RiskAssessor.assess_contract (risk_assessor cs) text (Some clause_dicts) in
  (mkComponents classifier' clause_extractor' risk_assessor',
   mkOutput classification clauses data_dimensions risk_report).

End Pipeline.

(* ================================================================== *)
(** * Notions of the statements *)

(** ** The spans of the segmenter *)

Module Segmentation.
Import PyStr ClauseExtractor.

(** A heading whose clause is emitted, with the offset where its body ends
    and the body, trimmed. The clause occupies the text from [h_start] of
    the heading to [k_end]: the heading up to [h_end], then the body. *)
Record Kept : Type := mkKept
  { k_heading : Heading; k_end : nat; k_body : string }.

(** The headings the loop of [extract_clauses] keeps, in its order. *)
Fixpoint kept (text : string) (hs : list Heading) : list Kept :=
  match hs with
  | [] => []
  | h :: following =>
      let content := strip (slice text (h_end h) (body_end text following)) in
      if String.length content <? 20
      then kept text following
      else mkKept h (body_end text following) content :: kept text following
  end.

Definition clause_of_kept (py : SetOrder) (k : Kept) : ExtractedClause :=
  clause_of py (k_heading k) (k_body k).


(** Scenario 1 of the design document. *)
Definition scenario_1 : string :=
  "1. DEFINITIONS" ++ LF ++ "Terms defined here." ++ LF
  ++ "2. PAYMENT" ++ LF ++ "The Client shall pay Rs. 5,00,000 on signing.".


(** A clause that matches two risk patterns of the extractor. *)
Definition indemnity_clause : string :=
  "1. INDEMNITY" ++ LF
  ++ "The employee shall indemnify the company with unlimited liability.".


End Segmentation.

(** ** The score of a list of findings, in the words of the design document *)

Module Scoring.
Import RiskAssessor.

(** The number of findings of a level. *)
Definition number_of (level : RiskLevel) (fs : list RiskFinding) : nat :=
  List.length (filter (fun f => level_eqb (risk_level f) level) fs).

Definition sum_of_scores (fs : list RiskFinding) : Z :=
  fold_right (fun f acc => (score f + acc)%Z) 0%Z fs.




(** What two findings may not share (claim C8), and what the per-clause
    pass compares (claim C3). *)
Definition triple (f : RiskFinding) : string * string * string :=
  (risk_type f, clause_id f, original_text f).

Definition pair (f : RiskFinding) : string * string :=
  (clause_id f, risk_type f).


(** A text that names all five protective topics and matches no risk
    pattern, and nine clauses that bring eleven findings of scores
    9, 6, 5, 5, 5, 5, 5, 5, 5, 5, 5. *)
Definition all_topics : string :=
  "The contract has a limitation of liability, an arbitration clause, a written notice rule, a force majeure clause and a confidential annex.".

Definition flagged (id : string) (indicators : list string) : Clause :=
  mkClause (Some id) None (Some "The clause as extracted from the contract.")
    (Some indicators).

Definition nine_clauses : list Clause :=
  [ flagged "1" ["unlimited_liability"; "auto_renewal_hidden"; "vague_termination"];
    flagged "2" ["vague_termination"];
    flagged "3" ["vague_termination"];
    flagged "4" ["vague_termination"];
    flagged "5" ["vague_termination"];
    flagged "6" ["vague_termination"];
    flagged "7" ["vague_termination"];
    flagged "8" ["vague_termination"];
    flagged "9" ["vague_termination"] ].

End Scoring.

(** ** The clauses handed to the assessor *)

Module Supplied.
Import RiskAssessor.

(** The clause objects of a call, none when the argument is left out. *)
Definition supplied (clauses : option (list Clause)) : list Clause :=
  match clauses with
  | Some l => l
  | None => []
  end.

(** A text that names none of the five protective topics and matches no
    risk pattern. *)
Definition plain_contract : string :=
  "The supplier delivers the goods listed in the schedule to the buyer at the agreed place and the buyer pays the agreed price on delivery.".

(** A clause object scoped to ["missing"] that carries the text and an
    indicator of the missing-protection pass. *)
Definition missing_lookalike : Clause :=
  mkClause (Some "missing") None (Some "[Not found in contract]")
    (Some ["missing_liability_cap"]).

(** A clause object with an indicator the weight table does not list. *)
Definition late_delivery_clause : Clause :=
  mkClause (Some "7") None (Some "Goods are delivered within thirty days.")
    (Some ["late_delivery"]).

End Supplied.

(** ** What the quick clause score reads off the catalogue *)

Module QuickScore.
Import PyStr RiskAssessor.

(** The risk types with a pattern found in the lower-cased text, in the
    order of the catalogue. *)
Definition matched (clause_content : string) : list string :=
  map fst
    (filter
       (fun entry : string * RiskInfo =>
          existsb (fun pattern => Re.found Re.I pattern (lower clause_content))
                  (patterns (snd entry)))
       RISK_PATTERNS).

(** None of the risk-detection patterns matches the lower-cased text. *)
Definition no_pattern_matches (clause_content : string) : Prop :=
  forall entry pattern,
    In entry RISK_PATTERNS -> In pattern (patterns (snd entry)) ->
    Re.found Re.I pattern (lower clause_content) = false.

End QuickScore.

(** ** The score of a contract type, in the words of the design document *)

Module Confidence.
Import PyStr ContractClassifier.

(** What a keyword adds: the number of its occurrences, at most 5. *)
Definition keyword_points (text_lower keyword : string) : Z :=
  Z.min (Z.of_nat (PyStr.count text_lower (lower keyword))) 5.

(** What a strong-signal pattern adds: a flat 10 when it is found. *)
Definition pattern_points (text_lower pattern : string) : Z :=
  if Re.found Re.I pattern text_lower then 10%Z else 0%Z.

Definition sum_Z (l : list Z) : Z := fold_right Z.add 0%Z l.

(** The score of a profile on a lower-cased text. *)
Definition type_score (text_lower : string) (type_info : TypeInfo) : Z :=
  (sum_Z (map (keyword_points text_lower) (keywords type_info))
   + sum_Z (map (pattern_points text_lower) (patterns type_info)))%Z.

(** The greatest score a profile can reach: 5 for each keyword and 10 for
    each pattern. *)
Definition max_possible (type_info : TypeInfo) : Z :=
  (Z.of_nat (List.length (keywords type_info)) * 5
   + Z.of_nat (List.length (patterns type_info)) * 10)%Z.

(** The confidence before it is rounded. *)
Definition normalized (best_score max_possible : Z) : Q :=
  Qmin 1 (inject_Z best_score / (inject_Z max_possible * (3 # 10)))%Q.

(** A text with one keyword of one profile, the Employment Agreement. *)
Definition salary_text : string :=
  "The salary is paid on the last working day of each month into the bank account named by the recipient in writing to the payer.".

(** Some contract type attains a nonzero score. *)
Definition some_type_scores (text : string) : Prop :=
  exists entry, In entry CONTRACT_PATTERNS /\ (0 < type_score (lower text) (snd entry))%Z.

End Confidence.

(** ** Invariants of the loops *)

Module Invariants.
Import RiskAssessor Scoring.


(** Is the pattern within the subset [Re.parse] reads? *)
Definition reads (fl : Re.flags) (pattern : string) : bool :=
  match Re.parse fl pattern with
  | Some _ => true
  | None => false
  end.

(** The average as [_calculate_overall_score] boosts it. *)
Definition boosted_by_code (fs : list RiskFinding) : Q :=
  let critical_count := count_level CRITICAL fs in
  let high_count := count_level HIGH fs in
  let avg_score :=
    (inject_Z (total_of fs) / inject_Z (Z.of_nat (List.length fs)))%Q in
  let avg_score :=
    if 0 <? critical_count
    then PyNum.min 10 (avg_score + inject_Z (Z.of_nat critical_count) * (1 # 2))%Q
    else avg_score in
  if 2 <? high_count then PyNum.min 10 (avg_score + (1 # 2))%Q else avg_score.

(** The findings of [s'] are those of [s] and more after them. *)
Definition extends (s s' : instance) : Prop :=
  exists added, self_findings s' = (self_findings s ++ added)%list.

(** No two findings share a triple, and none is scoped to ["missing"]. *)
Definition distinct_unmissing (s : instance) : Prop :=
  NoDup (map triple (self_findings s))
  /\ Forall (fun f => clause_id f <> "missing") (self_findings s).

(** None of the keywords of a protective topic is in the text. *)
Definition topic_absent (text_lower : string) (entry : string * CheckInfo) : bool :=
  negb (existsb (fun keyword => PyStr.contains keyword text_lower) (check (snd entry))).

Definition missing_finding_of (entry : string * CheckInfo) : RiskFinding :=
  missing_finding (fst entry) (snd entry).


End Invariants.

(** ** Where a finding comes from *)

Module Provenance.
Import PyStr RiskAssessor Invariants.

(** Made by the document-wide scan: of a match of a pattern of the
    catalogue in the lower-cased text. *)
Definition from_text (text : string) (f : RiskFinding) : Prop :=
  exists entry pattern m,
    In entry RISK_PATTERNS
    /\ In pattern (patterns (snd entry))
    /\ In m (Re.finditer Re.I pattern (lower text))
    /\ f = text_finding text (fst entry) (snd entry) m.

(** Made by the per-clause pass: of an indicator of a supplied clause that
    the weight table lists. *)
Definition from_clause (clauses : list Clause) (f : RiskFinding) : Prop :=
  exists clause indicator w,
    In clause clauses
    /\ In indicator (indicators_of clause)
    /\ weight_of RISK_WEIGHTS indicator = Some w
    /\ f = clause_finding clause indicator w.

(** Made by the missing-protection pass: of a protective topic none of
    whose keywords is in the lower-cased text. *)
Definition from_missing (text : string) (f : RiskFinding) : Prop :=
  exists entry,
    In entry missing_checks
    /\ topic_absent (lower text) entry = true
    /\ f = missing_finding_of entry.

Definition justified (text : string) (clauses : list Clause) (f : RiskFinding) : Prop :=
  from_text text f \/ from_clause clauses f \/ from_missing text f.

(** The level of a finding is that of its score, and the score is one of
    the weights, 3 to 9. *)
Definition graded (f : RiskFinding) : Prop :=
  risk_level f = _score_to_level (inject_Z (score f))
  /\ (3 <= score f <= 9)%Z.

(** Some indicator of the clause is a key of the weight table. *)
Definition has_weighted_indicator (clause : Clause) : Prop :=
  exists indicator w,
    In indicator (indicators_of clause)
    /\ weight_of RISK_WEIGHTS indicator = Some w.

(** All five protective topics are named in the text. *)
Definition all_topics_named (text : string) : Prop :=
  forall entry, In entry missing_checks -> topic_absent (lower text) entry = false.

End Provenance.

(** ** Inputs the further properties are run on *)

Module Samples.
Import RiskAssessor Scoring.


(** A clause that reuses the id of the first of [nine_clauses], with
    another content and one of its indicators. *)
Definition first_again : Clause :=
  mkClause (Some "1") None (Some "Either party may end the agreement for any reason.")
    (Some ["vague_termination"]).

End Samples.

(** ** Phrases that set off a pattern of the catalogue *)

Module Triggers.


End Triggers.

(** ** What a profile of the classifier finds in a text *)

Module Classified.
Import PyStr ContractClassifier Confidence.

(** The keyword, lower-cased, is in the text. *)
Definition occurs (text_lower keyword : string) : bool :=
  contains (lower keyword) text_lower.

(** A pattern as the indicators show it: its first 30 characters. *)
Definition shown_pattern (pattern : string) : string :=
  "[pattern: " ++ take 30 pattern ++ "...]".

(** The keywords of a profile that occur, then its patterns that are
    found, each in the order of the profile. *)
Definition indicators (text_lower : string) (type_info : TypeInfo) : list string :=
  (filter (occurs text_lower) (keywords type_info)
   ++ map shown_pattern
        (filter (fun pattern => Re.found Re.I pattern text_lower) (patterns type_info)))%list.

(** A keyword of the profile occurs or a pattern of it is found. *)
Definition hits (text_lower : string) (type_info : TypeInfo) : bool :=
  existsb (occurs text_lower) (keywords type_info)
  || existsb (fun pattern => Re.found Re.I pattern text_lower) (patterns type_info).

Definition nothing_hits (text : string) : Prop :=
  forall entry, In entry CONTRACT_PATTERNS -> hits (lower text) (snd entry) = false.

(** One for each keyword that occurs and five for each pattern found. *)
Definition presence (text_lower : string) (type_info : TypeInfo) : Z :=
  (Z.of_nat (List.length (filter (occurs text_lower) (keywords type_info)))
   + 5 * Z.of_nat (List.length
                     (filter (fun pattern => Re.found Re.I pattern text_lower)
                             (patterns type_info))))%Z.

(** What the scoring loop makes of a profile: its name, its score and the
    first ten of its indicators. *)
Definition scored (text_lower : string) (entry : string * TypeInfo) : score_entry :=
  (fst entry, (type_score text_lower (snd entry),
               firstn 10 (indicators text_lower (snd entry)))).

End Classified.

(** ** What the extractor reads off a clause *)

Module Extracted.
Import PyStr ClauseExtractor.

(** The number of keywords of a category that are in the text. *)
Definition keyword_count (combined_text : string) (entry : string * list string) : nat :=
  List.length (filter (fun keyword => contains keyword combined_text) (snd entry)).

(** One of the patterns of a risk tag is found. *)
Definition flagged_by (content_lower : string) (entry : string * list string) : bool :=
  existsb (fun pattern => Re.found Re.I pattern content_lower) (snd entry).

(** The number of clauses of a category. *)
Definition number_in (category_name : string) (cs : list ExtractedClause) : nat :=
  List.length (filter (fun c => String.eqb (category c) category_name) cs).


End Extracted.

(** ** What a group of a pattern can hold *)

Module Captured.
Import PyStr.

(** Every character of the word is of the alphabet. *)
Fixpoint all_in (alphabet : ascii -> bool) (w : string) : bool :=
  match w with
  | EmptyString => true
  | String c t => alphabet c && all_in alphabet t
  end.

(** The 256 characters. *)
Definition every_char : list ascii := map ascii_of_nat (seq 0 256).

(** The class takes characters of the alphabet only. *)
Definition class_within (alphabet : ascii -> bool) (p : Re.class) : bool :=
  forallb (fun c => implb (p c) (alphabet c)) every_char.

(** Whatever the expression consumes is of the alphabet. *)
Fixpoint within (alphabet : ascii -> bool) (r : Re.regex) : bool :=
  match r with
  | Re.Eps | Re.Fail | Re.Look _ | Re.Test _ => true
  | Re.Chr p => class_within alphabet p
  | Re.Seq a b | Re.Alt a b => within alphabet a && within alphabet b
  | Re.Rep a _ _ _ | Re.Grp _ a => within alphabet a
  end.

(** A bound on the number of characters the expression consumes, when the
    expression has no repetition. *)
Fixpoint width (r : Re.regex) : option nat :=
  match r with
  | Re.Eps | Re.Fail | Re.Look _ | Re.Test _ => Some 0
  | Re.Chr _ => Some 1
  | Re.Seq a b =>
      match width a, width b with
      | Some m, Some n => Some (m + n)
      | _, _ => None
      end
  | Re.Alt a b =>
      match width a, width b with
      | Some m, Some n => Some (Nat.max m n)
      | _, _ => None
      end
  | Re.Rep _ _ _ _ => None
  | Re.Grp _ a => width a
  end.

(** The expression consumes one character at most. *)
Definition short (r : Re.regex) : bool :=
  match width r with
  | Some n => n <=? 1
  | None => false
  end.

(** Group [g], wherever the expression has it, encloses characters of the
    alphabet only or one character at most. A group inside a lookahead is
    left out: the matcher drops what a lookahead captures. *)
Fixpoint group_within (alphabet : ascii -> bool) (g : nat) (r : Re.regex) : bool :=
  match r with
  | Re.Eps | Re.Fail | Re.Chr _ | Re.Look _ | Re.Test _ => true
  | Re.Seq a b | Re.Alt a b =>
      group_within alphabet g a && group_within alphabet g b
  | Re.Rep a _ _ _ => group_within alphabet g a
  | Re.Grp i a =>
      group_within alphabet g a
      && (negb (i =? g) || within alphabet a || short a)
  end.

(** A word of the alphabet, or of one character at most. *)
Definition plain (alphabet : ascii -> bool) (w : string) : Prop :=
  all_in alphabet w = true \/ String.length w <= 1.

(** A state of the matcher on the text [T]: what is left is the text from
    the position on, and every span of group [g] holds a plain word. *)
Definition ok (T : string) (alphabet : ascii -> bool) (g : nat) (s : Re.state) : Prop :=
  Re.rest s = drop (Re.pos s) T
  /\ Forall (fun cap : nat * (nat * nat) =>
               fst cap = g -> plain alphabet (slice T (fst (snd cap)) (snd (snd cap))))
            (Re.caps s).

(** A matcher that hands on states it reached by consuming a word [w],
    of the alphabet when [inside] says so, no longer than [limit] when
    there is one. *)
Definition sound (T : string) (alphabet : ascii -> bool) (g : nat)
  (body : Re.state -> (Re.state -> option Re.state) -> option Re.state)
  (inside : bool) (limit : option nat) : Prop :=
  forall s k f,
    ok T alphabet g s -> body s k = Some f ->
    exists s' w,
      ok T alphabet g s' /\ k s' = Some f
      /\ Re.rest s = w ++ Re.rest s'
      /\ Re.pos s' = Re.pos s + String.length w
      /\ (inside = true -> all_in alphabet w = true)
      /\ (forall n, limit = Some n -> String.length w <= n).

(** The characters of a clause id: digits, the dot, and the letters of
    the Roman numerals in either case. *)
Definition id_alphabet (c : ascii) : bool :=
  isdigit c || Ascii.eqb c "."
  || existsb (Ascii.eqb c)
       ["i"; "v"; "x"; "l"; "c"; "I"; "V"; "X"; "L"; "C"]%char.

End Captured.

(** ** Clauses that differ in the order of their indicators *)

Module Reordered.
Import RiskAssessor.



End Reordered.

(* ================================================================== *)
(** * Properties *)

(** ** Strings *)

Module PyStrFacts.
Import PyStr.




Lemma length_take (n : nat) (s : string) :
  String.length (take n s) = Nat.min n (String.length s).
Proof.
  revert s. induction n as [| n IH]; intros s; simpl; [reflexivity |].
  destruct s as [| c t]; simpl; [reflexivity |].
  rewrite IH. reflexivity.
Qed.


End PyStrFacts.

(** ** [sorted] is a stable sort *)

Module PyListFacts.
Import PyList.

Section Sorting.
Context {A : Type}.
Variable key : A -> Z.
Variable reverse : bool.

Lemma before_total (x y : A) : before key reverse x y = false -> before key reverse y x = true.
Proof.
  unfold PyList.before. destruct reverse; intros H.
  - apply Z.leb_gt in H. apply Z.leb_le. lia.
  - apply Z.leb_gt in H. apply Z.leb_le. lia.
Qed.

Lemma before_trans (x y z : A) :
  before key reverse x y = true -> before key reverse y z = true -> before key reverse x z = true.
Proof.
  unfold PyList.before. destruct reverse; rewrite !Z.leb_le; lia.
Qed.


Lemma insert_perm (x : A) (l : list A) : Permutation (x :: l) (insert key reverse x l).
Proof.
  induction l as [| y t IH]; simpl; [apply Permutation_refl |].
  destruct (before key reverse x y).
  - apply Permutation_refl.
  - eapply perm_trans; [apply perm_swap |]. apply perm_skip. exact IH.
Qed.

Lemma sorted_perm (l : list A) : Permutation l (sorted key reverse l).
Proof.
  induction l as [| x t IH]; simpl; [constructor |].
  eapply perm_trans; [apply perm_skip; exact IH | apply insert_perm].
Qed.

Lemma insert_sorted (x : A) (l : list A) :
  StronglySorted (fun a b => before key reverse a b = true) l ->
  StronglySorted (fun a b => before key reverse a b = true) (insert key reverse x l).
Proof.
  induction l as [| y t IH]; intros Hs; simpl.
  - repeat constructor.
  - inversion Hs as [| ? ? Ht Hy]; subst.
    destruct (before key reverse x y) eqn:E.
    + constructor; [exact Hs |].
      constructor; [exact E |].
      eapply Forall_impl; [| exact Hy].
      intros z Hz. eapply before_trans; eauto.
    + constructor; [apply IH; exact Ht |].
      apply (Permutation_Forall (insert_perm x t)).
      constructor; [apply before_total; exact E | exact Hy].
Qed.

Lemma sorted_sorted (l : list A) :
  StronglySorted (fun a b => before key reverse a b = true) (sorted key reverse l).
Proof.
  induction l as [| x t IH]; simpl; [constructor |].
  apply insert_sorted. exact IH.
Qed.



End Sorting.


(** Descending by a score, as the findings of a report are sorted. *)
Lemma sorted_descending {A : Type} (score : A -> Z) (l : list A) :
  StronglySorted (fun a b => (score b <= score a)%Z)
    (PyList.sorted score true l).
Proof.
  pose proof (sorted_sorted score true l) as H.
  induction H as [| x t Ht IH Hx]; constructor; [exact IH |].
  eapply Forall_impl; [| exact Hx].
  intros y Hy. unfold PyList.before in Hy. apply Z.leb_le in Hy. exact Hy.
Qed.

End PyListFacts.

(** ** A match ends no earlier than it starts *)

Module ReFacts.
Import Re Invariants.






End ReFacts.

(** ** The patterns of the catalogue are read *)

Module CatalogueFacts.
Import Invariants.

Lemma catalogue_compiles :
  forallb (reads Re.I_M) ClauseExtractor.clause_patterns
  && forallb (fun e => forallb (reads Re.I) (snd e)) ClauseExtractor.HIGH_RISK_PATTERNS
  && forallb (fun e => forallb (reads Re.I) (ContractClassifier.patterns (snd e)))
       ContractClassifier.CONTRACT_PATTERNS
  && forallb (fun e => forallb (reads Re.I) (RiskAssessor.patterns (snd e)))
       RiskAssessor.RISK_PATTERNS
  = true.
Proof. vm_compute. reflexivity. Qed.

End CatalogueFacts.

(** ** Segmentation *)

Module SegmentationFacts.
Import PyStr ClauseExtractor Segmentation.

Lemma carve_kept py text hs self :
  clauses (carve py text hs self)
  = (clauses self ++ map (clause_of_kept py) (kept text hs))%list.
Proof.
  revert self. induction hs as [| h following IH]; intros self; simpl.
  - rewrite app_nil_r. reflexivity.
  - destruct (String.length (strip (slice text (h_end h) (body_end text following))) <? 20).
    + apply IH.
    + rewrite IH. simpl. rewrite <- app_assoc. reflexivity.
Qed.

Lemma extract_clauses_kept py self text :
  snd (extract_clauses py self text)
  = map (clause_of_kept py) (kept text (all_matches text)).
Proof.
  unfold extract_clauses. simpl. rewrite carve_kept. reflexivity.
Qed.




(** A kept heading is one of the headings, and the headings after it in
    [kept] are after it in the list. *)
Lemma kept_in text hs k : In k (kept text hs) -> In (k_heading k) hs.
Proof.
  induction hs as [| h following IH]; simpl; [tauto |].
  destruct (String.length (strip (slice text (h_end h) (body_end text following))) <? 20).
  - intros H. right. apply IH. exact H.
  - intros [<- | H]; [left; reflexivity | right; apply IH; exact H].
Qed.





End SegmentationFacts.

(** ** Claims C2 and C7: the segmenter *)

Module SegmenterClaims.
Import PyStr ClauseExtractor Segmentation.

(** C2, as stated, fails: on the text of scenario 1 the segmenter does not
    yield the clauses ["1"] and ["2"]. The body under the first heading,
    "Terms defined here.", has 19 characters, one short of the 20 a clause
    needs, so that clause is discarded. *)
Lemma scenario_1_not_two_clauses :
  String.length "Terms defined here." = 19
  /\ map clause_id (snd (extract_clauses as_listed __init__ scenario_1))
     <> ["1"; "2"].
Proof.
  split; [reflexivity |].
  vm_compute. discriminate.
Qed.

(** C2, amended: on the text of scenario 1 the segmenter finds the two
    headings ["1"] and ["2"] and yields exactly one clause, the one with id
    ["2"]; its category is ["payment"] and its amounts are the one string
    ["Rs. 5,00,000"]. This holds from any state of the extractor and for any
    order of a set. *)
Theorem scenario_1_clauses (py : SetOrder) (self : instance) :
  map h_id (all_matches scenario_1) = ["1"; "2"]
  /\ exists c,
       snd (extract_clauses py self scenario_1) = [c]
       /\ clause_id c = "2"
       /\ category c = "payment"
       /\ amounts c = ["Rs. 5,00,000"].
Proof.
  split; [vm_compute; reflexivity |].
  rewrite SegmentationFacts.extract_clauses_kept.
  assert (Hk : kept scenario_1 (all_matches scenario_1)
               = [mkKept (mkHeading "2" "PAYMENT" 34 45) 91
                    "The Client shall pay Rs. 5,00,000 on signing."])
    by (vm_compute; reflexivity).
  rewrite Hk. simpl map.
  eexists. split; [reflexivity |].
  repeat split; vm_compute; reflexivity.
Qed.



End SegmenterClaims.

(** ** Rounding and capping *)

Module PyNumFacts.
Import PyNum.
Local Open Scope Q_scope.

Lemma min_is_Qmin (a b : Q) : min a b == Qmin a b.
Proof.
  unfold min. destruct (Qlt_le_dec b a) as [Hlt | Hle].
  - symmetry. apply Q.min_r. apply Qlt_le_weak. exact Hlt.
  - symmetry. apply Q.min_l. exact Hle.
Qed.

Lemma min_le_l (a b : Q) : min a b <= a.
Proof.
  unfold min. destruct (Qlt_le_dec b a) as [Hlt | Hle].
  - apply Qlt_le_weak. exact Hlt.
  - apply Qle_refl.
Qed.

Lemma min_comp (a b b' : Q) : b == b' -> min a b == min a b'.
Proof.
  intros H. rewrite !min_is_Qmin. rewrite H. reflexivity.
Qed.

Lemma round_half_even_comp (x y : Q) :
  x == y -> round_half_even x = round_half_even y.
Proof.
  intros H. unfold round_half_even.
  rewrite (Qfloor_comp _ _ H).
  assert (E : (x - inject_Z (Qfloor y) ?= 1 # 2) = (y - inject_Z (Qfloor y) ?= 1 # 2)).
  { apply Qcompare_comp; [rewrite H; reflexivity | reflexivity]. }
  rewrite E. reflexivity.
Qed.

Lemma round_comp (x y : Q) (n : nat) : x == y -> round x n == round y n.
Proof.
  intros H. unfold round.
  rewrite (round_half_even_comp (x * inject_Z (10 ^ Z.of_nat n))
                                (y * inject_Z (10 ^ Z.of_nat n))).
  - reflexivity.
  - rewrite H. reflexivity.
Qed.

Lemma round_half_even_floor (q : Q) :
  (Qfloor q <= round_half_even q <= Qfloor q + 1)%Z.
Proof.
  unfold round_half_even.
  destruct (q - inject_Z (Qfloor q) ?= 1 # 2); try lia.
  destruct (Z.even (Qfloor q)); lia.
Qed.

(** Rounding keeps a number between two integers between them. *)
Lemma round_half_even_between (q : Q) (lo hi : Z) :
  inject_Z lo <= q -> q <= inject_Z hi ->
  (lo <= round_half_even q <= hi)%Z.
Proof.
  intros Hlo Hhi.
  pose proof (round_half_even_floor q) as Hf.
  pose proof (Qfloor_resp_le _ _ Hlo) as H1. rewrite Qfloor_Z in H1.
  pose proof (Qfloor_resp_le _ _ Hhi) as H2. rewrite Qfloor_Z in H2.
  split; [lia |].
  destruct (Z.eq_dec (Qfloor q) hi) as [E | NE]; [| lia].
  (* the floor is [hi], so [q] is [hi] and nothing is rounded up *)
  assert (Hq : q == inject_Z hi).
  { apply Qle_antisym; [exact Hhi |]. rewrite <- E. apply Qfloor_le. }
  rewrite (round_half_even_comp q (inject_Z hi) Hq).
  unfold round_half_even. rewrite Qfloor_Z.
  assert (Hc : (inject_Z hi - inject_Z hi ?= 1 # 2) = Lt).
  { rewrite <- Qlt_alt. ring_simplify. reflexivity. }
  rewrite Hc. lia.
Qed.

End PyNumFacts.

(** ** The report of the risk assessor *)

Module ReportFacts.
Import PyStr RiskAssessor Scoring Invariants.
Local Open Scope Q_scope.
Local Open Scope nat_scope.

Lemma list_sum_ones {A : Type} (l : list A) :
  list_sum (map (fun _ => 1) l) = List.length l.
Proof.
  induction l as [| x t IH]; simpl; [reflexivity |]. rewrite IH. reflexivity.
Qed.

Lemma count_level_number (level : RiskLevel) (fs : list RiskFinding) :
  count_level level fs = number_of level fs.
Proof. unfold count_level, number_of. apply list_sum_ones. Qed.

Lemma total_from (fs : list RiskFinding) (a : Z) :
  fold_left (fun acc f => (acc + score f)%Z) fs a = (a + sum_of_scores fs)%Z.
Proof.
  revert a. induction fs as [| f t IH]; intros a; simpl; [lia |].
  rewrite IH. unfold sum_of_scores. lia.
Qed.

Lemma total_of_sum (fs : list RiskFinding) : total_of fs = sum_of_scores fs.
Proof. unfold total_of. rewrite total_from. lia. Qed.



Lemma report_of_findings (self : instance) :
  self_findings self <> [] ->
  let fs := self_findings self in
  let r := _calculate_overall_score self in
  overall_score r = PyNum.round (boosted_by_code fs) 1
  /\ overall_level r = _score_to_level (boosted_by_code fs)
  /\ high_risk_count r = count_level CRITICAL fs + count_level HIGH fs
  /\ findings r = PyList.sorted score true fs.
Proof.
  intros Hne. unfold _calculate_overall_score.
  destruct (self_findings self) as [| f t] eqn:E; [contradiction |].
  cbv zeta. repeat split.
Qed.

Lemma report_without_findings (self : instance) :
  self_findings self = [] ->
  let r := _calculate_overall_score self in
  overall_score r = 2%Q /\ overall_level r = LOW /\ findings r = [].
Proof.
  intros E. unfold _calculate_overall_score. rewrite E. repeat split.
Qed.

(** What [assess_contract] leaves in [self.findings] is what the report is
    made of. *)
Lemma assess_contract_report (self : instance) text clauses :
  snd (assess_contract self text clauses)
  = _calculate_overall_score (fst (assess_contract self text clauses)).
Proof. reflexivity. Qed.

End ReportFacts.

(** ** Claims C1 and C6: the overall score and level *)

Module ReportClaims.
Import PyStr RiskAssessor Scoring.
Local Open Scope Q_scope.
Local Open Scope nat_scope.






End ReportClaims.

(** ** The three passes only add findings, and what they add *)

Module PassFacts.
Import PyStr RiskAssessor Scoring Invariants.

Lemma fold_left_inv {A B : Type} (P : A -> Prop) (f : A -> B -> A) (l : list B) :
  (forall a x, In x l -> P a -> P (f a x)) ->
  forall a, P a -> P (fold_left f l a).
Proof.
  induction l as [| x t IH]; intros Hf a Ha; simpl; [exact Ha |].
  apply IH.
  - intros a' x' Hx'. apply Hf. right. exact Hx'.
  - apply Hf; [left; reflexivity | exact Ha].
Qed.

Lemma extends_refl s : extends s s.
Proof. exists []. rewrite app_nil_r. reflexivity. Qed.

Lemma extends_trans s1 s2 s3 : extends s1 s2 -> extends s2 s3 -> extends s1 s3.
Proof.
  intros (a & Ha) (b & Hb). exists (a ++ b)%list.
  rewrite Hb, Ha, app_assoc. reflexivity.
Qed.

Lemma extends_append s f : extends s (append s f).
Proof. exists [f]. reflexivity. Qed.

Lemma extends_in s s' f : extends s s' -> In f (self_findings s) -> In f (self_findings s').
Proof.
  intros (a & Ha) Hin. rewrite Ha. apply in_or_app. left. exact Hin.
Qed.

Lemma fold_left_extends {B : Type} (f : instance -> B -> instance) (l : list B) :
  (forall a x, extends a (f a x)) -> forall s, extends s (fold_left f l s).
Proof.
  intros Hf s.
  apply (fold_left_inv (fun a => extends s a) f l).
  - intros a x _ Ha. eapply extends_trans; [exact Ha | apply Hf].
  - apply extends_refl.
Qed.

Lemma add_unless_same_text_extends s f : extends s (add_unless_same_text s f).
Proof.
  unfold add_unless_same_text.
  destruct (existsb _ _); [apply extends_refl | apply extends_append].
Qed.

Lemma add_unless_same_clause_extends s f : extends s (add_unless_same_clause s f).
Proof.
  unfold add_unless_same_clause.
  destruct (existsb _ _); [apply extends_refl | apply extends_append].
Qed.

Lemma text_pass_extends s text : extends s (_analyze_text_risks s text).
Proof.
  unfold _analyze_text_risks.
  apply fold_left_extends. intros a e.
  apply fold_left_extends. intros a' p.
  apply fold_left_extends. intros a'' m.
  apply add_unless_same_text_extends.
Qed.

Lemma clause_pass_extends s clause : extends s (_analyze_clause_risks s clause).
Proof.
  unfold _analyze_clause_risks.
  apply fold_left_extends. intros a indicator.
  destruct (weight_of RISK_WEIGHTS indicator);
    [apply add_unless_same_clause_extends | apply extends_refl].
Qed.

Lemma missing_pass_extends s text : extends s (_check_missing_protections s text).
Proof.
  unfold _check_missing_protections.
  apply fold_left_extends. intros a e.
  destruct (negb _); [apply extends_append | apply extends_refl].
Qed.

(** *** Is a finding of the same pair, of the same triple, there? *)

Lemma same_clause_there (f : RiskFinding) (fs : list RiskFinding) :
  existsb (fun g => String.eqb (clause_id g) (clause_id f)
                    && String.eqb (risk_type g) (risk_type f)) fs = true
  <-> In (pair f) (map pair fs).
Proof.
  rewrite existsb_exists, in_map_iff. split.
  - intros (g & Hg & E). apply andb_true_iff in E. destruct E as (E1 & E2).
    apply String.eqb_eq in E1, E2.
    exists g. split; [| exact Hg]. unfold pair. rewrite E1, E2. reflexivity.
  - intros (g & E & Hg). exists g. split; [exact Hg |].
    unfold pair in E. inversion E as [[E1 E2]].
    rewrite !String.eqb_refl. reflexivity.
Qed.

Lemma same_text_absent (f : RiskFinding) (fs : list RiskFinding) :
  existsb (fun g => String.eqb (risk_type g) (risk_type f)
                    && String.eqb (original_text g) (original_text f)) fs = false ->
  ~ In (triple f) (map triple fs).
Proof.
  intros H Hin. apply in_map_iff in Hin. destruct Hin as (g & E & Hg).
  assert (T : existsb (fun g => String.eqb (risk_type g) (risk_type f)
                    && String.eqb (original_text g) (original_text f)) fs = true).
  { apply existsb_exists. exists g. split; [exact Hg |].
    unfold triple in E. inversion E as [[E1 E2 E3]].
    rewrite !String.eqb_refl. reflexivity. }
  congruence.
Qed.

Lemma same_clause_absent (f : RiskFinding) (fs : list RiskFinding) :
  ~ In (pair f) (map pair fs) -> ~ In (triple f) (map triple fs).
Proof.
  intros H Hin. apply H.
  apply in_map_iff in Hin. destruct Hin as (g & E & Hg).
  apply in_map_iff. exists g. split; [| exact Hg].
  unfold triple in E. inversion E as [[E1 E2 E3]].
  unfold pair. rewrite E1, E2. reflexivity.
Qed.

Lemma NoDup_snoc {A : Type} (l : list A) (x : A) :
  NoDup l -> ~ In x l -> NoDup (l ++ [x]).
Proof.
  intros Hl Hx. apply NoDup_app; [exact Hl | repeat constructor; simpl; tauto |].
  intros a Ha [<- | []]. exact (Hx Ha).
Qed.

(** *** The invariant of the first two passes *)

Lemma distinct_unmissing_append s f :
  distinct_unmissing s ->
  ~ In (triple f) (map triple (self_findings s)) ->
  clause_id f <> "missing" ->
  distinct_unmissing (append s f).
Proof.
  intros (Hn & Hm) Hf Hc. unfold distinct_unmissing, append. simpl.
  split.
  - rewrite map_app. apply NoDup_snoc; assumption.
  - apply Forall_app. split; [exact Hm | repeat constructor; exact Hc].
Qed.

Lemma text_pass_distinct s text :
  distinct_unmissing s -> distinct_unmissing (_analyze_text_risks s text).
Proof.
  unfold _analyze_text_risks.
  apply fold_left_inv. intros a e _.
  apply fold_left_inv. intros a' p _.
  apply fold_left_inv. intros a'' m _ Ha.
  unfold add_unless_same_text.
  destruct (existsb _ _) eqn:E; [exact Ha |].
  apply distinct_unmissing_append; [exact Ha | | simpl; discriminate].
  apply same_text_absent. exact E.
Qed.

Lemma clause_pass_distinct s clause :
  clause_id_of clause <> "missing" ->
  distinct_unmissing s -> distinct_unmissing (_analyze_clause_risks s clause).
Proof.
  intros Hc. unfold _analyze_clause_risks.
  apply fold_left_inv. intros a indicator _ Ha.
  destruct (weight_of RISK_WEIGHTS indicator) as [w |]; [| exact Ha].
  unfold add_unless_same_clause.
  destruct (existsb _ _) eqn:E; [exact Ha |].
  apply distinct_unmissing_append; [exact Ha | | exact Hc].
  apply same_clause_absent. intros Hin.
  apply same_clause_there in Hin. congruence.
Qed.

(** *** The missing-protection pass *)

Lemma missing_pass_from (text_lower : string) (checks : list (string * CheckInfo)) s :
  self_findings
    (fold_left
       (fun self (entry : string * CheckInfo) =>
          let found := existsb (fun keyword => contains keyword text_lower)
                               (check (snd entry)) in
          if negb found then append self (missing_finding (fst entry) (snd entry))
          else self)
       checks s)
  = (self_findings s
     ++ map missing_finding_of (filter (topic_absent text_lower) checks))%list.
Proof.
  revert s. induction checks as [| e t IH]; intros s; simpl.
  - rewrite app_nil_r. reflexivity.
  - rewrite IH. unfold topic_absent at 2.
    destruct (negb (existsb _ (check (snd e)))); simpl.
    + rewrite <- app_assoc. reflexivity.
    + reflexivity.
Qed.

Lemma missing_pass_findings s text :
  self_findings (_check_missing_protections s text)
  = (self_findings s
     ++ map missing_finding_of (filter (topic_absent (lower text)) missing_checks))%list.
Proof. apply missing_pass_from. Qed.

(** Dropping entries keeps the images of the others distinct. *)
Lemma filter_keeps_distinct {Entry Image : Type} (image : Entry -> Image)
  (keep : Entry -> bool) (entries : list Entry) :
  NoDup (map image entries) -> NoDup (map image (filter keep entries)).
Proof.
  intros Hdistinct.
  induction entries as [| e rest IH]; cbn [filter map] in *; [constructor |].
  apply NoDup_cons_iff in Hdistinct. destruct Hdistinct as (Hfresh & Hrest).
  destruct (keep e); cbn [map]; [| exact (IH Hrest)].
  apply NoDup_cons_iff. split; [| exact (IH Hrest)].
  intros Hin. apply Hfresh.
  apply in_map_iff in Hin. destruct Hin as (e' & Eimage & He').
  apply filter_In in He'. apply in_map_iff. exists e'. tauto.
Qed.

Lemma missing_findings_distinct :
  NoDup (map triple (map missing_finding_of missing_checks)).
Proof.
  vm_compute.
  repeat (constructor; [simpl; intuition discriminate |]).
  constructor.
Qed.

Lemma missing_findings_scope (checks : list (string * CheckInfo)) :
  Forall (fun f => clause_id f = "missing") (map missing_finding_of checks).
Proof.
  apply Forall_forall. intros f Hf.
  apply in_map_iff in Hf. destruct Hf as (e & <- & _). reflexivity.
Qed.

Lemma missing_pass_distinct s text :
  distinct_unmissing s ->
  NoDup (map triple (self_findings (_check_missing_protections s text))).
Proof.
  intros (Hn & Hm). rewrite missing_pass_findings, map_app.
  apply NoDup_app.
  - exact Hn.
  - rewrite map_map.
    apply (filter_keeps_distinct (fun e => triple (missing_finding_of e))).
    rewrite <- map_map. apply missing_findings_distinct.
  - intros t Ht1 Ht2.
    apply in_map_iff in Ht1. destruct Ht1 as (f & <- & Hf).
    apply in_map_iff in Ht2. destruct Ht2 as (g & E & Hg).
    rewrite Forall_forall in Hm. apply (Hm f Hf).
    pose proof (missing_findings_scope (filter (topic_absent (lower text)) missing_checks))
      as Hs.
    rewrite Forall_forall in Hs. specialize (Hs g Hg).
    unfold triple in E. inversion E as [[E1 E2 E3]]. congruence.
Qed.

(** *** The report lists the findings of the instance *)

Lemma report_findings_perm (self : instance) :
  Permutation (self_findings self) (findings (_calculate_overall_score self)).
Proof.
  unfold _calculate_overall_score.
  destruct (self_findings self) as [| f t] eqn:E; [constructor |].
  exact (PyListFacts.sorted_perm score true (f :: t)).
Qed.

End PassFacts.

(** ** Claim C8: no two findings of a report share a triple *)

Module DistinctClaims.
Import PyStr RiskAssessor Scoring Supplied Invariants PassFacts.

(** C8, as stated, fails: the missing-protection pass appends without
    looking at what is there. A clause object scoped to ["missing"] with the
    indicator [missing_liability_cap] and the text "[Not found in contract]"
    gives, in the per-clause pass, a finding of the very triple the
    missing-protection pass then adds for a text without a liability cap. *)
Lemma missing_pass_repeats_a_triple :
  ~ NoDup (map triple
             (findings
                (snd (assess_contract __init__ plain_contract (Some [missing_lookalike]))))).
Proof.
  assert (E : map triple
                (findings
                   (snd (assess_contract __init__ plain_contract
                           (Some [missing_lookalike]))))
              = [ ("Missing Liability Cap", "missing", "[Not found in contract]");
                  ("Missing Liability Cap", "missing", "[Not found in contract]");
                  ("Missing Dispute Resolution", "missing", "[Not found in contract]");
                  ("Missing Notice Period", "missing", "[Not found in contract]");
                  ("Missing Force Majeure", "missing", "[Not found in contract]");
                  ("Missing Confidentiality", "missing", "[Not found in contract]") ])
    by (vm_compute; reflexivity).
  rewrite E. intros H.
  apply NoDup_cons_iff in H. destruct H as (H & _).
  apply H. left. reflexivity.
Qed.

(** C8, amended: when no supplied clause object is scoped to ["missing"]
    (its clause id, or its number when it has no id, or ["unknown"]), no two
    findings of the report share the triple of risk type, clause id and
    original text; the segmenter never makes such a clause, its ids being
    digits, roman numerals or single letters. *)
Theorem findings_are_distinct
  (self : instance) (text : string) (clauses : option (list Clause)) :
  (forall clause, In clause (supplied clauses) -> clause_id_of clause <> "missing") ->
  NoDup (map triple (findings (snd (assess_contract self text clauses)))).
Proof.
  intros Hc.
  rewrite ReportFacts.assess_contract_report.
  eapply Permutation_NoDup;
    [apply Permutation_map; apply report_findings_perm |].
  unfold assess_contract. cbv zeta. simpl fst.
  apply missing_pass_distinct.
  assert (H0 : distinct_unmissing (_analyze_text_risks (set_findings self []) text)).
  { apply text_pass_distinct. split; constructor. }
  destruct clauses as [[| clause more] |]; try exact H0.
  apply (fold_left_inv distinct_unmissing _analyze_clause_risks (clause :: more));
    [| exact H0].
  intros a c Hin Ha. apply clause_pass_distinct; [| exact Ha].
  apply Hc. exact Hin.
Qed.

(** A run of C8: the nine clauses of [nine_clauses]. *)
Lemma findings_of_nine_clauses_are_distinct :
  NoDup (map triple
           (findings (snd (assess_contract __init__ all_topics (Some nine_clauses))))).
Proof.
  apply (findings_are_distinct __init__ all_topics (Some nine_clauses)).
  intros clause Hin. simpl in Hin.
  repeat (destruct Hin as [<- | Hin]; [discriminate |]).
  contradiction.
Defined.

End DistinctClaims.

(** ** Claim C3: the per-clause pass *)

Module PerClauseFacts.
Import PyStr RiskAssessor Scoring Supplied Invariants PassFacts.

Lemma in_pairs_extends s s' p :
  extends s s' -> In p (map pair (self_findings s)) -> In p (map pair (self_findings s')).
Proof.
  intros (a & Ha) Hin. rewrite Ha, map_app. apply in_or_app. left. exact Hin.
Qed.

Lemma add_unless_same_clause_has s f :
  In (pair f) (map pair (self_findings (add_unless_same_clause s f))).
Proof.
  unfold add_unless_same_clause.
  destruct (existsb _ _) eqn:E.
  - apply same_clause_there. exact E.
  - simpl. rewrite map_app. apply in_or_app. right. left. reflexivity.
Qed.

(** The loop of [_analyze_clause_risks] over the indicators [l]. *)
Lemma clause_loop_emits clause l : forall s indicator w,
  In indicator l -> weight_of RISK_WEIGHTS indicator = Some w ->
  In (pair (clause_finding clause indicator w))
     (map pair (self_findings
        (fold_left
           (fun self indicator =>
              match weight_of RISK_WEIGHTS indicator with
              | Some score =>
                  add_unless_same_clause self (clause_finding clause indicator score)
              | None => self
              end) l s))).
Proof.
  induction l as [| i rest IH]; intros s indicator w Hin Hw; [destruct Hin |].
  cbn [fold_left]. destruct Hin as [-> | Hin].
  - rewrite Hw.
    eapply in_pairs_extends; [| apply add_unless_same_clause_has].
    apply fold_left_extends. intros a x.
    destruct (weight_of RISK_WEIGHTS x);
      [apply add_unless_same_clause_extends | apply extends_refl].
  - apply IH; assumption.
Qed.

Lemma clause_loop_added clause l : forall s,
  exists added,
    self_findings
      (fold_left
         (fun self indicator =>
            match weight_of RISK_WEIGHTS indicator with
            | Some score =>
                add_unless_same_clause self (clause_finding clause indicator score)
            | None => self
            end) l s)
    = (self_findings s ++ added)%list
    /\ NoDup (map pair added)
    /\ forall f, In f added ->
         ~ In (pair f) (map pair (self_findings s))
         /\ exists indicator w,
              In indicator l /\ weight_of RISK_WEIGHTS indicator = Some w
              /\ f = clause_finding clause indicator w.
Proof.
  induction l as [| i rest IH]; intros s; cbn [fold_left].
  - exists []. rewrite app_nil_r. repeat split; [constructor | destruct H | destruct H].
  - destruct (weight_of RISK_WEIGHTS i) as [w |] eqn:Hw.
    + unfold add_unless_same_clause at 2.
      destruct (existsb _ (self_findings s)) eqn:E.
      * destruct (IH s) as (added & Hf & Hn & Ha).
        exists added. split; [exact Hf |]. split; [exact Hn |].
        intros f Hin. destruct (Ha f Hin) as (H1 & ind & w' & H2 & H3 & H4).
        split; [exact H1 |]. exists ind, w'. split; [right; exact H2 | split; assumption].
      * destruct (IH (append s (clause_finding clause i w))) as (added & Hf & Hn & Ha).
        exists (clause_finding clause i w :: added).
        split; [rewrite Hf; simpl; rewrite <- app_assoc; reflexivity |].
        split.
        { simpl. constructor; [| exact Hn].
          intros Hin. apply in_map_iff in Hin. destruct Hin as (f & Ef & Hfin).
          destruct (Ha f Hfin) as (H1 & _). apply H1.
          simpl. rewrite map_app. apply in_or_app. right. left. symmetry. exact Ef. }
        intros f [<- | Hin].
        { split.
          - intros Hin. apply same_clause_there in Hin. congruence.
          - exists i, w. split; [left; reflexivity | split; [exact Hw | reflexivity]]. }
        destruct (Ha f Hin) as (H1 & ind & w' & H2 & H3 & H4).
        split.
        { intros Hp. apply H1. simpl. rewrite map_app. apply in_or_app. left. exact Hp. }
        exists ind, w'. split; [right; exact H2 | split; assumption].
    + destruct (IH s) as (added & Hf & Hn & Ha).
      exists added. split; [exact Hf |]. split; [exact Hn |].
      intros f Hin. destruct (Ha f Hin) as (H1 & ind & w' & H2 & H3 & H4).
      split; [exact H1 |]. exists ind, w'. split; [right; exact H2 | split; assumption].
Qed.

(** The loop of [assess_contract] over the clauses. *)
Lemma clauses_loop_emits l : forall s clause indicator w,
  In clause l -> In indicator (indicators_of clause) ->
  weight_of RISK_WEIGHTS indicator = Some w ->
  In (pair (clause_finding clause indicator w))
     (map pair (self_findings (fold_left _analyze_clause_risks l s))).
Proof.
  induction l as [| c rest IH]; intros s clause indicator w Hc Hi Hw; [destruct Hc |].
  cbn [fold_left]. destruct Hc as [-> | Hc].
  - eapply in_pairs_extends.
    + apply fold_left_extends. intros a x. apply clause_pass_extends.
    + unfold _analyze_clause_risks. apply clause_loop_emits; assumption.
  - apply IH; assumption.
Qed.

End PerClauseFacts.

Module PerClauseClaims.
Import PyStr RiskAssessor Scoring Supplied Invariants PassFacts.

(** C3, as stated, fails: an indicator that is not a key of the weight
    table is passed over by the guard [indicator in self.RISK_WEIGHTS].
    The clause object with the indicator [late_delivery] gets no finding:
    every finding of the report is scoped to ["missing"]. *)
Lemma unlisted_indicator_gets_no_finding :
  weight_of RISK_WEIGHTS "late_delivery" = None
  /\ map clause_id
       (findings (snd (assess_contract __init__ plain_contract (Some [late_delivery_clause]))))
     = ["missing"; "missing"; "missing"; "missing"; "missing"]
  /\ ~ exists f,
         In f (findings (snd (assess_contract __init__ plain_contract (Some [late_delivery_clause]))))
         /\ clause_id f = clause_id_of late_delivery_clause.
Proof.
  split; [reflexivity |].
  assert (E : map clause_id
       (findings (snd (assess_contract __init__ plain_contract (Some [late_delivery_clause]))))
     = ["missing"; "missing"; "missing"; "missing"; "missing"])
    by (vm_compute; reflexivity).
  split; [exact E |].
  intros (f & Hin & Hc).
  apply (in_map clause_id) in Hin. rewrite E, Hc in Hin.
  simpl in Hin. repeat (destruct Hin as [Hin | Hin]; [discriminate |]).
  contradiction.
Qed.

(** Of the seven tags of the extractor, five are keys of the weight table;
    [ip_assignment] and [auto_renewal] are not, so a clause that carries only
    these gets no finding of its own. *)
Remark extractor_tags_without_weight :
  map (fun tag => (tag, weight_of RISK_WEIGHTS tag))
      (map fst ClauseExtractor.HIGH_RISK_PATTERNS)
  = [ ("unlimited_liability", Some 9%Z);
      ("unilateral_termination", Some 8%Z);
      ("excessive_penalty", Some 7%Z);
      ("broad_non_compete", Some 7%Z);
      ("ip_assignment", None);
      ("auto_renewal", None);
      ("one_sided_indemnity", Some 8%Z) ]
  /\ forall before,
       _analyze_clause_risks before
         (mkClause (Some "3") None (Some "All rights are assigned.")
            (Some ["ip_assignment"; "auto_renewal"]))
       = before.
Proof. split; [vm_compute; reflexivity | intros before; reflexivity]. Qed.

(** C3, amended: for every clause object supplied to the risk assessor and
    every indicator of its [risk_indicators] that is a key of the weight
    table, the report has a finding of that indicator's risk type scoped to
    that clause's id. The per-clause pass over one clause, from any state,
    only appends findings: each appended finding is scoped to the clause and
    made of one of its listed indicators with its weight, no two appended
    findings share the pair of clause id and risk type, and none repeats a
    pair that was there before. (An indicator outside the weight table brings
    no finding; of the extractor's tags this leaves out [ip_assignment] and
    [auto_renewal], which the weight table spells [ip_full_transfer] and
    [auto_renewal_hidden].) *)
Theorem per_clause_pass_emits
  (self : instance) (text : string) (clauses : list Clause)
  (clause : Clause) (indicator : string) (w : Z) :
  In clause clauses ->
  In indicator (indicators_of clause) ->
  weight_of RISK_WEIGHTS indicator = Some w ->
  (exists f,
     In f (findings (snd (assess_contract self text (Some clauses))))
     /\ clause_id f = clause_id_of clause
     /\ risk_type f = label indicator)
  /\ (forall before : instance,
        exists added,
          self_findings (_analyze_clause_risks before clause)
          = (self_findings before ++ added)%list
          /\ NoDup (map pair added)
          /\ forall f, In f added ->
               ~ In (pair f) (map pair (self_findings before))
               /\ clause_id f = clause_id_of clause
               /\ exists i s,
                    In i (indicators_of clause)
                    /\ weight_of RISK_WEIGHTS i = Some s
                    /\ risk_type f = label i /\ score f = s).
Proof.
  intros Hc Hi Hw. split.
  - assert (Hp : In (pair (clause_finding clause indicator w))
                   (map pair (self_findings
                      (fst (assess_contract self text (Some clauses)))))).
    { unfold assess_contract. cbv zeta. simpl fst.
      eapply PerClauseFacts.in_pairs_extends; [apply missing_pass_extends |].
      destruct clauses as [| c more]; [destruct Hc |].
      apply (PerClauseFacts.clauses_loop_emits (c :: more)); assumption. }
    apply in_map_iff in Hp. destruct Hp as (f & Ef & Hf).
    exists f. split.
    + rewrite ReportFacts.assess_contract_report.
      eapply Permutation_in; [apply report_findings_perm | exact Hf].
    + unfold pair in Ef. inversion Ef as [[E1 E2]]. split; reflexivity.
  - intros before.
    destruct (PerClauseFacts.clause_loop_added clause (indicators_of clause) before)
      as (added & Hf & Hn & Ha).
    exists added. split; [exact Hf |]. split; [exact Hn |].
    intros f Hin. destruct (Ha f Hin) as (H1 & i & s & H2 & H3 & ->).
    split; [exact H1 |]. split; [reflexivity |].
    exists i, s. repeat split; assumption.
Qed.

(** A run of C3: the first clause of [nine_clauses] and its indicator
    [auto_renewal_hidden], of weight 6. *)
Lemma per_clause_pass_on_nine_clauses :
  (exists f,
     In f (findings (snd (assess_contract __init__ all_topics (Some nine_clauses))))
     /\ clause_id f = "1"
     /\ risk_type f = "Auto Renewal Hidden")
  /\ (forall before : instance,
        exists added,
          self_findings (_analyze_clause_risks before
            (flagged "1" ["unlimited_liability"; "auto_renewal_hidden"; "vague_termination"]))
          = (self_findings before ++ added)%list
          /\ NoDup (map pair added)
          /\ forall f, In f added ->
               ~ In (pair f) (map pair (self_findings before))
               /\ clause_id f = "1"
               /\ exists i s,
                    In i ["unlimited_liability"; "auto_renewal_hidden"; "vague_termination"]
                    /\ weight_of RISK_WEIGHTS i = Some s
                    /\ risk_type f = label i /\ score f = s).
Proof.
  apply (per_clause_pass_emits __init__ all_topics nine_clauses
           (flagged "1" ["unlimited_liability"; "auto_renewal_hidden"; "vague_termination"])
           "auto_renewal_hidden" 6%Z).
  - simpl. left. reflexivity.
  - simpl. right. left. reflexivity.
  - reflexivity.
Defined.

End PerClauseClaims.

(** ** Claim C10: the quick score of one clause *)

Module QuickScoreFacts.
Import PyStr RiskAssessor QuickScore.

Lemma any_found_existsb (patterns : list string) (text : string) :
  any_found patterns text = existsb (fun pattern => Re.found Re.I pattern text) patterns.
Proof.
  induction patterns as [| p t IH]; simpl; [reflexivity |].
  destruct (Re.found Re.I p text); simpl; [reflexivity | exact IH].
Qed.

(** The outer loop collects the types of the entries that match. *)
Lemma collect_filter (text : string) (table : list (string * RiskInfo)) (acc : list string) :
  fold_left
    (fun acc (entry : string * RiskInfo) =>
       if any_found (patterns (snd entry)) text then (acc ++ [fst entry])%list else acc)
    table acc
  = (acc ++ map fst
       (filter (fun entry : string * RiskInfo =>
                  existsb (fun pattern => Re.found Re.I pattern text)
                          (patterns (snd entry)))
               table))%list.
Proof.
  revert acc. induction table as [| e t IH]; intros acc; simpl.
  - rewrite app_nil_r. reflexivity.
  - rewrite IH, any_found_existsb.
    destruct (existsb _ (patterns (snd e))); simpl.
    + rewrite <- app_assoc. reflexivity.
    + reflexivity.
Qed.

Lemma max_of_greatest (w : Z) (more : list Z) :
  In (max_of w more) (w :: more)
  /\ Forall (fun w' => (w' <= max_of w more)%Z) (w :: more).
Proof.
  revert w. induction more as [| w' rest IH]; intros w; simpl.
  - split; [left; reflexivity | repeat constructor; lia].
  - destruct (w <? w')%Z eqn:E.
    + destruct (IH w') as (Hin & Hall). split.
      * right. exact Hin.
      * inversion Hall as [| ? ? Hw' Hrest]; subst.
        constructor; [apply Z.ltb_lt in E; lia |].
        constructor; assumption.
    + destruct (IH w) as (Hin & Hall). split.
      * destruct Hin as [Hin | Hin]; [left; exact Hin | right; right; exact Hin].
      * inversion Hall as [| ? ? Hw Hrest]; subst.
        constructor; [exact Hw |].
        constructor; [apply Z.ltb_ge in E; lia | exact Hrest].
Qed.


Lemma get_clause_risk_score_matched (self : instance) (clause_content : string) :
  get_clause_risk_score self clause_content
  = match map weight_or_5 (matched clause_content) with
    | [] => (2%Q, LOW, [])
    | w :: more =>
        (inject_Z (max_of w more), _score_to_level (inject_Z (max_of w more)),
         matched clause_content)
    end.
Proof.
  unfold get_clause_risk_score. rewrite collect_filter. reflexivity.
Qed.

End QuickScoreFacts.

Module QuickScoreClaims.
Import PyStr RiskAssessor QuickScore.


End QuickScoreClaims.

(** ** Claims C4 and C5: the confidence of the classifier *)

Module ClassifierFacts.
Import PyStr ContractClassifier Confidence.

Lemma Z_min_is_min (a b : Z) : Z_min a b = Z.min a b.
Proof. unfold Z_min. destruct (b <? a)%Z eqn:E; lia. Qed.

Lemma sum_Z_cons (z : Z) (l : list Z) : sum_Z (z :: l) = (z + sum_Z l)%Z.
Proof. reflexivity. Qed.

Lemma score_keywords_fst text_lower keywords acc :
  fst (score_keywords text_lower keywords acc)
  = (fst acc + sum_Z (map (keyword_points text_lower) keywords))%Z.
Proof.
  unfold score_keywords. revert acc.
  induction keywords as [| k t IH]; intros acc; cbn [fold_left map].
  - unfold sum_Z. cbn [fold_right]. lia.
  - rewrite IH, sum_Z_cons. unfold keyword_points at 2.
    destruct (0 <? PyStr.count text_lower (lower k)) eqn:E; cbn [fst].
    + rewrite Z_min_is_min. lia.
    + apply Nat.ltb_ge in E.
      assert (E0 : PyStr.count text_lower (lower k) = 0) by lia.
      rewrite E0. change (Z.min (Z.of_nat 0) 5) with 0%Z. lia.
Qed.

Lemma score_patterns_fst text_lower patterns acc :
  fst (score_patterns text_lower patterns acc)
  = (fst acc + sum_Z (map (pattern_points text_lower) patterns))%Z.
Proof.
  unfold score_patterns. revert acc.
  induction patterns as [| p t IH]; intros acc; cbn [fold_left map].
  - unfold sum_Z. cbn [fold_right]. lia.
  - rewrite IH, sum_Z_cons. unfold pattern_points at 2.
    destruct (Re.found Re.I p text_lower); cbn [fst]; lia.
Qed.

(** The entry of a type in [scores]: there when its score is not zero. *)
Lemma score_type_entry text_lower (entry : string * TypeInfo) :
  exists indicators,
    score_type text_lower entry
    = if (0 <? type_score text_lower (snd entry))%Z
      then [(fst entry, (type_score text_lower (snd entry), indicators))]
      else [].
Proof.
  unfold score_type.
  assert (E : fst (score_patterns text_lower (patterns (snd entry))
                     (score_keywords text_lower (keywords (snd entry)) (0%Z, [])))
              = type_score text_lower (snd entry)).
  { rewrite score_patterns_fst, score_keywords_fst. unfold type_score. cbn [fst]. lia. }
  rewrite E. eexists. reflexivity.
Qed.

Lemma scores_of_in text_lower (e : score_entry) :
  In e (scores_of text_lower) ->
  exists entry,
    In entry CONTRACT_PATTERNS
    /\ fst e = fst entry
    /\ fst (snd e) = type_score text_lower (snd entry)
    /\ (0 < type_score text_lower (snd entry))%Z.
Proof.
  unfold scores_of. intros H. apply in_flat_map in H.
  destruct H as (entry & Hentry & Hin).
  destruct (score_type_entry text_lower entry) as (ind & E). rewrite E in Hin.
  destruct (0 <? type_score text_lower (snd entry))%Z eqn:Hpos; [| destruct Hin].
  destruct Hin as [<- | []].
  exists entry. apply Z.ltb_lt in Hpos. repeat split; assumption.
Qed.

Lemma in_scores_of text_lower (entry : string * TypeInfo) :
  In entry CONTRACT_PATTERNS ->
  (0 < type_score text_lower (snd entry))%Z ->
  exists e, In e (scores_of text_lower)
            /\ fst (snd e) = type_score text_lower (snd entry).
Proof.
  intros Hentry Hpos. unfold scores_of.
  destruct (score_type_entry text_lower entry) as (ind & E).
  apply Z.ltb_lt in Hpos. rewrite Hpos in E.
  exists (fst entry, (type_score text_lower (snd entry), ind)).
  split; [| reflexivity].
  apply in_flat_map. exists entry. split; [exact Hentry |].
  rewrite E. left. reflexivity.
Qed.

Lemma max_from_greatest {A : Type} (key : A -> Z) (x : A) (l : list A) :
  In (PyList.max_from key x l) (x :: l)
  /\ Forall (fun y => (key y <= key (PyList.max_from key x l))%Z) (x :: l).
Proof.
  revert x. induction l as [| y t IH]; intros x; simpl.
  - split; [left; reflexivity | repeat constructor; lia].
  - destruct (key x <? key y)%Z eqn:E.
    + destruct (IH y) as (Hin & Hall). split; [right; exact Hin |].
      inversion Hall as [| ? ? Hy Ht]; subst.
      constructor; [apply Z.ltb_lt in E; lia | constructor; assumption].
    + destruct (IH x) as (Hin & Hall). split.
      * destruct Hin as [Hin | Hin]; [left; exact Hin | right; right; exact Hin].
      * inversion Hall as [| ? ? Hx Ht]; subst.
        constructor; [exact Hx |].
        constructor; [apply Z.ltb_ge in E; lia | exact Ht].
Qed.

Lemma max_by_greatest {A : Type} (key : A -> Z) (l : list A) (best : A) :
  PyList.max_by key l = Some best ->
  In best l /\ Forall (fun y => (key y <= key best)%Z) l.
Proof.
  destruct l as [| x t]; simpl; [discriminate |].
  intros H. inversion H; subst. apply max_from_greatest.
Qed.

Lemma max_by_none {A : Type} (key : A -> Z) (l : list A) :
  PyList.max_by key l = None -> l = [].
Proof. destruct l; simpl; [reflexivity | discriminate]. Qed.

(** Every profile is found under its own name. *)
Lemma get_own_profile :
  Forall (fun entry => get CONTRACT_PATTERNS (fst entry) = Some (snd entry))
         CONTRACT_PATTERNS.
Proof. repeat (constructor; [reflexivity |]). constructor. Qed.

Lemma max_possible_of_entry (entry : string * TypeInfo) :
  In entry CONTRACT_PATTERNS -> max_possible_of (fst entry) = max_possible (snd entry).
Proof.
  intros H. pose proof get_own_profile as G. rewrite Forall_forall in G.
  unfold max_possible_of. rewrite (G entry H). reflexivity.
Qed.

(** No profile is named ["Unknown"], and the greatest score a profile can
    reach lies between 1 and 135. *)
Lemma profiles_bounded :
  Forall (fun entry => fst entry <> "Unknown"
                       /\ (1 <= max_possible (snd entry) <= 135)%Z)
         CONTRACT_PATTERNS.
Proof.
  repeat (constructor; [split; [discriminate | vm_compute; split; discriminate] |]).
  constructor.
Qed.

(** What [classify] returns, by the best entry of [scores]. *)
Lemma classify_result (self : instance) (text : string) :
  match PyList.max_by (fun e : score_entry => fst (snd e)) (scores_of (lower text)) with
  | None =>
      snd (classify self text) = mkClassificationResult "Unknown" 0 "" []
  | Some best =>
      contract_type (snd (classify self text)) = fst best
      /\ confidence (snd (classify self text))
         = PyNum.round
             (PyNum.min 1 (inject_Z (fst (snd best))
                           / (inject_Z (max_possible_of (fst best)) * (3 # 10)))%Q) 2
  end.
Proof.
  unfold classify.
  destruct (PyList.max_by _ (scores_of (lower text))) as [best |]; simpl.
  - split; reflexivity.
  - reflexivity.
Qed.

End ClassifierFacts.

Module ClassifierClaims.
Import PyStr ContractClassifier Confidence.
Local Open Scope Q_scope.

(** The confidence of a type that scores: at least 0.02 and at most 1,
    as a number of hundredths. *)
Lemma confidence_hundredths (best_score max_possible : Z) :
  (1 <= best_score)%Z -> (1 <= max_possible <= 135)%Z ->
  exists z : Z,
    (2 <= z <= 100)%Z
    /\ PyNum.round
         (PyNum.min 1 (inject_Z best_score / (inject_Z max_possible * (3 # 10)))) 2
       = inject_Z z / inject_Z 100.
Proof.
  intros Hs Hm.
  set (c := PyNum.min 1 (inject_Z best_score / (inject_Z max_possible * (3 # 10)))).
  exists (PyNum.round_half_even (c * inject_Z 100)). split; [| reflexivity].
  assert (Hhi : c <= 1) by apply PyNumFacts.min_le_l.
  assert (Hlo : 2 # 81 <= c).
  { unfold c, PyNum.min.
    destruct (Qlt_le_dec _ 1) as [_ | _]; [| discriminate].
    apply Qle_shift_div_l.
    - unfold Qlt, Qmult, inject_Z. cbn [Qnum Qden]. lia.
    - unfold Qle, Qmult, inject_Z. cbn [Qnum Qden]. rewrite ?Pos2Z.inj_mul. lia. }
  apply PyNumFacts.round_half_even_between.
  - apply Qle_trans with ((2 # 81) * inject_Z 100); [discriminate |].
    apply Qmult_le_compat_r; [exact Hlo | discriminate].
  - apply Qle_trans with (1 * inject_Z 100); [| discriminate].
    apply Qmult_le_compat_r; [exact Hhi | discriminate].
Qed.

(** C5: for every input text the confidence of the classification lies
    between 0.0 and 1.0, and it is 0.0 exactly when the contract type is
    ["Unknown"]. *)
Theorem confidence_bound (self : instance) (text : string) :
  0 <= confidence (snd (classify self text)) <= 1
  /\ (confidence (snd (classify self text)) == 0
      <-> contract_type (snd (classify self text)) = "Unknown").
Proof.
  pose proof (ClassifierFacts.classify_result self text) as H.
  destruct (PyList.max_by _ (scores_of (lower text))) as [best |] eqn:E.
  - destruct H as (Ht & Hc).
    apply ClassifierFacts.max_by_greatest in E. destruct E as (Hin & _).
    apply ClassifierFacts.scores_of_in in Hin.
    destruct Hin as (entry & Hentry & Hname & Hscore & Hpos).
    pose proof ClassifierFacts.profiles_bounded as B. rewrite Forall_forall in B.
    destruct (B entry Hentry) as (Hunknown & Hmax).
    rewrite Hname, (ClassifierFacts.max_possible_of_entry entry Hentry), Hscore in Hc.
    destruct (confidence_hundredths (type_score (lower text) (snd entry))
                (max_possible (snd entry)) ltac:(lia) Hmax) as (z & Hz & Hr).
    rewrite Hc, Hr, Ht, Hname.
    split; [split |].
    + unfold Qle, Qdiv, Qmult, Qinv, inject_Z. simpl. lia.
    + unfold Qle, Qdiv, Qmult, Qinv, inject_Z. simpl. lia.
    + split.
      * unfold Qeq, Qdiv, Qmult, Qinv, inject_Z. simpl. lia.
      * intros Hu. exfalso. exact (Hunknown Hu).
  - rewrite H. simpl. split; [split; discriminate |].
    split; reflexivity.
Qed.

(** C4, as stated, fails: the confidence returned is not the normalized
    score itself. In [salary_text] the Employment Agreement profile (17
    keywords, 5 patterns: 135 at most) scores 1 and no other profile scores;
    the normalized score is 1 / (135 * 0.3) = 2/81, the confidence returned
    is 0.02. *)
Lemma confidence_is_not_the_normalized_score :
  contract_type (snd (classify __init__ salary_text)) = "Employment Agreement"
  /\ scores_of (lower salary_text) = [("Employment Agreement", (1%Z, ["salary"]))]
  /\ max_possible_of "Employment Agreement" = 135%Z
  /\ normalized 1 135 == 2 # 81
  /\ confidence (snd (classify __init__ salary_text)) == 2 # 100
  /\ ~ confidence (snd (classify __init__ salary_text)) == normalized 1 135.
Proof.
  split; [vm_compute; reflexivity |].
  split; [vm_compute; reflexivity |].
  split; [vm_compute; reflexivity |].
  split; [vm_compute; reflexivity |].
  split; [vm_compute; reflexivity |].
  vm_compute. discriminate.
Qed.

(** C4, amended: for every document for which some contract type attains
    a nonzero score, the contract type returned is a profile whose score is
    positive and not below that of any profile, and the confidence returned
    is min(1.0, best_score / (max_possible * 0.3)) rounded to two decimals,
    where max_possible is the number of keywords of that profile times 5
    plus the number of its patterns times 10. *)
Theorem confidence_is_rounded_normalized_score (self : instance) (text : string) :
  some_type_scores text ->
  exists type_info,
    In (contract_type (snd (classify self text)), type_info) CONTRACT_PATTERNS
    /\ (0 < type_score (lower text) type_info)%Z
    /\ (forall entry, In entry CONTRACT_PATTERNS ->
          (type_score (lower text) (snd entry)
           <= type_score (lower text) type_info)%Z)
    /\ confidence (snd (classify self text))
       == PyNum.round
            (normalized (type_score (lower text) type_info) (max_possible type_info)) 2.
Proof.
  intros (scoring & Hscoring & Hsome).
  pose proof (ClassifierFacts.classify_result self text) as H.
  destruct (PyList.max_by _ (scores_of (lower text))) as [best |] eqn:E.
  - destruct H as (Ht & Hc).
    apply ClassifierFacts.max_by_greatest in E. destruct E as (Hin & Hall).
    apply ClassifierFacts.scores_of_in in Hin.
    destruct Hin as (entry & Hentry & Hname & Hscore & Hpos).
    exists (snd entry).
    split; [rewrite Ht, Hname, <- surjective_pairing; exact Hentry |].
    split; [exact Hpos |].
    split.
    + intros other Hother.
      destruct (Z_lt_le_dec 0 (type_score (lower text) (snd other))) as [Ho | Ho];
        [| lia].
      destruct (ClassifierFacts.in_scores_of (lower text) other Hother Ho)
        as (e & He & Hes).
      rewrite Forall_forall in Hall. specialize (Hall e He). simpl in Hall.
      rewrite Hes, Hscore in Hall. exact Hall.
    + rewrite Hc, Hname, (ClassifierFacts.max_possible_of_entry entry Hentry), Hscore.
      apply PyNumFacts.round_comp. unfold normalized.
      apply PyNumFacts.min_is_Qmin.
  - exfalso. apply ClassifierFacts.max_by_none in E.
    destruct (ClassifierFacts.in_scores_of (lower text) scoring Hscoring Hsome)
      as (e & He & _).
    rewrite E in He. destruct He.
Qed.

(** A run of C4: the text [salary_text]. *)
Lemma confidence_of_salary :
  exists type_info,
    In (contract_type (snd (classify __init__ salary_text)), type_info) CONTRACT_PATTERNS
    /\ (0 < type_score (lower salary_text) type_info)%Z
    /\ (forall entry, In entry CONTRACT_PATTERNS ->
          (type_score (lower salary_text) (snd entry)
           <= type_score (lower salary_text) type_info)%Z)
    /\ confidence (snd (classify __init__ salary_text))
       == PyNum.round
            (normalized (type_score (lower salary_text) type_info)
                        (max_possible type_info)) 2.
Proof.
  apply (confidence_is_rounded_normalized_score __init__ salary_text).
  exists (hd ("", mkTypeInfo [] [] []) CONTRACT_PATTERNS).
  split; [left; reflexivity | vm_compute; reflexivity].
Defined.

End ClassifierClaims.

(** ** Claim C9: a run does not depend on the runs before it *)

Module PipelineFacts.
Import PyStr RiskAssessor Invariants PassFacts.












(** The output of a run, component by component. *)
Lemma process_output py (cs : Pipeline.Components) text :
  snd (Pipeline.process py cs text)
  = Pipeline.mkOutput
      (snd (ContractClassifier.classify (Pipeline.classifier cs) text))
      (snd (ClauseExtractor.extract_clauses py (Pipeline.clause_extractor cs) text))
      (ClauseExtractor.extract_data_dimensions py
         (fst (ClauseExtractor.extract_clauses py (Pipeline.clause_extractor cs) text))
         text)
      (snd (assess_contract (Pipeline.risk_assessor cs) text
              (Some (map Pipeline.clause_dict
                 (snd (ClauseExtractor.extract_clauses py
                         (Pipeline.clause_extractor cs) text)))))).
Proof.
  unfold Pipeline.process.
  destruct (ContractClassifier.classify (Pipeline.classifier cs) text) as [c r].
  destruct (ClauseExtractor.extract_clauses py (Pipeline.clause_extractor cs) text)
    as [e l].
  cbn [fst snd].
  destruct (assess_contract (Pipeline.risk_assessor cs) text
              (Some (map Pipeline.clause_dict l))) as [a rep].
  reflexivity.
Qed.


End PipelineFacts.

Module PipelineClaims.
Import Pipeline.


(** What C9 does not cover: two interpreter processes may list a set in
    different orders (string hashing is seeded per process), and the
    [risk_indicators] of a clause with two indicators then differ. *)
Remark set_order_shows_in_the_output :
  map ClauseExtractor.risk_indicators
      (clauses (snd (process as_listed fresh Segmentation.indemnity_clause)))
  = [["unlimited_liability"; "one_sided_indemnity"]]
  /\ map ClauseExtractor.risk_indicators
        (clauses (snd (process as_reversed fresh Segmentation.indemnity_clause)))
     = [["one_sided_indemnity"; "unlimited_liability"]].
Proof. split; vm_compute; reflexivity. Qed.

End PipelineClaims.

(* ================================================================== *)
(** * Further properties of the code *)

(** ** Searching and iterating agree *)

Module SearchFacts.
Import Re.

Lemma scan_nil_iff r rs : forall p pv resume,
  resume <= p ->
  (scan r p pv rs resume = [] <-> first_match r p pv rs = None).
Proof.
  induction rs as [| c t IH]; intros p pv resume Hle; simpl;
    apply Nat.leb_le in Hle; rewrite Hle.
  - destruct (match_at r p pv ""); split; intros H; try discriminate; reflexivity.
  - destruct (match_at r p pv (String c t)).
    + split; intros H; discriminate.
    + apply IH. apply Nat.leb_le in Hle. lia.
Qed.

(** [re.search] finds a match exactly when [re.finditer] yields one. *)
Lemma found_iff_finditer fl pattern text :
  found fl pattern text = false <-> finditer fl pattern text = [].
Proof.
  unfold found, search, finditer.
  rewrite (scan_nil_iff (compile fl pattern) text 0 None 0 (Nat.le_refl 0)).
  destruct (first_match (compile fl pattern) 0 None text);
    split; intros H; try discriminate; reflexivity.
Qed.

End SearchFacts.

(** ** Every finding of a report is justified and graded *)

Module ProvenanceFacts.
Import PyStr RiskAssessor Scoring Supplied Invariants Provenance PassFacts.

Lemma justified_more text (cs cs' : list Clause) f :
  (forall c, In c cs -> In c cs') -> justified text cs f -> justified text cs' f.
Proof.
  intros Hsub [H | [H | H]]; [left; exact H | | right; right; exact H].
  right. left. destruct H as (c & i & w & Hc & H).
  exists c, i, w. split; [apply Hsub; exact Hc | exact H].
Qed.

Lemma Forall_snoc {A : Type} (P : A -> Prop) (l : list A) (x : A) :
  Forall P l -> P x -> Forall P (l ++ [x]).
Proof. intros Hl Hx. apply Forall_app. split; [exact Hl | repeat constructor; exact Hx]. Qed.

Lemma text_pass_justified text cs s :
  Forall (justified text cs) (self_findings s) ->
  Forall (justified text cs) (self_findings (_analyze_text_risks s text)).
Proof.
  unfold _analyze_text_risks.
  apply (fold_left_inv (fun a => Forall (justified text cs) (self_findings a))).
  intros a e He.
  apply (fold_left_inv (fun a => Forall (justified text cs) (self_findings a))).
  intros a' p Hp.
  apply (fold_left_inv (fun a => Forall (justified text cs) (self_findings a))).
  intros a'' m Hm Ha.
  unfold add_unless_same_text. destruct (existsb _ _); [exact Ha |].
  simpl. apply Forall_snoc; [exact Ha |].
  left. exists e, p, m. repeat split; assumption.
Qed.

Lemma clause_pass_justified text cs s clause :
  In clause cs ->
  Forall (justified text cs) (self_findings s) ->
  Forall (justified text cs) (self_findings (_analyze_clause_risks s clause)).
Proof.
  intros Hc. unfold _analyze_clause_risks.
  apply (fold_left_inv (fun a => Forall (justified text cs) (self_findings a))).
  intros a indicator Hi Ha.
  destruct (weight_of RISK_WEIGHTS indicator) as [w |] eqn:Hw; [| exact Ha].
  unfold add_unless_same_clause. destruct (existsb _ _); [exact Ha |].
  simpl. apply Forall_snoc; [exact Ha |].
  right. left. exists clause, indicator, w. repeat split; assumption.
Qed.

Lemma missing_pass_justified text cs s :
  Forall (justified text cs) (self_findings s) ->
  Forall (justified text cs) (self_findings (_check_missing_protections s text)).
Proof.
  intros Hs. rewrite missing_pass_findings. apply Forall_app. split; [exact Hs |].
  apply Forall_forall. intros f Hf.
  apply in_map_iff in Hf. destruct Hf as (e & <- & He).
  apply filter_In in He. destruct He as (He & Habsent).
  right. right. exists e. repeat split; assumption.
Qed.

(** The findings [assess_contract] leaves in the instance. *)
Lemma assess_contract_justified self text clauses :
  Forall (justified text (supplied clauses))
         (self_findings (fst (assess_contract self text clauses))).
Proof.
  unfold assess_contract. cbv zeta. cbn [fst].
  apply missing_pass_justified.
  assert (H0 : Forall (justified text (supplied clauses))
                 (self_findings (_analyze_text_risks (set_findings self []) text))).
  { apply text_pass_justified. constructor. }
  destruct clauses as [[| clause more] |]; try exact H0.
  apply (fold_left_inv
           (fun a => Forall (justified text (clause :: more)) (self_findings a))
           _analyze_clause_risks (clause :: more)); [| exact H0].
  intros a c Hc Ha. apply clause_pass_justified; assumption.
Qed.

(** *** The weights *)

Lemma weight_of_in (P : Z -> Prop) (table : list (string * Z)) name w :
  Forall (fun e => P (snd e)) table -> weight_of table name = Some w -> P w.
Proof.
  induction table as [| [k v] t IH]; intros Hall H; simpl in H; [discriminate |].
  inversion Hall as [| ? ? Hv Ht]; subst.
  destruct (String.eqb k name); [inversion H; subst; exact Hv | apply IH; assumption].
Qed.

Lemma weights_bounded :
  Forall (fun e : string * Z => (3 <= snd e <= 9)%Z) RISK_WEIGHTS.
Proof. repeat (constructor; [simpl; lia |]). constructor. Qed.

Lemma weight_of_bounded name w :
  weight_of RISK_WEIGHTS name = Some w -> (3 <= w <= 9)%Z.
Proof. apply (weight_of_in (fun w => (3 <= w <= 9)%Z)). exact weights_bounded. Qed.

Lemma weight_or_5_bounded name : (3 <= weight_or_5 name <= 9)%Z.
Proof.
  unfold weight_or_5.
  destruct (weight_of RISK_WEIGHTS name) as [w |] eqn:E; [| lia].
  apply weight_of_bounded in E. exact E.
Qed.

Lemma missing_scores_bounded :
  Forall (fun e : string * CheckInfo => (3 <= check_score (snd e) <= 9)%Z) missing_checks.
Proof. repeat (constructor; [simpl; lia |]). constructor. Qed.

Lemma justified_graded text cs f : justified text cs f -> graded f.
Proof.
  intros [H | [H | H]].
  - destruct H as (e & p & m & _ & _ & _ & ->).
    split; [reflexivity | apply weight_or_5_bounded].
  - destruct H as (c & i & w & _ & _ & Hw & ->).
    split; [reflexivity | apply weight_of_bounded in Hw; exact Hw].
  - destruct H as (e & He & _ & ->).
    split; [reflexivity |].
    pose proof missing_scores_bounded as B. rewrite Forall_forall in B.
    exact (B e He).
Qed.

(** Every finding the report lists is one the instance holds. *)
Lemma report_findings_in (self : instance) (f : RiskFinding) :
  In f (findings (_calculate_overall_score self)) <-> In f (self_findings self).
Proof.
  split; intros H.
  - eapply Permutation_in; [apply Permutation_sym, report_findings_perm | exact H].
  - eapply Permutation_in; [apply report_findings_perm | exact H].
Qed.

End ProvenanceFacts.

Module ProvenanceProperties.
Import PyStr RiskAssessor Scoring Supplied Invariants Provenance PassFacts.



(** X2: In every report the level of each finding is the level of its score
    under the thresholds (8 CRITICAL, 6 HIGH, 4 MEDIUM, else LOW), and each
    score is one of the table weights, between 3 and 9: no finding of score
    8 or more has a level other than CRITICAL. *)
Theorem every_finding_is_graded
  (self : instance) (text : string) (clauses : option (list Clause)) :
  Forall (fun f =>
            risk_level f = _score_to_level (inject_Z (score f))
            /\ (3 <= score f <= 9)%Z
            /\ ((8 <= score f)%Z <-> risk_level f = CRITICAL))
         (findings (snd (assess_contract self text clauses))).
Proof.
  apply Forall_forall. intros f Hin.
  rewrite ReportFacts.assess_contract_report in Hin.
  apply ProvenanceFacts.report_findings_in in Hin.
  pose proof (ProvenanceFacts.assess_contract_justified self text clauses) as J.
  rewrite Forall_forall in J.
  destruct (ProvenanceFacts.justified_graded _ _ _ (J f Hin)) as (Hl & Hs).
  split; [exact Hl |]. split; [exact Hs |].
  rewrite Hl. unfold _score_to_level.
  assert (E8 : Qle_bool 8 (inject_Z (score f)) = (8 <=? score f)%Z).
  { unfold Qle_bool, inject_Z. simpl. f_equal; lia. }
  rewrite E8. destruct (8 <=? score f)%Z eqn:E.
  - apply Z.leb_le in E. split; [reflexivity | intros _; exact E].
  - apply Z.leb_gt in E. split; [intros H8; lia |].
    destruct (Qle_bool 6 _); [discriminate |].
    destruct (Qle_bool 4 _); discriminate.
Qed.

End ProvenanceProperties.

(** ** Every match and every weighted indicator is reported *)

Module CompletenessFacts.
Import PyStr RiskAssessor Scoring Supplied Invariants Provenance PassFacts.

(** What a loop of extending steps reaches once, it keeps. *)
Lemma fold_left_reaches {B : Type} (Q : instance -> Prop)
  (f : instance -> B -> instance) (l : list B) (x : B) :
  (forall a y, extends a (f a y)) ->
  (forall a a', extends a a' -> Q a -> Q a') ->
  In x l -> (forall a, Q (f a x)) -> forall s, Q (fold_left f l s).
Proof.
  intros Hext Hmono. induction l as [| y t IH]; intros Hin Hx s; [destruct Hin |].
  simpl. destruct Hin as [-> | Hin].
  - apply (Hmono (f s x)); [apply fold_left_extends; exact Hext | apply Hx].
  - apply IH; assumption.
Qed.

Lemma same_text_kept (f : RiskFinding) s s' :
  extends s s' ->
  (exists g, In g (self_findings s)
             /\ risk_type g = risk_type f /\ original_text g = original_text f) ->
  exists g, In g (self_findings s')
            /\ risk_type g = risk_type f /\ original_text g = original_text f.
Proof.
  intros He (g & Hg & H). exists g. split; [exact (extends_in _ _ _ He Hg) | exact H].
Qed.

Lemma add_unless_same_text_has s f :
  exists g, In g (self_findings (add_unless_same_text s f))
            /\ risk_type g = risk_type f /\ original_text g = original_text f.
Proof.
  unfold add_unless_same_text.
  destruct (existsb _ (self_findings s)) eqn:E.
  - apply existsb_exists in E. destruct E as (g & Hg & E).
    apply andb_true_iff in E. destruct E as [E1 E2].
    apply String.eqb_eq in E1. apply String.eqb_eq in E2.
    exists g. repeat split; assumption.
  - exists f. split; [| split; reflexivity].
    simpl. apply in_or_app. right. left. reflexivity.
Qed.

Lemma text_pass_emits s text entry pattern m :
  In entry RISK_PATTERNS ->
  In pattern (patterns (snd entry)) ->
  In m (Re.finditer Re.I pattern (lower text)) ->
  exists g, In g (self_findings (_analyze_text_risks s text))
            /\ risk_type g = label (fst entry)
            /\ original_text g
               = original_text (text_finding text (fst entry) (snd entry) m).
Proof.
  intros He Hp Hm. unfold _analyze_text_risks.
  pose (f := text_finding text (fst entry) (snd entry) m).
  change (exists g, In g (self_findings
            (fold_left
               (fun self (entry : string * RiskInfo) =>
                  fold_left
                    (fun self pattern =>
                       fold_left
                         (fun self m =>
                            add_unless_same_text self
                              (text_finding text (fst entry) (snd entry) m))
                         (Re.finditer Re.I pattern (lower text)) self)
                    (patterns (snd entry)) self)
               RISK_PATTERNS s))
            /\ risk_type g = risk_type f /\ original_text g = original_text f).
  apply (fold_left_reaches
           (fun a => exists g, In g (self_findings a)
                     /\ risk_type g = risk_type f /\ original_text g = original_text f)
           _ RISK_PATTERNS entry); try exact He.
  - intros a y. apply fold_left_extends. intros a' p.
    apply fold_left_extends. intros a'' m'. apply add_unless_same_text_extends.
  - intros a a'. apply same_text_kept.
  - intros a.
    apply (fold_left_reaches
             (fun a => exists g, In g (self_findings a)
                       /\ risk_type g = risk_type f /\ original_text g = original_text f)
             _ (patterns (snd entry)) pattern); try exact Hp.
    + intros a' p. apply fold_left_extends. intros a'' m'.
      apply add_unless_same_text_extends.
    + intros a0 a'. apply same_text_kept.
    + intros a0.
      apply (fold_left_reaches
               (fun a => exists g, In g (self_findings a)
                         /\ risk_type g = risk_type f /\ original_text g = original_text f)
               _ (Re.finditer Re.I pattern (lower text)) m); try exact Hm.
      * intros a' m'. apply add_unless_same_text_extends.
      * intros a1 a'. apply same_text_kept.
      * intros a1. apply add_unless_same_text_has.
Qed.

(** The document-wide pass adds findings of its own matches only. *)
Lemma text_pass_all (P : RiskFinding -> Prop) text s :
  (forall entry pattern m,
     In entry RISK_PATTERNS -> In pattern (patterns (snd entry)) ->
     In m (Re.finditer Re.I pattern (lower text)) ->
     P (text_finding text (fst entry) (snd entry) m)) ->
  Forall P (self_findings s) ->
  Forall P (self_findings (_analyze_text_risks s text)).
Proof.
  intros HP. unfold _analyze_text_risks.
  apply (fold_left_inv (fun a => Forall P (self_findings a))).
  intros a e He.
  apply (fold_left_inv (fun a => Forall P (self_findings a))).
  intros a' p Hp.
  apply (fold_left_inv (fun a => Forall P (self_findings a))).
  intros a'' m Hm Ha.
  unfold add_unless_same_text. destruct (existsb _ _); [exact Ha |].
  simpl. apply Forall_app. split; [exact Ha |].
  constructor; [apply (HP e p m); assumption | constructor].
Qed.

Lemma labels_distinct :
  NoDup (map (fun entry : string * RiskInfo => label (fst entry)) RISK_PATTERNS).
Proof.
  assert (E : map (fun entry : string * RiskInfo => label (fst entry)) RISK_PATTERNS
              = ["Unlimited Liability"; "One Sided Indemnity"; "Unilateral Termination";
                 "Ip Full Transfer"; "Broad Non Compete"; "Excessive Penalty";
                 "Auto Renewal Hidden"; "Unfavorable Jurisdiction"; "Vague Termination";
                 "Missing Liability Cap"]) by (vm_compute; reflexivity).
  rewrite E.
  repeat (constructor; [simpl; intuition discriminate |]).
  constructor.
Qed.

Lemma same_image {Entry Image : Type} (image : Entry -> Image) (entries : list Entry) :
  NoDup (map image entries) ->
  forall e e', In e entries -> In e' entries -> image e = image e' -> e = e'.
Proof.
  induction entries as [| x t IH]; intros Hnd e e' He He' Heq; [destruct He |].
  inversion Hnd as [| ? ? Hx Ht]; subst.
  destruct He as [-> | He], He' as [-> | He'].
  - reflexivity.
  - exfalso. apply Hx. rewrite Heq. apply in_map. exact He'.
  - exfalso. apply Hx. rewrite <- Heq. apply in_map. exact He.
  - apply IH; assumption.
Qed.

Lemma same_label entry entry' :
  In entry RISK_PATTERNS -> In entry' RISK_PATTERNS ->
  label (fst entry) = label (fst entry') -> entry = entry'.
Proof.
  apply (same_image (fun entry : string * RiskInfo => label (fst entry))).
  exact labels_distinct.
Qed.

(** The findings after the three passes, pass by pass. *)
Lemma assess_contract_passes self text clauses :
  exists s1 s2,
    s1 = _analyze_text_risks (set_findings self []) text
    /\ extends s1 s2
    /\ fst (assess_contract self text clauses) = _check_missing_protections s2 text
    /\ s2 = match clauses with
            | Some (clause :: more) => fold_left _analyze_clause_risks (clause :: more) s1
            | _ => s1
            end.
Proof.
  exists (_analyze_text_risks (set_findings self []) text).
  eexists. split; [reflexivity |]. split; [| split; reflexivity].
  destruct clauses as [[| c more] |]; try apply extends_refl.
  apply fold_left_extends. intros a x. apply clause_pass_extends.
Qed.

Lemma clauses_pass_of_supplied s clauses :
  match clauses with
  | Some (clause :: more) => fold_left _analyze_clause_risks (clause :: more) s
  | _ => s
  end = fold_left _analyze_clause_risks (supplied clauses) s.
Proof. destruct clauses as [[| c more] |]; reflexivity. Qed.

(** A match of the document-wide pass, as the report shows it. *)
Lemma match_reported self text clauses entry pattern m :
  In entry RISK_PATTERNS ->
  In pattern (patterns (snd entry)) ->
  In m (Re.finditer Re.I pattern (lower text)) ->
  exists f,
    In f (findings (snd (assess_contract self text clauses)))
    /\ clause_id f = "general"
    /\ risk_type f = label (fst entry)
    /\ score f = weight_or_5 (fst entry)
    /\ description f = info_description (snd entry)
    /\ original_text f
       = original_text (text_finding text (fst entry) (snd entry) m)
    /\ risk_level f = _score_to_level (inject_Z (weight_or_5 (fst entry))).
Proof.
  intros He Hp Hm.
  destruct (assess_contract_passes self text clauses)
    as (s1 & s2 & E1 & Hext & Efst & _).
  destruct (text_pass_emits (set_findings self []) text entry pattern m
              He Hp Hm) as (g & Hg & Ht & Ho).
  rewrite <- E1 in Hg.
  assert (Hfrom : Forall (from_text text) (self_findings s1)).
  { rewrite E1. apply text_pass_all; [| constructor].
    intros e p m' He' Hp' Hm'. exists e, p, m'. repeat split; assumption. }
  rewrite Forall_forall in Hfrom.
  destruct (Hfrom g Hg) as (e' & p' & m' & He' & Hp' & Hm' & Eg).
  assert (Ee : e' = entry).
  { apply same_label; try assumption.
    rewrite <- Ht. rewrite Eg. reflexivity. }
  subst e'.
  exists g. split.
  - rewrite ReportFacts.assess_contract_report.
    apply ProvenanceFacts.report_findings_in. rewrite Efst.
    apply (extends_in s2); [apply missing_pass_extends |].
    apply (extends_in s1); assumption.
  - split; [rewrite Eg; reflexivity |].
    split; [exact Ht |].
    split; [rewrite Eg; reflexivity |].
    split; [rewrite Eg; reflexivity |].
    split; [exact Ho | rewrite Eg; reflexivity].
Qed.

End CompletenessFacts.

Module CompletenessProperties.
Import PyStr RiskAssessor Scoring Supplied Samples QuickScore Invariants Provenance PassFacts.




End CompletenessProperties.
(** ** The range of the report *)

Module RangeFacts.
Import RiskAssessor Scoring Invariants Provenance.
Local Open Scope Q_scope.

Lemma sum_of_scores_bounds (fs : list RiskFinding) :
  Forall (fun f => (3 <= score f <= 9)%Z) fs ->
  (3 * Z.of_nat (List.length fs) <= sum_of_scores fs
   <= 9 * Z.of_nat (List.length fs))%Z.
Proof.
  induction 1 as [| f t Hf Ht IH].
  - simpl. lia.
  - change (sum_of_scores (f :: t)) with (score f + sum_of_scores t)%Z.
    change (List.length (f :: t)) with (S (List.length t)).
    rewrite Nat2Z.inj_succ. lia.
Qed.

Lemma mean_bounds (fs : list RiskFinding) :
  fs <> [] ->
  Forall (fun f => (3 <= score f <= 9)%Z) fs ->
  3 <= inject_Z (total_of fs) / inject_Z (Z.of_nat (List.length fs)) <= 9.
Proof.
  intros Hne Hall. rewrite ReportFacts.total_of_sum.
  pose proof (sum_of_scores_bounds fs Hall) as B.
  assert (Hn : (0 < Z.of_nat (List.length fs))%Z).
  { destruct fs; [contradiction | simpl; lia]. }
  assert (Hq : 0 < inject_Z (Z.of_nat (List.length fs))).
  { change 0 with (inject_Z 0). rewrite <- Zlt_Qlt. exact Hn. }
  split.
  - apply Qle_shift_div_l; [exact Hq |].
    change 3 with (inject_Z 3). rewrite <- inject_Z_mult. rewrite <- Zle_Qle. lia.
  - apply Qle_shift_div_r; [exact Hq |].
    change 9 with (inject_Z 9). rewrite <- inject_Z_mult. rewrite <- Zle_Qle. lia.
Qed.

Lemma min_10_bounds (x : Q) : 3 <= x -> 3 <= PyNum.min 10 x <= 10.
Proof.
  intros Hx. unfold PyNum.min. destruct (Qlt_le_dec x 10) as [H | H].
  - split; [exact Hx | apply Qlt_le_weak; exact H].
  - split; [discriminate | apply Qle_refl].
Qed.

Lemma boosted_by_code_bounds (fs : list RiskFinding) :
  fs <> [] ->
  Forall (fun f => (3 <= score f <= 9)%Z) fs ->
  3 <= boosted_by_code fs <= 10.
Proof.
  intros Hne Hall. destruct (mean_bounds fs Hne Hall) as [Hlo Hhi].
  unfold boosted_by_code. cbv zeta.
  set (avg := inject_Z (total_of fs) / inject_Z (Z.of_nat (List.length fs))) in *.
  assert (Hc : 3 <= avg + inject_Z (Z.of_nat (count_level CRITICAL fs)) * (1 # 2)).
  { rewrite <- (Qplus_0_r 3). apply Qplus_le_compat; [exact Hlo |].
    apply Qmult_le_0_compat; [| discriminate].
    change 0 with (inject_Z 0). rewrite <- Zle_Qle. lia. }
  assert (Hhalf : forall y, 3 <= y -> 3 <= y + (1 # 2)).
  { intros y Hy. rewrite <- (Qplus_0_r 3). apply Qplus_le_compat; [exact Hy | discriminate]. }
  assert (H9 : avg <= 10).
  { eapply Qle_trans; [exact Hhi | discriminate]. }
  destruct (0 <? count_level CRITICAL fs); destruct (2 <? count_level HIGH fs).
  - apply min_10_bounds. apply Hhalf. apply (min_10_bounds _ Hc).
  - apply min_10_bounds. exact Hc.
  - apply min_10_bounds. apply Hhalf. exact Hlo.
  - split; assumption.
Qed.

Lemma round_1_bounds (x : Q) : 3 <= x <= 10 -> 3 <= PyNum.round x 1 <= 10.
Proof.
  intros [Hlo Hhi]. unfold PyNum.round.
  change (10 ^ Z.of_nat 1)%Z with 10%Z.
  assert (B : (30 <= PyNum.round_half_even (x * inject_Z 10) <= 100)%Z).
  { apply PyNumFacts.round_half_even_between.
    - change (inject_Z 30) with (3 * inject_Z 10).
      apply Qmult_le_compat_r; [exact Hlo | discriminate].
    - change (inject_Z 100) with (10 * inject_Z 10).
      apply Qmult_le_compat_r; [exact Hhi | discriminate]. }
  split.
  - apply Qle_shift_div_l; [reflexivity |].
    change (3 * inject_Z 10) with (inject_Z 30). rewrite <- Zle_Qle. lia.
  - apply Qle_shift_div_r; [reflexivity |].
    change (10 * inject_Z 10) with (inject_Z 100). rewrite <- Zle_Qle. lia.
Qed.

Lemma levels_partition (fs : list RiskFinding) :
  (count_level CRITICAL fs + count_level HIGH fs + count_level MEDIUM fs
   + count_level LOW fs = List.length fs)%nat.
Proof.
  rewrite !ReportFacts.count_level_number. unfold number_of.
  induction fs as [| f t IH]; [reflexivity |].
  cbn [filter List.length]. destruct (risk_level f); cbn [level_eqb List.length]; lia.
Qed.

Lemma report_counts (s : instance) :
  (high_risk_count (_calculate_overall_score s)
   + medium_risk_count (_calculate_overall_score s)
   + low_risk_count (_calculate_overall_score s)
   = List.length (self_findings s))%nat.
Proof.
  unfold _calculate_overall_score.
  destruct (self_findings s) as [| f t] eqn:E; [reflexivity |].
  cbn [high_risk_count medium_risk_count low_risk_count].
  apply (levels_partition (f :: t)).
Qed.

End RangeFacts.

Module RangeProperties.
Import PyStr RiskAssessor Scoring Supplied Invariants Provenance PassFacts.
Local Open Scope Q_scope.

(** X4: In every report the three counts add up to the number of findings
    ([high_risk_count] takes the CRITICAL and the HIGH ones together);
    without findings the score is the baseline 2 and the level LOW, with
    findings the score lies between 3 and 10. *)
Theorem report_counts_and_range
  (self : instance) (text : string) (clauses : option (list Clause)) :
  let report := snd (assess_contract self text clauses) in
  (high_risk_count report + medium_risk_count report + low_risk_count report
   = List.length (findings report))%nat
  /\ (findings report = [] ->
      overall_score report = 2 /\ overall_level report = LOW)
  /\ (findings report <> [] -> 3 <= overall_score report <= 10)
  /\ 2 <= overall_score report <= 10.
Proof.
  cbv zeta. rewrite ReportFacts.assess_contract_report.
  pose proof (ProvenanceFacts.assess_contract_justified self text clauses) as J.
  set (s := fst (assess_contract self text clauses)) in *.
  assert (G : Forall (fun f => (3 <= score f <= 9)%Z) (self_findings s)).
  { apply Forall_forall. intros f Hf. rewrite Forall_forall in J.
    destruct (ProvenanceFacts.justified_graded _ _ _ (J f Hf)) as [_ B]. exact B. }
  assert (L : List.length (findings (_calculate_overall_score s))
              = List.length (self_findings s)).
  { symmetry. apply Permutation_length. apply report_findings_perm. }
  assert (D : self_findings s = [] \/ self_findings s <> []).
  { destruct (self_findings s); [left; reflexivity | right; discriminate]. }
  split; [rewrite L; apply RangeFacts.report_counts |].
  destruct D as [Hnil | Hne].
  - destruct (ReportFacts.report_without_findings s Hnil) as (Hs & Hl & Hf).
    cbv zeta in Hs, Hl, Hf.
    split; [intros _; split; assumption |].
    split; [intros H; contradiction |].
    rewrite Hs. split; discriminate.
  - destruct (ReportFacts.report_of_findings s Hne) as (Hs & Hl & Hh & Hf).
    cbv zeta in Hs, Hl, Hh, Hf.
    assert (B : 3 <= overall_score (_calculate_overall_score s) <= 10).
    { rewrite Hs. apply RangeFacts.round_1_bounds.
      apply RangeFacts.boosted_by_code_bounds; assumption. }
    split.
    + intros H. rewrite H in L. destruct (self_findings s); [contradiction | discriminate L].
    + split; [intros _; exact B |].
      destruct B as [B1 B2].
      split; [eapply Qle_trans; [| exact B1]; discriminate | exact B2].
Qed.

End RangeProperties.

(** ** When a report has no findings *)

Module BaselineProperties.
Import PyStr RiskAssessor Scoring Supplied QuickScore Invariants Provenance PassFacts.

(** X5: A report is without findings exactly when no catalogue pattern is
    found in the lower-cased text, no supplied clause carries an indicator
    of the weight table, and each of the five protective topics has one of
    its keywords in the lower-cased text. *)
Theorem no_findings_iff
  (self : instance) (text : string) (clauses : option (list Clause)) :
  findings (snd (assess_contract self text clauses)) = []
  <-> (no_pattern_matches text
       /\ (forall clause, In clause (supplied clauses) -> ~ has_weighted_indicator clause)
       /\ all_topics_named text).
Proof.
  rewrite ReportFacts.assess_contract_report.
  split.
  - intros Hnil.
    assert (Hnone : forall f, ~ In f (self_findings (fst (assess_contract self text clauses)))).
    { intros f Hf. apply ProvenanceFacts.report_findings_in in Hf.
      rewrite Hnil in Hf. destruct Hf. }
    destruct (CompletenessFacts.assess_contract_passes self text clauses)
      as (s1 & s2 & E1 & Hext & Efst & E2).
    rewrite Efst in Hnone.
    split; [| split].
    + intros entry pattern He Hp.
      destruct (Re.found Re.I pattern (lower text)) eqn:Ef; [exfalso | reflexivity].
      destruct (Re.finditer Re.I pattern (lower text)) as [| m ms] eqn:Ei.
      * apply SearchFacts.found_iff_finditer in Ei. rewrite Ei in Ef. discriminate.
      * destruct (CompletenessFacts.text_pass_emits (set_findings self []) text
                    entry pattern m He Hp) as (g & Hg & _).
        { rewrite Ei. left. reflexivity. }
        rewrite <- E1 in Hg.
        apply (Hnone g). apply (extends_in s2); [apply missing_pass_extends |].
        apply (extends_in s1); assumption.
    + intros clause Hc (indicator & w & Hi & Hw).
      rewrite CompletenessFacts.clauses_pass_of_supplied in E2.
      pose proof (PerClauseFacts.clauses_loop_emits (supplied clauses) s1
                    clause indicator w Hc Hi Hw) as Hin.
      rewrite <- E2 in Hin. apply in_map_iff in Hin. destruct Hin as (g & _ & Hg).
      apply (Hnone g). apply (extends_in s2); [apply missing_pass_extends | exact Hg].
    + intros entry He.
      destruct (topic_absent (lower text) entry) eqn:Ea; [exfalso | reflexivity].
      apply (Hnone (missing_finding_of entry)).
      rewrite missing_pass_findings. apply in_or_app. right.
      apply in_map. apply filter_In. split; assumption.
  - intros (Hp & Hc & Ht).
    destruct (findings (_calculate_overall_score (fst (assess_contract self text clauses))))
      as [| f t] eqn:E; [reflexivity | exfalso].
    assert (Hf : In f (self_findings (fst (assess_contract self text clauses)))).
    { apply ProvenanceFacts.report_findings_in. rewrite E. left. reflexivity. }
    pose proof (ProvenanceFacts.assess_contract_justified self text clauses) as J.
    rewrite Forall_forall in J. destruct (J f Hf) as [H | [H | H]].
    + destruct H as (e & p & m & He & Hpat & Hm & _).
      pose proof (Hp e p He Hpat) as Hfalse.
      apply SearchFacts.found_iff_finditer in Hfalse. rewrite Hfalse in Hm. destruct Hm.
    + destruct H as (c & i & w & Hin & Hi & Hw & _).
      apply (Hc c Hin). exists i, w. split; assumption.
    + destruct H as (e & He & Ha & _). rewrite (Ht e He) in Ha. discriminate.
Qed.

End BaselineProperties.

(** ** A clause id that comes again *)

Module RepeatedFacts.
Import PyStr RiskAssessor Scoring Supplied Invariants Provenance PassFacts.

(** The per-clause loop leaves the instance as it is when each weighted
    indicator is there under the id of the clause. *)
Lemma clause_loop_idle clause s (l : list string) :
  (forall i w, In i l -> weight_of RISK_WEIGHTS i = Some w ->
     In (clause_id_of clause, label i) (map pair (self_findings s))) ->
  fold_left
    (fun self indicator =>
       match weight_of RISK_WEIGHTS indicator with
       | Some score => add_unless_same_clause self (clause_finding clause indicator score)
       | None => self
       end) l s = s.
Proof.
  induction l as [| i t IH]; intros H; [reflexivity |].
  cbn [fold_left].
  assert (E : match weight_of RISK_WEIGHTS i with
              | Some score => add_unless_same_clause s (clause_finding clause i score)
              | None => s
              end = s).
  { destruct (weight_of RISK_WEIGHTS i) as [w |] eqn:Hw; [| reflexivity].
    unfold add_unless_same_clause.
    assert (Hthere : existsb
              (fun f => String.eqb (clause_id f) (clause_id (clause_finding clause i w))
                        && String.eqb (risk_type f) (risk_type (clause_finding clause i w)))
              (self_findings s) = true).
    { apply same_clause_there. apply (H i w); [left; reflexivity | exact Hw]. }
    rewrite Hthere. reflexivity. }
  rewrite E. apply IH. intros j w Hj. apply H. right. exact Hj.
Qed.

Lemma clause_pass_idle s clause again (l : list Clause) :
  In clause l ->
  clause_id_of again = clause_id_of clause ->
  incl (indicators_of again) (indicators_of clause) ->
  _analyze_clause_risks (fold_left _analyze_clause_risks l s) again
  = fold_left _analyze_clause_risks l s.
Proof.
  intros Hc Hid Hincl. unfold _analyze_clause_risks at 1.
  apply clause_loop_idle. intros i w Hi Hw. rewrite Hid.
  exact (PerClauseFacts.clauses_loop_emits l s clause i w Hc (Hincl i Hi) Hw).
Qed.

End RepeatedFacts.

Module RepeatedProperties.
Import PyStr RiskAssessor Scoring Supplied Samples Invariants Provenance PassFacts.

(** X6: A clause object that comes after one of the same id and brings no
    indicator the earlier one did not have changes nothing, whatever its
    content: the instance and the report are those of the list without
    it. *)
Theorem repeated_clause_id_adds_nothing
  (self : instance) (text : string) (earlier later : list Clause)
  (clause again : Clause) :
  In clause earlier ->
  clause_id_of again = clause_id_of clause ->
  incl (indicators_of again) (indicators_of clause) ->
  assess_contract self text (Some (earlier ++ again :: later)%list)
  = assess_contract self text (Some (earlier ++ later)%list).
Proof.
  intros Hc Hid Hincl.
  assert (E : forall s,
            fold_left _analyze_clause_risks (earlier ++ again :: later)%list s
            = fold_left _analyze_clause_risks (earlier ++ later)%list s).
  { intros s. rewrite !fold_left_app. cbn [fold_left].
    rewrite (RepeatedFacts.clause_pass_idle s clause again earlier Hc Hid Hincl).
    reflexivity. }
  unfold assess_contract. cbv zeta.
  destruct earlier as [| c more]; [destruct Hc |].
  cbn [app] in *. rewrite E. reflexivity.
Qed.

(** A run of [repeated_clause_id_adds_nothing]: [first_again] after
    [nine_clauses]. *)
Lemma first_again_adds_nothing :
  assess_contract __init__ all_topics (Some (nine_clauses ++ first_again :: [])%list)
  = assess_contract __init__ all_topics (Some (nine_clauses ++ [])%list).
Proof.
  apply (repeated_clause_id_adds_nothing __init__ all_topics nine_clauses []
           (flagged "1" ["unlimited_liability"; "auto_renewal_hidden"; "vague_termination"])
           first_again).
  - left. reflexivity.
  - reflexivity.
  - intros i Hi. simpl in Hi. destruct Hi as [<- | []]. simpl. tauto.
Defined.

End RepeatedProperties.
(** ** The missing-protection findings *)

Module MissingFacts.
Import PyStr RiskAssessor Scoring Supplied Invariants Provenance PassFacts.

Lemma weight_of_listed (table : list (string * Z)) name w :
  weight_of table name = Some w -> In name (map fst table).
Proof.
  induction table as [| [k v] t IH]; intros H; simpl in H; [discriminate |].
  destruct (String.eqb k name) eqn:E.
  - apply String.eqb_eq in E. left. exact E.
  - right. apply IH. exact H.
Qed.

(** No finding of a supplied clause has the description of a
    missing-protection finding. *)
Lemma clause_descriptions_apart :
  forallb
    (fun indicator =>
       forallb
         (fun entry : string * CheckInfo =>
            negb (String.eqb
                    (match info_of RISK_PATTERNS indicator with
                     | Some i => info_description i
                     | None => indicator
                     end)
                    (check_description (snd entry))))
         missing_checks)
    (map fst RISK_WEIGHTS) = true.
Proof. vm_compute. reflexivity. Qed.

Lemma clause_finding_not_missing clause indicator w entry :
  weight_of RISK_WEIGHTS indicator = Some w ->
  In entry missing_checks ->
  clause_finding clause indicator w <> missing_finding_of entry.
Proof.
  intros Hw He Heq.
  apply weight_of_listed in Hw.
  pose proof clause_descriptions_apart as A.
  rewrite forallb_forall in A. specialize (A indicator Hw).
  rewrite forallb_forall in A. specialize (A entry He).
  apply negb_true_iff in A. apply String.eqb_neq in A. apply A.
  change (description (clause_finding clause indicator w)
          = description (missing_finding_of entry)).
  rewrite Heq. reflexivity.
Qed.

Lemma missing_findings_apart entry entry' :
  In entry missing_checks -> In entry' missing_checks ->
  missing_finding_of entry = missing_finding_of entry' -> entry = entry'.
Proof.
  apply (CompletenessFacts.same_image missing_finding_of).
  apply (NoDup_map_inv triple). exact missing_findings_distinct.
Qed.

End MissingFacts.

Module MissingProperties.
Import PyStr RiskAssessor Scoring Supplied Invariants Provenance PassFacts.

(** X7: For each of the five protective topics the report has the topic's
    missing-protection finding exactly when none of the keywords of the
    topic is in the lower-cased text, whatever clauses are supplied; the
    finding is scoped to ["missing"], names the topic after ["Missing "],
    and carries the weight of the topic (5, 4, 4, 3 or 3). *)
Theorem missing_topics_are_reported
  (self : instance) (text : string) (clauses : option (list Clause)) :
  Forall
    (fun entry : string * CheckInfo =>
       (In (missing_finding_of entry) (findings (snd (assess_contract self text clauses)))
        <-> existsb (fun keyword => contains keyword (lower text)) (check (snd entry))
            = false)
       /\ clause_id (missing_finding_of entry) = "missing"
       /\ risk_type (missing_finding_of entry) = "Missing " ++ label (fst entry)
       /\ score (missing_finding_of entry) = check_score (snd entry))
    missing_checks.
Proof.
  apply Forall_forall. intros entry He.
  split; [| split; [| split]; reflexivity].
  rewrite ReportFacts.assess_contract_report.
  rewrite ProvenanceFacts.report_findings_in.
  assert (Ha : topic_absent (lower text) entry = true
               <-> existsb (fun keyword => contains keyword (lower text))
                     (check (snd entry)) = false).
  { unfold topic_absent. apply negb_true_iff. }
  rewrite <- Ha. split.
  - intros Hin.
    pose proof (ProvenanceFacts.assess_contract_justified self text clauses) as J.
    rewrite Forall_forall in J. destruct (J _ Hin) as [H | [H | H]].
    + destruct H as (e & p & m & _ & _ & _ & E).
      apply (f_equal clause_id) in E. discriminate E.
    + destruct H as (c & i & w & _ & _ & Hw & E).
      symmetry in E. exfalso.
      exact (MissingFacts.clause_finding_not_missing c i w entry Hw He E).
    + destruct H as (e & He' & Hab & E).
      apply MissingFacts.missing_findings_apart in E; try assumption.
      subst e. exact Hab.
  - intros Hab.
    destruct (CompletenessFacts.assess_contract_passes self text clauses)
      as (s1 & s2 & _ & _ & Efst & _).
    rewrite Efst. rewrite missing_pass_findings. apply in_or_app. right.
    apply in_map. apply filter_In. split; assumption.
Qed.

End MissingProperties.

(** ** The quick score and the document-wide pass *)

Module QuickAgreementFacts.
Import PyStr RiskAssessor Scoring Supplied QuickScore Invariants Provenance PassFacts.

Lemma in_matched content entry :
  In entry RISK_PATTERNS ->
  (In (fst entry) (matched content)
   <-> exists pattern, In pattern (patterns (snd entry))
                       /\ Re.found Re.I pattern (lower content) = true).
Proof.
  intros He. unfold matched. rewrite in_map_iff. split.
  - intros (e & Efst & Hin). apply filter_In in Hin. destruct Hin as [Hin Hex].
    assert (e = entry).
    { apply CompletenessFacts.same_label; try assumption. rewrite Efst. reflexivity. }
    subst e. apply existsb_exists in Hex. exact Hex.
  - intros Hex. exists entry. split; [reflexivity |].
    apply filter_In. split; [exact He |]. apply existsb_exists. exact Hex.
Qed.

Lemma quick_flags self content :
  snd (get_clause_risk_score self content) = matched content.
Proof.
  rewrite QuickScoreFacts.get_clause_risk_score_matched.
  destruct (matched content) as [| t ts]; reflexivity.
Qed.

(** The findings of a text alone that are scoped to ["general"] are those
    of its matches. *)
Lemma general_from_text self text f :
  In f (findings (snd (assess_contract self text None))) ->
  clause_id f = "general" ->
  from_text text f.
Proof.
  intros Hin Hid.
  rewrite ReportFacts.assess_contract_report in Hin.
  apply ProvenanceFacts.report_findings_in in Hin.
  pose proof (ProvenanceFacts.assess_contract_justified self text None) as J.
  rewrite Forall_forall in J. destruct (J f Hin) as [H | [H | H]]; [exact H | |].
  - destruct H as (c & _ & _ & [] & _).
  - destruct H as (e & _ & _ & E). rewrite E in Hid. discriminate Hid.
Qed.

Lemma found_of_match pattern text m :
  In m (Re.finditer Re.I pattern text) -> Re.found Re.I pattern text = true.
Proof.
  intros Hm. destruct (Re.found Re.I pattern text) eqn:E; [reflexivity |].
  apply SearchFacts.found_iff_finditer in E. rewrite E in Hm. destruct Hm.
Qed.

Lemma match_of_found pattern text :
  Re.found Re.I pattern text = true -> exists m, In m (Re.finditer Re.I pattern text).
Proof.
  intros Hf. destruct (Re.finditer Re.I pattern text) as [| m ms] eqn:E.
  - apply SearchFacts.found_iff_finditer in E. rewrite E in Hf. discriminate.
  - exists m. left. reflexivity.
Qed.

End QuickAgreementFacts.

Module QuickAgreementProperties.
Import PyStr RiskAssessor Scoring Supplied QuickScore Invariants Provenance PassFacts.
Local Open Scope Q_scope.

(** X8: The quick score of a text agrees with an assessment of the same text
    alone: a risk type of the catalogue is among the flags exactly when
    the report has a finding of that type scoped to ["general"], no such
    finding scores more than the quick score, and when there is one the
    quick score is the score of one of them. *)
Theorem quick_score_agrees_with_assessment
  (self self' : instance) (content : string) :
  let quick := fst (fst (get_clause_risk_score self content)) in
  let flags := snd (get_clause_risk_score self content) in
  let report := snd (assess_contract self' content None) in
  Forall
    (fun entry : string * RiskInfo =>
       In (fst entry) flags
       <-> exists f, In f (findings report)
                     /\ clause_id f = "general" /\ risk_type f = label (fst entry))
    RISK_PATTERNS
  /\ (forall f, In f (findings report) -> clause_id f = "general" ->
        inject_Z (score f) <= quick)
  /\ (flags <> [] ->
      exists f, In f (findings report) /\ clause_id f = "general"
                /\ quick = inject_Z (score f)).
Proof.
  cbv zeta. rewrite QuickAgreementFacts.quick_flags.
  split; [| split].
  - apply Forall_forall. intros entry He.
    rewrite (QuickAgreementFacts.in_matched content entry He). split.
    + intros (pattern & Hp & Hf).
      destruct (QuickAgreementFacts.match_of_found _ _ Hf) as (m & Hm).
      destruct (CompletenessFacts.match_reported self' content None entry pattern m
                  He Hp Hm) as (f & Hin & Hid & Hty & _).
      exists f. repeat split; assumption.
    + intros (f & Hin & Hid & Hty).
      destruct (QuickAgreementFacts.general_from_text self' content f Hin Hid)
        as (e & p & m & He' & Hp & Hm & E).
      assert (e = entry).
      { apply CompletenessFacts.same_label; try assumption.
        rewrite <- Hty. rewrite E. reflexivity. }
      subst e. exists p. split; [exact Hp |].
      exact (QuickAgreementFacts.found_of_match _ _ _ Hm).
  - intros f Hin Hid.
    destruct (QuickAgreementFacts.general_from_text self' content f Hin Hid)
      as (e & p & m & He & Hp & Hm & E).
    assert (Hmatched : In (fst e) (matched content)).
    { apply (QuickAgreementFacts.in_matched content e He).
      exists p. split; [exact Hp | exact (QuickAgreementFacts.found_of_match _ _ _ Hm)]. }
    rewrite QuickScoreFacts.get_clause_risk_score_matched.
    assert (Hw : In (score f) (map weight_or_5 (matched content))).
    { rewrite E. exact (in_map weight_or_5 _ _ Hmatched). }
    destruct (map weight_or_5 (matched content)) as [| w more] eqn:Ew; [destruct Hw |].
    cbn [fst]. rewrite <- Zle_Qle.
    destruct (QuickScoreFacts.max_of_greatest w more) as [_ Hall].
    rewrite Forall_forall in Hall. exact (Hall _ Hw).
  - intros Hne.
    rewrite QuickScoreFacts.get_clause_risk_score_matched.
    destruct (map weight_or_5 (matched content)) as [| w more] eqn:Ew.
    { destruct (matched content); [contradiction | discriminate Ew]. }
    cbn [fst].
    destruct (QuickScoreFacts.max_of_greatest w more) as [Hin _].
    rewrite <- Ew in Hin. apply in_map_iff in Hin. destruct Hin as (tag & Etag & Htag).
    unfold matched in Htag. apply in_map_iff in Htag.
    destruct Htag as (entry & Efst & Hfil). apply filter_In in Hfil.
    destruct Hfil as [He Hex]. apply existsb_exists in Hex.
    destruct Hex as (pattern & Hp & Hf).
    destruct (QuickAgreementFacts.match_of_found _ _ Hf) as (m & Hm).
    destruct (CompletenessFacts.match_reported self' content None entry pattern m
                He Hp Hm) as (f & Hin & Hid & _ & Hsc & _).
    exists f. split; [exact Hin |]. split; [exact Hid |].
    rewrite Hsc. rewrite Efst. rewrite Etag. reflexivity.
Qed.

End QuickAgreementProperties.
(** ** Phrases that are always reported *)

Module TriggerFacts.
Import PyStr RiskAssessor Scoring Supplied Triggers Invariants Provenance PassFacts.















End TriggerFacts.

Module TriggerProperties.
Import PyStr RiskAssessor Scoring Supplied Samples Triggers Invariants Provenance PassFacts.



End TriggerProperties.

(** ** The classifier: what scores, what wins, what is shown *)

Module ClassifiedFacts.
Import PyStr ContractClassifier Confidence Classified.

Lemma prefix_empty (hay : string) : prefix "" hay = true.
Proof. destruct hay; reflexivity. Qed.

Lemma count_from_zero (needle hay : string) :
  needle <> "" -> (count_from needle hay 0 = 0 <-> contains needle hay = false).
Proof.
  intros Hne. induction hay as [| c t IH].
  - cbn [count_from contains]. destruct needle; [contradiction | simpl; tauto].
  - cbn [count_from contains]. destruct (prefix needle (String c t)).
    + split; intros H; discriminate H.
    + cbn [orb]. exact IH.
Qed.

(** [hay.count(needle) > 0] says what [needle in hay] says. *)
Lemma count_positive (hay needle : string) :
  (0 <? count hay needle) = contains needle hay.
Proof.
  destruct needle as [| c t].
  - cbn [count]. destruct hay; reflexivity.
  - cbn [count].
    pose proof (count_from_zero (String c t) hay) as H.
    destruct (contains (String c t) hay).
    + apply Nat.ltb_lt. destruct (count_from (String c t) hay 0); [| lia].
      assert (true = false) by (apply H; [discriminate | reflexivity]). discriminate.
    + apply Nat.ltb_ge. assert (E : count_from (String c t) hay 0 = 0).
      { apply H; [discriminate | reflexivity]. }
      rewrite E. lia.
Qed.

Lemma keyword_points_range text_lower keyword :
  (0 <= keyword_points text_lower keyword <= 5)%Z
  /\ ((0 <? keyword_points text_lower keyword)%Z = occurs text_lower keyword)
  /\ (occurs text_lower keyword = true -> (1 <= keyword_points text_lower keyword)%Z).
Proof.
  unfold keyword_points, occurs. rewrite <- count_positive.
  destruct (0 <? count text_lower (lower keyword)) eqn:E.
  - apply Nat.ltb_lt in E. split; [lia |]. split; [apply Z.ltb_lt; lia | intros _; lia].
  - apply Nat.ltb_ge in E. split; [lia |]. split; [apply Z.ltb_ge; lia | discriminate].
Qed.

Lemma score_keywords_snd text_lower keywords acc :
  snd (score_keywords text_lower keywords acc)
  = (snd acc ++ filter (occurs text_lower) keywords)%list.
Proof.
  unfold score_keywords. revert acc.
  induction keywords as [| k t IH]; intros acc; cbn [fold_left filter].
  - rewrite app_nil_r. reflexivity.
  - rewrite IH. unfold occurs at 2. rewrite <- count_positive.
    destruct (0 <? count text_lower (lower k)); cbn [snd].
    + rewrite <- app_assoc. reflexivity.
    + reflexivity.
Qed.

Lemma score_patterns_snd text_lower patterns acc :
  snd (score_patterns text_lower patterns acc)
  = (snd acc
     ++ map shown_pattern (filter (fun pattern => Re.found Re.I pattern text_lower) patterns))%list.
Proof.
  unfold score_patterns. revert acc.
  induction patterns as [| p t IH]; intros acc; cbn [fold_left filter map].
  - rewrite app_nil_r. reflexivity.
  - rewrite IH. destruct (Re.found Re.I p text_lower); cbn [snd map].
    + rewrite <- app_assoc. reflexivity.
    + reflexivity.
Qed.

Lemma sum_Z_nonneg (l : list Z) :
  Forall (fun z => (0 <= z)%Z) l -> (0 <= sum_Z l)%Z.
Proof.
  induction 1 as [| z t Hz Ht IH]; [simpl; lia |].
  rewrite ClassifierFacts.sum_Z_cons. lia.
Qed.

Lemma sum_Z_positive {A : Type} (points : A -> Z) (on : A -> bool) (l : list A) :
  (forall a, (0 <= points a)%Z /\ (0 <? points a)%Z = on a) ->
  (0 <= sum_Z (map points l))%Z
  /\ (0 <? sum_Z (map points l))%Z = existsb on l.
Proof.
  intros H. induction l as [| a t [IH0 IH]]; [split; [simpl; lia | reflexivity] |].
  cbn [map existsb]. rewrite ClassifierFacts.sum_Z_cons.
  destruct (H a) as [Ha0 Ha]. rewrite <- Ha, <- IH.
  split; [lia |].
  destruct (0 <? points a)%Z eqn:E1; destruct (0 <? sum_Z (map points t))%Z eqn:E2;
    cbn [orb];
    try apply Z.ltb_lt; try apply Z.ltb_ge;
    try apply Z.ltb_lt in E1; try apply Z.ltb_ge in E1;
    try apply Z.ltb_lt in E2; try apply Z.ltb_ge in E2; lia.
Qed.

Lemma pattern_points_range text_lower pattern :
  (0 <= pattern_points text_lower pattern)%Z
  /\ (0 <? pattern_points text_lower pattern)%Z = Re.found Re.I pattern text_lower.
Proof.
  unfold pattern_points. destruct (Re.found Re.I pattern text_lower); split; reflexivity || lia.
Qed.

(** A profile scores exactly when something of it is in the text. *)
Lemma type_score_hits text_lower type_info :
  (0 <= type_score text_lower type_info)%Z
  /\ (0 <? type_score text_lower type_info)%Z = hits text_lower type_info.
Proof.
  unfold type_score, hits.
  destruct (sum_Z_positive (keyword_points text_lower) (occurs text_lower)
              (keywords type_info)) as [K0 K].
  { intros k. destruct (keyword_points_range text_lower k) as (B & E & _).
    split; [lia | exact E]. }
  destruct (sum_Z_positive (pattern_points text_lower)
              (fun pattern => Re.found Re.I pattern text_lower)
              (patterns type_info)) as [P0 P].
  { intros p. apply pattern_points_range. }
  rewrite <- K, <- P. split; [lia |].
  destruct (0 <? sum_Z (map (keyword_points text_lower) (keywords type_info)))%Z eqn:E1;
    destruct (0 <? sum_Z (map (pattern_points text_lower) (patterns type_info)))%Z eqn:E2;
    cbn [orb];
    try apply Z.ltb_lt; try apply Z.ltb_ge;
    try apply Z.ltb_lt in E1; try apply Z.ltb_ge in E1;
    try apply Z.ltb_lt in E2; try apply Z.ltb_ge in E2; lia.
Qed.

Lemma score_type_scored text_lower (entry : string * TypeInfo) :
  score_type text_lower entry
  = if hits text_lower (snd entry) then [scored text_lower entry] else [].
Proof.
  unfold score_type. cbv zeta.
  rewrite ClassifierFacts.score_patterns_fst, ClassifierFacts.score_keywords_fst.
  rewrite score_patterns_snd, score_keywords_snd. cbn [fst snd app].
  change (0 + sum_Z (map (keyword_points text_lower) (keywords (snd entry)))
          + sum_Z (map (pattern_points text_lower) (patterns (snd entry))))%Z
    with (type_score text_lower (snd entry)).
  destruct (type_score_hits text_lower (snd entry)) as [_ E]. rewrite E.
  reflexivity.
Qed.

Lemma flat_map_if {A B : Type} (keep : A -> bool) (image : A -> B) (l : list A) :
  flat_map (fun a => if keep a then [image a] else []) l = map image (filter keep l).
Proof.
  induction l as [| a t IH]; [reflexivity |].
  cbn [flat_map filter]. destruct (keep a); cbn [map app]; rewrite IH; reflexivity.
Qed.

(** The scores in closed form: the profiles that hit, in the order of the
    catalogue. *)
Lemma scores_of_scored text_lower :
  scores_of text_lower
  = map (scored text_lower)
        (filter (fun entry => hits text_lower (snd entry)) CONTRACT_PATTERNS).
Proof.
  unfold scores_of. rewrite <- flat_map_if.
  apply flat_map_ext. intros entry. apply score_type_scored.
Qed.

(** The greatest element is the first of the greatest ones. *)
Lemma max_from_first {A : Type} (key : A -> Z) (l : list A) : forall x,
  exists l1 l2,
    x :: l = (l1 ++ PyList.max_from key x l :: l2)%list
    /\ Forall (fun y => (key y < key (PyList.max_from key x l))%Z) l1
    /\ Forall (fun y => (key y <= key (PyList.max_from key x l))%Z) l2.
Proof.
  induction l as [| y t IH]; intros x.
  - exists [], []. repeat split; constructor.
  - cbn [PyList.max_from]. destruct (key x <? key y)%Z eqn:E.
    + apply Z.ltb_lt in E. destruct (IH y) as (l1 & l2 & Es & H1 & H2).
      exists (x :: l1), l2. split; [cbn [app]; rewrite <- Es; reflexivity |].
      split; [| exact H2]. constructor; [| exact H1].
      destruct (ClassifierFacts.max_from_greatest key y t) as [_ G].
      inversion G; subst. lia.
    + apply Z.ltb_ge in E. destruct (IH x) as (l1 & l2 & Es & H1 & H2).
      destruct l1 as [| x' l1'].
      * cbn [app] in Es. injection Es as Ex Et.
        exists [], (y :: t). split; [cbn [app]; f_equal; exact Ex |].
        split; [constructor |].
        constructor; [rewrite <- Ex; exact E |].
        rewrite <- Et in H2. exact H2.
      * cbn [app] in Es. injection Es as Ex Et. subst x'.
        exists (x :: y :: l1'), l2. split; [cbn [app]; rewrite <- Et; reflexivity |].
        split; [| exact H2].
        inversion H1 as [| ? ? Hx H1']; subst.
        constructor; [exact Hx |]. constructor; [lia | exact H1'].
Qed.

Lemma map_filter_split {A B : Type} (keep : A -> bool) (image : A -> B) (l : list A) :
  forall l1 b l2,
    map image (filter keep l) = (l1 ++ b :: l2)%list ->
    exists before a after,
      l = (before ++ a :: after)%list
      /\ keep a = true /\ image a = b
      /\ map image (filter keep before) = l1
      /\ map image (filter keep after) = l2.
Proof.
  induction l as [| x t IH]; intros l1 b l2 E.
  - destruct l1; discriminate E.
  - cbn [filter] in E. destruct (keep x) eqn:Ex.
    + cbn [map] in E. destruct l1 as [| c l1'].
      * cbn [app] in E. inversion E as [[Eb Et]].
        exists [], x, t. cbn [filter map app]. repeat split; assumption || reflexivity.
      * cbn [app] in E. inversion E as [[Ec Et]].
        destruct (IH l1' b l2 Et) as (before & a & after & El & Ha & Ea & E1 & E2).
        exists (x :: before), a, after. cbn [filter map app]. rewrite Ex. cbn [map].
        rewrite El, E1. repeat split; assumption || reflexivity.
    + destruct (IH l1 b l2 E) as (before & a & after & El & Ha & Ea & E1 & E2).
      exists (x :: before), a, after. cbn [filter map app]. rewrite Ex.
      rewrite El. repeat split; assumption || reflexivity.
Qed.

(** The fields of a result, from the best entry of the scores. *)
Lemma classify_fields (self : instance) (text : string) :
  match PyList.max_by (fun e : score_entry => fst (snd e)) (scores_of (lower text)) with
  | None => snd (classify self text) = mkClassificationResult "Unknown" 0 "" []
  | Some best =>
      contract_type (snd (classify self text)) = fst best
      /\ sub_type (snd (classify self text)) = _determine_sub_type (lower text) (fst best)
      /\ key_indicators (snd (classify self text)) = snd (snd best)
  end.
Proof.
  unfold classify. cbv zeta.
  destruct (PyList.max_by _ (scores_of (lower text))); cbn [snd]; [| reflexivity].
  repeat split.
Qed.

(** The profile a classification rests on. *)
Lemma classify_winner (self : instance) (text : string) :
  (snd (classify self text) = mkClassificationResult "Unknown" 0 "" []
   /\ nothing_hits text)
  \/ exists before entry after,
       CONTRACT_PATTERNS = (before ++ entry :: after)%list
       /\ hits (lower text) (snd entry) = true
       /\ contract_type (snd (classify self text)) = fst entry
       /\ sub_type (snd (classify self text))
          = _determine_sub_type (lower text) (fst entry)
       /\ key_indicators (snd (classify self text))
          = firstn 10 (indicators (lower text) (snd entry))
       /\ Forall (fun e => (type_score (lower text) (snd e)
                            < type_score (lower text) (snd entry))%Z) before
       /\ Forall (fun e => (type_score (lower text) (snd e)
                            <= type_score (lower text) (snd entry))%Z) after.
Proof.
  pose proof (classify_fields self text) as F.
  rewrite scores_of_scored in F.
  set (hit := fun entry : string * TypeInfo => hits (lower text) (snd entry)) in *.
  destruct (map (scored (lower text)) (filter hit CONTRACT_PATTERNS))
    as [| x l] eqn:E.
  - left. cbn [PyList.max_by] in F. split; [exact F |].
    intros entry He. destruct (hit entry) eqn:Eh; [| exact Eh].
    assert (Hin : In (scored (lower text) entry)
                     (map (scored (lower text)) (filter hit CONTRACT_PATTERNS))).
    { apply in_map. apply filter_In. split; assumption. }
    rewrite E in Hin. destruct Hin.
  - right. cbn [PyList.max_by] in F. destruct F as (Ft & Fs & Fk).
    destruct (max_from_first (fun e : score_entry => fst (snd e)) l x)
      as (l1 & l2 & Es & H1 & H2).
    rewrite <- E in Es.
    destruct (map_filter_split hit (scored (lower text)) CONTRACT_PATTERNS _ _ _ Es)
      as (before & entry & after & Ecp & Hhit & Eimg & E1 & E2).
    exists before, entry, after.
    rewrite <- Eimg in Ft, Fs, Fk, H1, H2. cbn [scored fst snd] in Ft, Fs, Fk, H1, H2.
    split; [exact Ecp |]. split; [exact Hhit |]. split; [exact Ft |].
    split; [exact Fs |]. split; [exact Fk |].
    assert (Hpos : (0 < type_score (lower text) (snd entry))%Z).
    { destruct (type_score_hits (lower text) (snd entry)) as [_ Eh].
      apply Z.ltb_lt. rewrite Eh. exact Hhit. }
    assert (Side : forall part others (R : Z -> Z -> Prop),
              map (scored (lower text)) (filter hit part) = others ->
              Forall (fun y : score_entry =>
                        R (fst (snd y)) (type_score (lower text) (snd entry))) others ->
              (forall z, (z <= 0)%Z -> R z (type_score (lower text) (snd entry))) ->
              Forall (fun e => R (type_score (lower text) (snd e))
                                 (type_score (lower text) (snd entry))) part).
    { intros part others R Ep Ho Hz. apply Forall_forall. intros e He.
      destruct (hit e) eqn:Eh.
      - rewrite Forall_forall in Ho.
        apply (Ho (scored (lower text) e)). rewrite <- Ep.
        apply in_map. apply filter_In. split; assumption.
      - apply Hz. destruct (type_score_hits (lower text) (snd e)) as [_ Eh'].
        unfold hit in Eh. rewrite Eh in Eh'. apply Z.ltb_ge in Eh'. exact Eh'. }
    split.
    + apply (Side before l1 Z.lt E1 H1). intros z Hz. lia.
    + apply (Side after l2 Z.le E2 H2). intros z Hz. lia.
Qed.

Lemma first_contained_in sub_types text_lower sub_type :
  first_contained sub_types text_lower = Some sub_type -> In sub_type sub_types.
Proof.
  induction sub_types as [| s t IH]; intros H; simpl in H; [discriminate |].
  destruct (contains (lower s) text_lower).
  - inversion H. left. reflexivity.
  - right. apply IH. exact H.
Qed.

(** The sub-type of a profile is one of those the profile lists. *)
Lemma sub_type_listed text_lower :
  Forall (fun entry : string * TypeInfo =>
            In (_determine_sub_type text_lower (fst entry)) (sub_types (snd entry)))
         CONTRACT_PATTERNS.
Proof.
  assert (G : Forall (fun entry => get CONTRACT_PATTERNS (fst entry) = Some (snd entry))
                     CONTRACT_PATTERNS) by exact ClassifierFacts.get_own_profile.
  apply Forall_forall. intros entry He.
  rewrite Forall_forall in G. specialize (G entry He).
  unfold _determine_sub_type. rewrite G.
  destruct (first_contained (sub_types (snd entry)) text_lower) as [s |] eqn:E.
  - exact (first_contained_in _ _ _ E).
  - clear E G.
    generalize (contains "probation" text_lower), (contains "fixed term" text_lower),
      (contains "fixed-term" text_lower), (contains "executive" text_lower),
      (contains "managing director" text_lower), (contains "residential" text_lower),
      (contains "house" text_lower), (contains "apartment" text_lower),
      (contains "commercial" text_lower), (contains "office" text_lower),
      (contains "shop" text_lower), (contains "leave and license" text_lower),
      (contains "mutual" text_lower).
    intros b1 b2 b3 b4 b5 b6 b7 b8 b9 b10 b11 b12 b13.
    unfold CONTRACT_PATTERNS in He. cbn [In] in He.
    repeat (destruct He as [He | He];
            [subst entry; vm_compute;
             repeat match goal with
                    | |- context [if ?b then _ else _] => destruct b
                    end;
             tauto |]).
    destruct He.
Qed.

End ClassifiedFacts.
Module AllScoresFacts.
Import PyStr ContractClassifier Confidence Classified.

Lemma count_loop {A : Type} (on : A -> bool) (step : Z) (l : list A) : forall score,
  fold_left (fun score a => if on a then (score + step)%Z else score) l score
  = (score + step * Z.of_nat (List.length (filter on l)))%Z.
Proof.
  induction l as [| a t IH]; intros score; cbn [fold_left filter].
  - simpl. lia.
  - rewrite IH. destruct (on a); [| reflexivity].
    cbn [List.length]. rewrite Nat2Z.inj_succ. lia.
Qed.

Lemma presence_score_presence text_lower type_info :
  presence_score text_lower type_info = presence text_lower type_info.
Proof.
  unfold presence_score, presence. cbv zeta.
  rewrite (count_loop (fun pattern => Re.found Re.I pattern text_lower) 5).
  rewrite (count_loop (fun keyword => contains (lower keyword) text_lower) 1).
  unfold occurs. lia.
Qed.

Lemma weighted_count_below {A : Type} (on : A -> bool) (points : A -> Z) (step : Z)
  (l : list A) :
  (forall a, (0 <= points a)%Z /\ (on a = true -> (step <= points a)%Z)) ->
  (step * Z.of_nat (List.length (filter on l)) <= sum_Z (map points l))%Z.
Proof.
  intros H. induction l as [| a t IH]; [simpl; lia |].
  cbn [filter map]. rewrite ClassifierFacts.sum_Z_cons.
  destruct (H a) as [H0 H1]. destruct (on a).
  - cbn [List.length]. rewrite Nat2Z.inj_succ. specialize (H1 eq_refl). lia.
  - lia.
Qed.

Lemma presence_range text_lower type_info :
  ((0 <? presence text_lower type_info)%Z = hits text_lower type_info)
  /\ (presence text_lower type_info <= type_score text_lower type_info)%Z
  /\ (presence text_lower type_info
      <= Z.of_nat (List.length (keywords type_info))
         + 5 * Z.of_nat (List.length (patterns type_info)))%Z.
Proof.
  unfold presence, hits, type_score.
  set (ks := keywords type_info). set (ps := patterns type_info).
  set (found := fun pattern => Re.found Re.I pattern text_lower).
  split; [| split].
  - assert (K : (0 <? Z.of_nat (List.length (filter (occurs text_lower) ks)))%Z
                = existsb (occurs text_lower) ks).
    { induction ks as [| k t IH]; [reflexivity |].
      cbn [filter existsb]. destruct (occurs text_lower k); [| exact IH].
      cbn [List.length orb]. apply Z.ltb_lt. lia. }
    assert (P : (0 <? Z.of_nat (List.length (filter found ps)))%Z = existsb found ps).
    { induction ps as [| p t IH]; [reflexivity |].
      cbn [filter existsb]. destruct (found p); [| exact IH].
      cbn [List.length orb]. apply Z.ltb_lt. lia. }
    rewrite <- K, <- P.
    destruct (0 <? Z.of_nat (List.length (filter (occurs text_lower) ks)))%Z eqn:E1;
      destruct (0 <? Z.of_nat (List.length (filter found ps)))%Z eqn:E2;
      cbn [orb];
      try apply Z.ltb_lt; try apply Z.ltb_ge;
      try apply Z.ltb_lt in E1; try apply Z.ltb_ge in E1;
      try apply Z.ltb_lt in E2; try apply Z.ltb_ge in E2; lia.
  - pose proof (weighted_count_below (occurs text_lower) (keyword_points text_lower) 1 ks)
      as K.
    pose proof (weighted_count_below found (pattern_points text_lower) 5 ps) as P.
    assert (K' : (1 * Z.of_nat (List.length (filter (occurs text_lower) ks))
                  <= sum_Z (map (keyword_points text_lower) ks))%Z).
    { apply K. intros k.
      destruct (ClassifiedFacts.keyword_points_range text_lower k) as (B & _ & H1).
      split; [lia | exact H1]. }
    assert (P' : (5 * Z.of_nat (List.length (filter found ps))
                  <= sum_Z (map (pattern_points text_lower) ps))%Z).
    { apply P. intros p. unfold pattern_points, found.
      destruct (Re.found Re.I p text_lower); split; try lia; discriminate. }
    lia.
  - pose proof (filter_length_le (occurs text_lower) ks).
    pose proof (filter_length_le found ps). lia.
Qed.

(** The listing in closed form. *)
Lemma get_all_scores_sorted (self : instance) (text : string) :
  get_all_scores self text
  = PyList.sorted (fun x : string * Z => snd x) true
      (map (fun entry : string * TypeInfo => (fst entry, presence (lower text) (snd entry)))
           (filter (fun entry => hits (lower text) (snd entry)) CONTRACT_PATTERNS)).
Proof.
  unfold get_all_scores. cbv zeta. f_equal.
  rewrite <- ClassifiedFacts.flat_map_if. apply flat_map_ext. intros entry.
  rewrite presence_score_presence.
  destruct (presence_range (lower text) (snd entry)) as [E _]. rewrite E. reflexivity.
Qed.

Lemma names_not_unknown entry :
  In entry CONTRACT_PATTERNS -> fst entry <> "Unknown".
Proof.
  intros He. pose proof ClassifierFacts.profiles_bounded as B.
  rewrite Forall_forall in B. exact (proj1 (B entry He)).
Qed.

End AllScoresFacts.

Module ClassifiedProperties.
Import PyStr ContractClassifier Confidence Classified.
Local Open Scope Z_scope.

(** X13: A text is classified as ["Unknown"] exactly when no keyword of any
    profile occurs in its lower-cased form and no pattern of any profile is
    found there; the result is then the one with confidence 0, no sub-type
    and no indicators, and [get_all_scores] lists nothing exactly then. *)
Theorem unknown_iff_nothing_hits (self self' : instance) (text : string) :
  (contract_type (snd (classify self text)) = "Unknown" <-> nothing_hits text)
  /\ (nothing_hits text ->
      snd (classify self text) = mkClassificationResult "Unknown" 0 "" [])
  /\ (get_all_scores self' text = [] <-> nothing_hits text).
Proof.
  assert (Hnone : forall entry, nothing_hits text -> In entry CONTRACT_PATTERNS ->
                    hits (lower text) (snd entry) = true -> False).
  { intros entry Hn He Hh. rewrite (Hn entry He) in Hh. discriminate. }
  assert (Hin : forall before entry after,
            CONTRACT_PATTERNS = (before ++ entry :: after)%list ->
            In entry CONTRACT_PATTERNS).
  { intros before entry after E. rewrite E. apply in_or_app. right. left. reflexivity. }
  split; [| split].
  - destruct (ClassifiedFacts.classify_winner self text)
      as [[Er Hn] | (before & entry & after & Ecp & Hh & Et & _)].
    + rewrite Er. split; [intros _; exact Hn | reflexivity].
    + split.
      * intros Eu. exfalso.
        apply (AllScoresFacts.names_not_unknown entry (Hin _ _ _ Ecp)).
        rewrite <- Et. exact Eu.
      * intros Hn. exfalso. exact (Hnone entry Hn (Hin _ _ _ Ecp) Hh).
  - intros Hn.
    destruct (ClassifiedFacts.classify_winner self text)
      as [[Er _] | (before & entry & after & Ecp & Hh & _)]; [exact Er |].
    exfalso. exact (Hnone entry Hn (Hin _ _ _ Ecp) Hh).
  - rewrite AllScoresFacts.get_all_scores_sorted.
    set (listed := map (fun entry : string * TypeInfo =>
                          (fst entry, presence (lower text) (snd entry)))
                       (filter (fun entry => hits (lower text) (snd entry))
                               CONTRACT_PATTERNS)).
    pose proof (PyListFacts.sorted_perm (fun x : string * Z => snd x) true listed) as P.
    split.
    + intros E entry He. destruct (hits (lower text) (snd entry)) eqn:Eh; [| reflexivity].
      exfalso.
      assert (Hl : In (fst entry, presence (lower text) (snd entry)) listed).
      { unfold listed.
        apply (in_map (fun entry : string * TypeInfo =>
                         (fst entry, presence (lower text) (snd entry)))).
        apply filter_In. split; assumption. }
      rewrite E in P.
      destruct listed; [destruct Hl |].
      apply Permutation_length in P. discriminate P.
    + intros Hn.
      assert (El : listed = []).
      { unfold listed.
        destruct (filter (fun entry => hits (lower text) (snd entry)) CONTRACT_PATTERNS)
          as [| e t] eqn:Ef; [reflexivity | exfalso].
        assert (Hf : In e (filter (fun entry => hits (lower text) (snd entry))
                                  CONTRACT_PATTERNS)) by (rewrite Ef; left; reflexivity).
        apply filter_In in Hf. destruct Hf as [He Hh]. exact (Hnone e Hn He Hh). }
      rewrite El. reflexivity.
Qed.

(** X14: When something hits, the type returned is the first profile of the
    catalogue among those of the greatest score: every profile before it
    scores strictly less, none after it scores more. *)
Theorem ties_go_to_the_first_profile (self : instance) (text : string) :
  contract_type (snd (classify self text)) = "Unknown"
  \/ exists before entry after,
       CONTRACT_PATTERNS = (before ++ entry :: after)%list
       /\ contract_type (snd (classify self text)) = fst entry
       /\ 0 < type_score (lower text) (snd entry)
       /\ Forall (fun e => type_score (lower text) (snd e)
                           < type_score (lower text) (snd entry)) before
       /\ Forall (fun e => type_score (lower text) (snd e)
                           <= type_score (lower text) (snd entry)) after.
Proof.
  destruct (ClassifiedFacts.classify_winner self text)
    as [[Er _] | (before & entry & after & Ecp & Hh & Et & _ & _ & Hb & Ha)].
  - left. rewrite Er. reflexivity.
  - right. exists before, entry, after.
    split; [exact Ecp |]. split; [exact Et |]. split; [| split; assumption].
    destruct (ClassifiedFacts.type_score_hits (lower text) (snd entry)) as [_ E].
    apply Z.ltb_lt. rewrite E. exact Hh.
Qed.

(** X15: The sub-type of a result is one of the sub-types the profile of its
    type lists (none for ["Unknown"]), and it is the first of them whose
    lower-cased name is in the text when there is one. *)
Theorem sub_type_is_of_the_type (self : instance) (text : string) :
  (contract_type (snd (classify self text)) = "Unknown"
   /\ sub_type (snd (classify self text)) = "")
  \/ exists type_info,
       In (contract_type (snd (classify self text)), type_info) CONTRACT_PATTERNS
       /\ In (sub_type (snd (classify self text))) (sub_types type_info)
       /\ forall named,
            first_contained (sub_types type_info) (lower text) = Some named ->
            sub_type (snd (classify self text)) = named.
Proof.
  destruct (ClassifiedFacts.classify_winner self text)
    as [[Er _] | (before & entry & after & Ecp & Hh & Et & Es & _)].
  - left. rewrite Er. split; reflexivity.
  - right. exists (snd entry).
    assert (He : In entry CONTRACT_PATTERNS).
    { rewrite Ecp. apply in_or_app. right. left. reflexivity. }
    rewrite Et, Es. split; [rewrite <- surjective_pairing; exact He |].
    split.
    + pose proof (ClassifiedFacts.sub_type_listed (lower text)) as L.
      rewrite Forall_forall in L. exact (L entry He).
    + intros named Hn. unfold _determine_sub_type.
      pose proof ClassifierFacts.get_own_profile as G.
      rewrite Forall_forall in G. rewrite (G entry He). rewrite Hn. reflexivity.
Qed.

(** X16: The indicators of a result are the keywords of its profile that occur
    in the lower-cased text, in the order of the profile, followed by the
    patterns of the profile that are found, each shown by its first 30
    characters, and of all these the first ten. *)
Theorem key_indicators_shown (self : instance) (text : string) :
  (contract_type (snd (classify self text)) = "Unknown"
   /\ key_indicators (snd (classify self text)) = [])
  \/ exists type_info,
       In (contract_type (snd (classify self text)), type_info) CONTRACT_PATTERNS
       /\ key_indicators (snd (classify self text))
          = firstn 10
              (filter (fun keyword => contains (lower keyword) (lower text))
                      (keywords type_info)
               ++ map (fun pattern => "[pattern: " ++ take 30 pattern ++ "...]")%string
                    (filter (fun pattern => Re.found Re.I pattern (lower text))
                            (patterns type_info)))%list
       /\ key_indicators (snd (classify self text)) <> []
       /\ (List.length (key_indicators (snd (classify self text))) <= 10)%nat.
Proof.
  destruct (ClassifiedFacts.classify_winner self text)
    as [[Er _] | (before & entry & after & Ecp & Hh & Et & _ & Ek & _)].
  - left. rewrite Er. split; reflexivity.
  - right. exists (snd entry).
    assert (He : In entry CONTRACT_PATTERNS).
    { rewrite Ecp. apply in_or_app. right. left. reflexivity. }
    rewrite Et, Ek. split; [rewrite <- surjective_pairing; exact He |].
    split; [reflexivity |]. split; [| apply firstn_le_length].
    unfold indicators. unfold hits in Hh. apply orb_true_iff in Hh.
    destruct Hh as [Hk | Hp].
    + apply existsb_exists in Hk. destruct Hk as (k & Hk & Ho).
      assert (Hin : In k (filter (occurs (lower text)) (keywords (snd entry)))).
      { apply filter_In. split; assumption. }
      destruct (filter (occurs (lower text)) (keywords (snd entry))); [destruct Hin |].
      discriminate.
    + apply existsb_exists in Hp. destruct Hp as (p & Hp & Hf).
      assert (Hin : In p (filter (fun pattern => Re.found Re.I pattern (lower text))
                                 (patterns (snd entry)))).
      { apply filter_In. split; assumption. }
      destruct (filter (occurs (lower text)) (keywords (snd entry))); [| discriminate].
      destruct (filter (fun pattern => Re.found Re.I pattern (lower text))
                       (patterns (snd entry))); [destruct Hin | discriminate].
Qed.

(** X17: [get_all_scores] lists the profiles with something in the text, each
    once with one point for every keyword that occurs and five for every
    pattern found, the greater scores first; such a score is positive and
    never above the score [classify] gives the profile. *)
Theorem all_scores_listing (self : instance) (text : string) :
  StronglySorted (fun a b : string * Z => snd b <= snd a) (get_all_scores self text)
  /\ (forall name score,
        In (name, score) (get_all_scores self text)
        <-> exists type_info,
              In (name, type_info) CONTRACT_PATTERNS
              /\ hits (lower text) type_info = true
              /\ score = presence (lower text) type_info)
  /\ NoDup (map fst (get_all_scores self text))
  /\ Forall (fun entry : string * TypeInfo =>
               hits (lower text) (snd entry) = true ->
               1 <= presence (lower text) (snd entry)
                 <= type_score (lower text) (snd entry))
            CONTRACT_PATTERNS.
Proof.
  rewrite AllScoresFacts.get_all_scores_sorted.
  set (image := fun entry : string * TypeInfo =>
                  (fst entry, presence (lower text) (snd entry))).
  set (hit := fun entry : string * TypeInfo => hits (lower text) (snd entry)).
  pose proof (PyListFacts.sorted_perm (fun x : string * Z => snd x) true
                (map image (filter hit CONTRACT_PATTERNS))) as P.
  split; [apply PyListFacts.sorted_descending |].
  split; [| split].
  - intros name score. split.
    + intros Hin.
      apply (Permutation_in _ (Permutation_sym P)) in Hin.
      apply in_map_iff in Hin. destruct Hin as (entry & Ei & Hf).
      apply filter_In in Hf. destruct Hf as [He Hh].
      unfold image in Ei. inversion Ei; subst.
      exists (snd entry). split; [rewrite <- surjective_pairing; exact He |].
      split; [exact Hh | reflexivity].
    + intros (type_info & He & Hh & ->).
      apply (Permutation_in _ P).
      apply (in_map image _ (name, type_info)).
      apply filter_In. split; assumption.
  - apply (Permutation_NoDup (Permutation_map fst P)).
    rewrite map_map. cbn [image fst].
    apply (PassFacts.filter_keeps_distinct fst hit).
    assert (E : map fst CONTRACT_PATTERNS
                = ["Employment Agreement"; "Vendor Contract"; "Lease Agreement";
                   "Partnership Deed"; "Service Contract"; "Non-Disclosure Agreement";
                   "Licensing Agreement"; "Sales Agreement"; "Loan Agreement";
                   "Franchise Agreement"]%string) by reflexivity.
    rewrite E.
    repeat (constructor; [simpl; intuition discriminate |]).
    constructor.
  - apply Forall_forall. intros entry He Hh.
    destruct (AllScoresFacts.presence_range (lower text) (snd entry)) as (E & B & _).
    rewrite Hh in E. apply Z.ltb_lt in E. lia.
Qed.

End ClassifiedProperties.
(** ** The clause extractor: the shape of what it returns *)

Module ExtractedFacts.
Import PyStr ClauseExtractor Segmentation Extracted.












Lemma any_found_flagged (patterns : list string) (text : string) :
  any_found patterns text
  = existsb (fun pattern => Re.found Re.I pattern text) patterns.
Proof.
  induction patterns as [| p t IH]; [reflexivity |].
  cbn [any_found existsb]. destruct (Re.found Re.I p text); [reflexivity | exact IH].
Qed.

Lemma tags_distinct : NoDup (map fst HIGH_RISK_PATTERNS).
Proof.
  assert (E : map fst HIGH_RISK_PATTERNS
              = ["unlimited_liability"; "unilateral_termination"; "excessive_penalty";
                 "broad_non_compete"; "ip_assignment"; "auto_renewal";
                 "one_sided_indemnity"]) by reflexivity.
  rewrite E. repeat (constructor; [simpl; intuition discriminate |]). constructor.
Qed.

Lemma tag_loop content_lower (table : list (string * list string)) : forall acc,
  fold_left
    (fun acc (entry : string * list string) =>
       if any_found (snd entry) content_lower then (acc ++ [fst entry])%list else acc)
    table acc
  = (acc ++ map fst (filter (flagged_by content_lower) table))%list.
Proof.
  induction table as [| entry t IH]; intros acc; cbn [fold_left filter].
  - rewrite app_nil_r. reflexivity.
  - rewrite IH. unfold flagged_by at 2. rewrite any_found_flagged.
    destruct (existsb _ (snd entry)); [| reflexivity].
    cbn [map]. rewrite <- app_assoc. reflexivity.
Qed.

(** The indicators as a set: the tags with a pattern found. *)
Lemma risk_indicators_set py content :
  Permutation (_find_risk_indicators py content)
    (map fst (filter (flagged_by (lower content)) HIGH_RISK_PATTERNS)).
Proof.
  unfold _find_risk_indicators. cbv zeta.
  assert (E : fold_left
                (fun acc (entry : string * list string) =>
                   if any_found (snd entry) (lower content)
                   then (acc ++ [fst entry])%list else acc)
                HIGH_RISK_PATTERNS []
              = map fst (filter (flagged_by (lower content)) HIGH_RISK_PATTERNS)).
  { exact (tag_loop (lower content) HIGH_RISK_PATTERNS []). }
  rewrite E.
  eapply Permutation_trans; [apply list_of_set_members |].
  rewrite nodup_fixed_point; [apply Permutation_refl |].
  apply (PassFacts.filter_keeps_distinct fst). exact tags_distinct.
Qed.

Lemma in_risk_indicators py content tag :
  In tag (_find_risk_indicators py content)
  <-> exists patterns,
        In (tag, patterns) HIGH_RISK_PATTERNS
        /\ exists pattern, In pattern patterns
                           /\ Re.found Re.I pattern (lower content) = true.
Proof.
  split.
  - intros Hin.
    apply (Permutation_in _ (risk_indicators_set py content)) in Hin.
    apply in_map_iff in Hin. destruct Hin as (entry & <- & Hf).
    apply filter_In in Hf. destruct Hf as [He Hh].
    exists (snd entry). split; [rewrite <- surjective_pairing; exact He |].
    apply existsb_exists in Hh. exact Hh.
  - intros (patterns & He & Hex).
    apply (Permutation_in _ (Permutation_sym (risk_indicators_set py content))).
    apply (in_map fst _ (tag, patterns)).
    apply filter_In. split; [exact He |].
    apply existsb_exists. exact Hex.
Qed.

Lemma risk_indicators_distinct py content : NoDup (_find_risk_indicators py content).
Proof.
  apply (Permutation_NoDup (Permutation_sym (risk_indicators_set py content))).
  apply (PassFacts.filter_keeps_distinct fst). exact tags_distinct.
Qed.

(** The category, from the first best entry of the catalogue. *)
Lemma category_winner title content :
  let combined_text := lower (title ++ " " ++ content) in
  (_categorize_clause title content = "general"
   /\ forall entry, In entry CLAUSE_CATEGORIES -> keyword_count combined_text entry = 0)
  \/ exists before entry after,
       CLAUSE_CATEGORIES = (before ++ entry :: after)%list
       /\ _categorize_clause title content = fst entry
       /\ 0 < keyword_count combined_text entry
       /\ Forall (fun e => keyword_count combined_text e
                           < keyword_count combined_text entry) before
       /\ Forall (fun e => keyword_count combined_text e
                           <= keyword_count combined_text entry) after.
Proof.
  cbv zeta. unfold _categorize_clause. cbv zeta.
  set (combined_text := lower (title ++ " " ++ content)).
  set (keep := fun entry : string * list string =>
                 0 <? keyword_count combined_text entry).
  set (image := fun entry : string * list string =>
                  (fst entry, keyword_count combined_text entry)).
  assert (E : flat_map
                (fun entry : string * list string =>
                   if 0 <? List.length (filter (fun keyword => contains keyword combined_text)
                                               (snd entry))
                   then [(fst entry,
                          List.length (filter (fun keyword => contains keyword combined_text)
                                              (snd entry)))]
                   else [])
                CLAUSE_CATEGORIES
              = map image (filter keep CLAUSE_CATEGORIES)).
  { rewrite <- ClassifiedFacts.flat_map_if. reflexivity. }
  rewrite E. clear E.
  destruct (map image (filter keep CLAUSE_CATEGORIES)) as [| x l] eqn:El.
  - left. cbn [PyList.max_by]. split; [reflexivity |].
    intros entry He. destruct (keep entry) eqn:Ek.
    + assert (Hin : In (image entry) (map image (filter keep CLAUSE_CATEGORIES))).
      { apply in_map. apply filter_In. split; assumption. }
      rewrite El in Hin. destruct Hin.
    + unfold keep in Ek. apply Nat.ltb_ge in Ek. lia.
  - right. cbn [PyList.max_by].
    destruct (ClassifiedFacts.max_from_first
                (fun cs : string * nat => Z.of_nat (snd cs)) l x)
      as (l1 & l2 & Es & H1 & H2).
    rewrite <- El in Es.
    destruct (ClassifiedFacts.map_filter_split keep image CLAUSE_CATEGORIES _ _ _ Es)
      as (before & entry & after & Ecc & Hk & Eimg & E1 & E2).
    exists before, entry, after.
    rewrite <- Eimg in H1, H2 |- *. cbn [image fst snd] in H1, H2 |- *.
    split; [exact Ecc |]. split; [reflexivity |].
    assert (Hpos : 0 < keyword_count combined_text entry).
    { unfold keep in Hk. apply Nat.ltb_lt in Hk. exact Hk. }
    split; [exact Hpos |].
    split.
    + apply Forall_forall. intros e He. destruct (keep e) eqn:Ek.
      * rewrite Forall_forall in H1.
        assert (Hin : In (image e) l1).
        { rewrite <- E1. apply in_map. apply filter_In. split; assumption. }
        specialize (H1 _ Hin). cbn [image snd] in H1. lia.
      * unfold keep in Ek. apply Nat.ltb_ge in Ek. lia.
    + apply Forall_forall. intros e He. destruct (keep e) eqn:Ek.
      * rewrite Forall_forall in H2.
        assert (Hin : In (image e) l2).
        { rewrite <- E2. apply in_map. apply filter_In. split; assumption. }
        specialize (H2 _ Hin). cbn [image snd] in H2. lia.
      * unfold keep in Ek. apply Nat.ltb_ge in Ek. lia.
Qed.






(** The dictionary of the summary. *)
Lemma summary_get_set summary key n other :
  summary_get (summary_set summary key n) other
  = if String.eqb key other then n else summary_get summary other.
Proof.
  induction summary as [| [k v] t IH].
  - cbn [summary_set summary_get]. reflexivity.
  - cbn [summary_set]. destruct (String.eqb k key) eqn:Ek.
    + apply String.eqb_eq in Ek. subst k. cbn [summary_get].
      destruct (String.eqb key other); reflexivity.
    + cbn [summary_get]. destruct (String.eqb k other) eqn:Eo.
      * apply String.eqb_eq in Eo. subst other. rewrite String.eqb_sym. rewrite Ek.
        reflexivity.
      * exact IH.
Qed.

Lemma summary_set_keys summary key n :
  map fst (summary_set summary key n)
  = if existsb (String.eqb key) (map fst summary)
    then map fst summary
    else (map fst summary ++ [key])%list.
Proof.
  induction summary as [| [k v] t IH]; [reflexivity |].
  cbn [summary_set map fst existsb]. rewrite (String.eqb_sym key k).
  destruct (String.eqb k key) eqn:Ek; cbn [orb map fst].
  - reflexivity.
  - rewrite IH. destruct (existsb (String.eqb key) (map fst t)); reflexivity.
Qed.

Lemma summary_set_sum summary key :
  list_sum (map snd (summary_set summary key (summary_get summary key + 1)))
  = list_sum (map snd summary) + 1.
Proof.
  induction summary as [| [k v] t IH]; [reflexivity |].
  cbn [summary_set summary_get]. destruct (String.eqb k key).
  - change (v + 1 + list_sum (map snd t) = v + list_sum (map snd t) + 1). lia.
  - change (v + list_sum (map snd (summary_set t key (summary_get t key + 1)))
            = v + list_sum (map snd t) + 1).
    rewrite IH. lia.
Qed.

Lemma summary_set_positive summary key n :
  1 <= n -> Forall (fun kv : string * nat => 1 <= snd kv) summary ->
  Forall (fun kv : string * nat => 1 <= snd kv) (summary_set summary key n).
Proof.
  intros Hn. induction 1 as [| [k v] t Hkv Ht IH].
  - constructor; [exact Hn | constructor].
  - cbn [summary_set]. destruct (String.eqb k key).
    + constructor; [exact Hn | exact Ht].
    + constructor; [exact Hkv | exact IH].
Qed.

Lemma summary_loop (cs : list ExtractedClause) : forall summary,
  NoDup (map fst summary) ->
  Forall (fun kv : string * nat => 1 <= snd kv) summary ->
  let result :=
    fold_left
      (fun summary clause =>
         summary_set summary (category clause)
           (summary_get summary (category clause) + 1))
      cs summary in
  (forall name, summary_get result name = summary_get summary name + number_in name cs)
  /\ NoDup (map fst result)
  /\ Forall (fun kv : string * nat => 1 <= snd kv) result
  /\ list_sum (map snd result) = list_sum (map snd summary) + List.length cs
  /\ (forall name, In name (map fst result)
                   <-> In name (map fst summary)
                       \/ exists c, In c cs /\ category c = name).
Proof.
  induction cs as [| c t IH]; intros summary Hnd Hpos; cbv zeta.
  - cbn [fold_left]. split; [intros name; unfold number_in; simpl; lia |].
    split; [exact Hnd |]. split; [exact Hpos |]. split; [simpl; lia |].
    intros name. split; [intros H; left; exact H |].
    intros [H | (c & [] & _)]. exact H.
  - cbn [fold_left].
    set (next := summary_set summary (category c)
                   (summary_get summary (category c) + 1)).
    assert (Hnd' : NoDup (map fst next)).
    { unfold next. rewrite summary_set_keys.
      destruct (existsb (String.eqb (category c)) (map fst summary)) eqn:Ex;
        [exact Hnd |].
      apply PassFacts.NoDup_snoc; [exact Hnd |].
      intros Hin. assert (Ht : existsb (String.eqb (category c)) (map fst summary) = true).
      { apply existsb_exists. exists (category c). split; [exact Hin |].
        apply String.eqb_refl. }
      rewrite Ht in Ex. discriminate. }
    assert (Hpos' : Forall (fun kv : string * nat => 1 <= snd kv) next).
    { unfold next. apply summary_set_positive; [lia | exact Hpos]. }
    destruct (IH next Hnd' Hpos') as (Hget & Hn & Hp & Hsum & Hkeys).
    split; [| split; [exact Hn | split; [exact Hp | split]]].
    + intros name. rewrite Hget. unfold next. rewrite summary_get_set.
      unfold number_in. cbn [filter].
      destruct (String.eqb (category c) name) eqn:En; cbn [List.length].
      * apply String.eqb_eq in En. subst name. lia.
      * lia.
    + rewrite Hsum. unfold next. rewrite summary_set_sum. cbn [List.length]. lia.
    + intros name. rewrite Hkeys. unfold next. rewrite summary_set_keys.
      destruct (existsb (String.eqb (category c)) (map fst summary)) eqn:Ex.
      * apply existsb_exists in Ex. destruct Ex as (k & Hk & Ek).
        apply String.eqb_eq in Ek. subst k. split.
        -- intros [H | (c' & Hc' & E)]; [left; exact H |].
           right. exists c'. split; [right; exact Hc' | exact E].
        -- intros [H | (c' & [-> | Hc'] & E)]; [left; exact H | |].
           ++ left. rewrite <- E. exact Hk.
           ++ right. exists c'. split; assumption.
      * split.
        -- intros [H | (c' & Hc' & E)].
           ++ apply in_app_or in H. destruct H as [H | [<- | []]]; [left; exact H |].
              right. exists c. split; [left; reflexivity | reflexivity].
           ++ right. exists c'. split; [right; exact Hc' | exact E].
        -- intros [H | (c' & [-> | Hc'] & E)].
           ++ left. apply in_or_app. left. exact H.
           ++ left. apply in_or_app. right. left. exact E.
           ++ right. exists c'. split; assumption.
Qed.


End ExtractedFacts.
Module ExtractedProperties.
Import PyStr ClauseExtractor Segmentation Extracted.




(** X22: The category of a clause is ["general"] when no keyword of any
    category is in the lower-cased title and content; otherwise it is the
    first category of the catalogue among those with the most keywords
    there: every category before it has strictly fewer. *)
Theorem category_is_the_first_best (title content : string) :
  let combined_text := lower (title ++ " " ++ content) in
  (_categorize_clause title content = "general"
   /\ forall entry, In entry CLAUSE_CATEGORIES -> keyword_count combined_text entry = 0)
  \/ exists before entry after,
       CLAUSE_CATEGORIES = (before ++ entry :: after)%list
       /\ _categorize_clause title content = fst entry
       /\ 0 < keyword_count combined_text entry
       /\ Forall (fun e => keyword_count combined_text e
                           < keyword_count combined_text entry) before
       /\ Forall (fun e => keyword_count combined_text e
                           <= keyword_count combined_text entry) after.
Proof. exact (ExtractedFacts.category_winner title content). Qed.

(** X23: A tag is among the risk indicators of a content exactly when one of
    its patterns is found in the lower-cased content; no tag comes twice,
    and whatever order the interpreter lists a set in, the indicators are
    the same up to their order. *)
Theorem risk_indicators_membership (py py' : SetOrder) (content : string) :
  (forall tag,
     In tag (_find_risk_indicators py content)
     <-> exists patterns,
           In (tag, patterns) HIGH_RISK_PATTERNS
           /\ exists pattern, In pattern patterns
                              /\ Re.found Re.I pattern (lower content) = true)
  /\ NoDup (_find_risk_indicators py content)
  /\ Permutation (_find_risk_indicators py content) (_find_risk_indicators py' content).
Proof.
  split; [intros tag; apply ExtractedFacts.in_risk_indicators |].
  split; [apply ExtractedFacts.risk_indicators_distinct |].
  eapply Permutation_trans; [apply ExtractedFacts.risk_indicators_set |].
  apply Permutation_sym. apply ExtractedFacts.risk_indicators_set.
Qed.

(** X24: The summary counts the clauses of the instance by category: the count
    of a category is the number of clauses that have it (0 for a category
    that is not a key), the keys are the categories that occur, each once,
    every count is positive and the counts add up to the number of
    clauses. *)
Theorem clause_summary_counts (self : instance) :
  (forall name,
     summary_get (get_clause_summary self) name = number_in name (clauses self))
  /\ NoDup (map fst (get_clause_summary self))
  /\ (forall name,
        In name (map fst (get_clause_summary self))
        <-> exists c, In c (clauses self) /\ category c = name)
  /\ Forall (fun kv : string * nat => 1 <= snd kv) (get_clause_summary self)
  /\ list_sum (map snd (get_clause_summary self)) = List.length (clauses self).
Proof.
  unfold get_clause_summary.
  destruct (ExtractedFacts.summary_loop (clauses self) [] (NoDup_nil _) (Forall_nil _))
    as (Hget & Hnd & Hpos & Hsum & Hkeys).
  split; [intros name; rewrite Hget; reflexivity |].
  split; [exact Hnd |].
  split.
  { intros name. rewrite Hkeys. split; [intros [[] | H]; exact H | intros H; right; exact H]. }
  split; [exact Hpos |]. rewrite Hsum. reflexivity.
Qed.

(** X25: Of the thirteen dimensions five are never filled (obligations,
    liabilities, deliverables, timeline, nda_terms), the jurisdiction and
    the governing law are one value, and the others are bounded: at most
    10 distinct parties, 20 amounts, 5 termination conditions and 5
    mentions of rights of at most 200 characters each, and at most one
    confidentiality section of 1 to 500 characters. *)
Theorem dimensions_shape (py : SetOrder) (self : instance) (text : string) :
  let d := extract_data_dimensions py self text in
  (obligations d = [] /\ liabilities d = [] /\ deliverables d = []
   /\ timeline d = [] /\ nda_terms d = [])
  /\ jurisdiction d = governing_law d
  /\ (List.length (parties d) <= 10 /\ NoDup (parties d))
  /\ List.length (financial_amounts d) <= 20
  /\ (List.length (termination_conditions d) <= 5
      /\ Forall (fun c => String.length c <= 200) (termination_conditions d))
  /\ (List.length (ip_rights d) <= 5
      /\ Forall (fun r => String.length r <= 200) (ip_rights d))
  /\ (List.length (confidentiality_terms d) <= 1
      /\ Forall (fun t => 1 <= String.length t <= 500) (confidentiality_terms d)).
Proof.
  cbv zeta. unfold extract_data_dimensions. cbv zeta.
  cbn [obligations liabilities deliverables timeline nda_terms jurisdiction
       governing_law parties financial_amounts termination_conditions ip_rights
       confidentiality_terms].
  split; [repeat split |]. split; [reflexivity |].
  split.
  { split; [apply firstn_le_length |].
    match goal with
    | |- NoDup (firstn 10 (list_of_set py ?l)) =>
        assert (Hnd : NoDup (list_of_set py l));
        [ apply (Permutation_NoDup (Permutation_sym (list_of_set_members py l)));
          apply NoDup_nodup
        | rewrite <- (firstn_skipn 10 (list_of_set py l)) in Hnd;
          exact (NoDup_app_remove_r _ _ Hnd) ]
    end. }
  split; [apply firstn_le_length |].
  assert (Hcut : forall l : list string,
            List.length (map (fun c => take 200 (strip c)) (firstn 5 l)) <= 5
            /\ Forall (fun c => String.length c <= 200)
                      (map (fun c => take 200 (strip c)) (firstn 5 l))).
  { intros l. split; [rewrite length_map; apply firstn_le_length |].
    apply Forall_forall. intros x Hx. apply in_map_iff in Hx.
    destruct Hx as (y & <- & _). rewrite PyStrFacts.length_take. lia. }
  split.
  { destruct (truthy (_extract_section text ["termination"; "terminate"]));
      [apply Hcut | split; [simpl; lia | constructor]]. }
  split; [apply Hcut |].
  destruct (_extract_section text ["confidential"; "non-disclosure"; "nda"])
    as [[| c t] |]; cbn [truthy].
  - split; [simpl; lia | constructor].
  - split; [simpl; lia |]. constructor; [| constructor].
    rewrite PyStrFacts.length_take. cbn [String.length]. lia.
  - split; [simpl; lia | constructor].
Qed.

End ExtractedProperties.

(** ** The clauses the pipeline hands to the assessor *)

Module PipelineProvenance.
Import PyStr RiskAssessor Scoring Supplied Invariants Provenance Extracted Pipeline.



End PipelineProvenance.

(** ** The range of the quick score *)

Module QuickRangeProperties.
Import PyStr RiskAssessor Scoring QuickScore Invariants.

(** X10: The quick score of a text is the baseline 2 with level LOW and no
    flag, or an integer from 5 to 9 with a level of MEDIUM at least and
    the flags that were found: a flagged text never scores below 5. The
    flags are distinct risk types of the catalogue. *)
Theorem quick_score_range (self : instance) (content : string) :
  (get_clause_risk_score self content = (2%Q, LOW, []))
  \/ exists w,
       (5 <= w <= 9)%Z
       /\ fst (get_clause_risk_score self content)
          = (inject_Z w, _score_to_level (inject_Z w))
       /\ _score_to_level (inject_Z w) <> LOW
       /\ snd (get_clause_risk_score self content) <> []
       /\ NoDup (snd (get_clause_risk_score self content))
       /\ incl (snd (get_clause_risk_score self content)) (map fst RISK_PATTERNS).
Proof.
  rewrite QuickScoreFacts.get_clause_risk_score_matched.
  assert (Hin : forall tag, In tag (matched content) -> In tag (map fst RISK_PATTERNS)).
  { intros tag Ht. unfold matched in Ht. apply in_map_iff in Ht.
    destruct Ht as (e & <- & He). apply filter_In in He. apply in_map. exact (proj1 He). }
  assert (Hw : Forall (fun tag => (5 <= weight_or_5 tag <= 9)%Z) (map fst RISK_PATTERNS)).
  { repeat (constructor; [vm_compute; split; discriminate |]). constructor. }
  assert (Hnd : NoDup (matched content)).
  { unfold matched. apply (PassFacts.filter_keeps_distinct fst).
    apply (NoDup_map_inv label). rewrite map_map.
    exact CompletenessFacts.labels_distinct. }
  destruct (map weight_or_5 (matched content)) as [| w more] eqn:E.
  - left. reflexivity.
  - right. exists (max_of w more).
    destruct (QuickScoreFacts.max_of_greatest w more) as [Hmax _].
    rewrite <- E in Hmax. apply in_map_iff in Hmax. destruct Hmax as (tag & Et & Ht).
    rewrite Forall_forall in Hw. pose proof (Hw tag (Hin tag Ht)) as B. rewrite Et in B.
    cbn [fst snd].
    split; [exact B |]. split; [reflexivity |].
    split.
    { unfold _score_to_level.
      destruct (Qle_bool 8 (inject_Z (max_of w more))); [discriminate |].
      destruct (Qle_bool 6 (inject_Z (max_of w more))); [discriminate |].
      assert (E4 : Qle_bool 4 (inject_Z (max_of w more)) = true).
      { apply Qle_bool_iff. change 4%Q with (inject_Z 4). rewrite <- Zle_Qle. lia. }
      rewrite E4. discriminate. }
    split.
    { intros En. rewrite En in E. discriminate E. }
    split; [exact Hnd | exact Hin].
Qed.

End QuickRangeProperties.
(** ** The groups of a match *)

Module CapturedFacts.
Import PyStr Re Captured.

Lemma every_char_all (c : ascii) : In c every_char.
Proof.
  unfold every_char. rewrite <- (ascii_nat_embedding c).
  apply in_map. apply in_seq. pose proof (nat_ascii_bounded c). lia.
Qed.

Lemma class_within_in alphabet (p : class) (c : ascii) :
  class_within alphabet p = true -> p c = true -> alphabet c = true.
Proof.
  unfold class_within. intros H Hp. rewrite forallb_forall in H.
  specialize (H c (every_char_all c)). rewrite Hp in H. exact H.
Qed.

Lemma all_in_app alphabet (u v : string) :
  all_in alphabet (u ++ v) = all_in alphabet u && all_in alphabet v.
Proof.
  induction u as [| c t IH]; [reflexivity |].
  cbn [String.append all_in]. rewrite IH. apply andb_assoc.
Qed.

Lemma append_assoc (u v w : string) : ((u ++ v) ++ w = u ++ (v ++ w))%string.
Proof.
  induction u as [| c t IH]; [reflexivity |].
  cbn [String.append]. rewrite IH. reflexivity.
Qed.

Lemma length_append (u v : string) :
  String.length (u ++ v) = String.length u + String.length v.
Proof.
  induction u as [| c t IH]; [reflexivity |].
  cbn [String.append String.length]. rewrite IH. reflexivity.
Qed.

Lemma drop_step (n : nat) (T : string) (c : ascii) (t : string) :
  drop n T = String c t -> drop (S n) T = t.
Proof.
  revert T. induction n as [| n IH]; intros T H.
  - destruct T as [| d u]; [discriminate H |].
    cbn [drop] in H |- *. inversion H; subst.
    destruct t; reflexivity.
  - destruct T as [| d u]; [discriminate H |].
    cbn [drop] in H. change (drop (S (S n)) (String d u)) with (drop (S n) u).
    apply IH. exact H.
Qed.

Lemma take_append (u v : string) : take (String.length u) (u ++ v) = u.
Proof.
  induction u as [| c t IH].
  - destruct v; reflexivity.
  - cbn [String.length String.append take]. rewrite IH. reflexivity.
Qed.

(** The word between two states of a run, as a slice of the text. *)
Lemma slice_of_run T alphabet g (s s' : state) (w : string) :
  ok T alphabet g s ->
  rest s = w ++ rest s' ->
  pos s' = pos s + String.length w ->
  slice T (pos s) (pos s') = w.
Proof.
  intros [Hr _] Hw Hp. unfold slice. rewrite <- Hr, Hw, Hp.
  replace (pos s + String.length w - pos s) with (String.length w) by lia.
  apply take_append.
Qed.

Lemma repeat_from_sound T alphabet g body lo hi greedy inside limit :
  sound T alphabet g body inside limit ->
  forall k fuel n s f,
    ok T alphabet g s ->
    repeat_from body lo hi greedy k fuel n s = Some f ->
    exists s' w,
      ok T alphabet g s' /\ k s' = Some f
      /\ rest s = w ++ rest s'
      /\ pos s' = pos s + String.length w
      /\ (inside = true -> all_in alphabet w = true).
Proof.
  intros Hb k fuel.
  induction fuel as [| fuel IH]; intros n s f Hok H; simpl in H; [discriminate |].
  assert (Hmore :
    (if below n hi
     then body s (fun s1 =>
            if pos s <? pos s1
            then repeat_from body lo hi greedy k fuel (S n) s1 else None)
     else None) = Some f ->
    exists s' w,
      ok T alphabet g s' /\ k s' = Some f
      /\ rest s = w ++ rest s'
      /\ pos s' = pos s + String.length w
      /\ (inside = true -> all_in alphabet w = true)).
  { destruct (below n hi); [| discriminate].
    intros Hm. apply (Hb s _ f Hok) in Hm.
    destruct Hm as (s1 & w1 & Hok1 & Hk & Hr1 & Hp1 & Hin1 & _).
    destruct (pos s <? pos s1); [| discriminate].
    destruct (IH _ _ _ Hok1 Hk) as (s' & w2 & Hok' & Hk' & Hr2 & Hp2 & Hin2).
    exists s', (w1 ++ w2)%string.
    split; [exact Hok' |]. split; [exact Hk' |].
    split; [rewrite Hr1, Hr2; symmetry; apply append_assoc |].
    split; [rewrite length_append; lia |].
    intros Hi. rewrite all_in_app. rewrite (Hin1 Hi), (Hin2 Hi). reflexivity. }
  assert (Hstop :
    (if lo <=? n then k s else None) = Some f ->
    exists s' w,
      ok T alphabet g s' /\ k s' = Some f
      /\ rest s = w ++ rest s'
      /\ pos s' = pos s + String.length w
      /\ (inside = true -> all_in alphabet w = true)).
  { destruct (lo <=? n); [| discriminate].
    intros Hk. exists s, ""%string.
    split; [exact Hok |]. split; [exact Hk |].
    split; [reflexivity |]. split; [simpl; lia | reflexivity]. }
  destruct greedy.
  - destruct (if below n hi then _ else None) as [f' |] eqn:E.
    + inversion H; subst. apply Hmore. reflexivity.
    + apply Hstop. exact H.
  - destruct (if lo <=? n then k s else None) as [f' |] eqn:E.
    + inversion H; subst. apply Hstop. reflexivity.
    + apply Hmore. exact H.
Qed.

(** A run keeps the spans of a group within what the group encloses. *)
Lemma run_sound T alphabet g (r : regex) :
  group_within alphabet g r = true ->
  sound T alphabet g (run r) (within alphabet r) (width r).
Proof.
  induction r as [| | p | a IHa b IHb | a IHa b IHb | a IHa lo hi greedy
                  | i a IHa | a IHa | t];
    intros Hg s k f Hok H.
  - exists s, ""%string. split; [exact Hok |]. split; [exact H |].
    split; [reflexivity |]. split; [simpl; lia |].
    split; [reflexivity | intros n _; simpl; lia].
  - discriminate.
  - simpl in H. destruct (rest s) as [| c u] eqn:E; [discriminate |].
    destruct (p c) eqn:Ep; [| discriminate].
    exists (advance c u s), (String c "").
    split.
    { destruct Hok as [Hr Hc]. split; [| exact Hc].
      cbn [advance rest pos]. symmetry. apply (drop_step _ _ c). rewrite <- Hr. exact E. }
    split; [exact H |]. split; [reflexivity |].
    split; [cbn [advance pos String.length]; lia |].
    split; [| intros n Hn; inversion Hn; simpl; lia].
    intros Hw. cbn [within] in Hw. cbn [all_in].
    rewrite (class_within_in alphabet p c Hw Ep). reflexivity.
  - cbn [group_within] in Hg. apply andb_true_iff in Hg. destruct Hg as [Hga Hgb].
    simpl in H.
    destruct (IHa Hga s _ f Hok H) as (s1 & w1 & Hok1 & Hk1 & Hr1 & Hp1 & Hin1 & Hl1).
    destruct (IHb Hgb s1 _ f Hok1 Hk1) as (s2 & w2 & Hok2 & Hk2 & Hr2 & Hp2 & Hin2 & Hl2).
    exists s2, (w1 ++ w2)%string.
    split; [exact Hok2 |]. split; [exact Hk2 |].
    split; [rewrite Hr1, Hr2; symmetry; apply append_assoc |].
    split; [rewrite length_append; lia |].
    split.
    + intros Hw. cbn [within] in Hw. apply andb_true_iff in Hw. destruct Hw as [Ha Hb].
      rewrite all_in_app. rewrite (Hin1 Ha), (Hin2 Hb). reflexivity.
    + intros n Hn. cbn [width] in Hn.
      destruct (width a) as [m1 |]; [| discriminate].
      destruct (width b) as [m2 |]; [| discriminate].
      inversion Hn; subst. rewrite length_append.
      pose proof (Hl1 m1 eq_refl). pose proof (Hl2 m2 eq_refl). lia.
  - cbn [group_within] in Hg. apply andb_true_iff in Hg. destruct Hg as [Hga Hgb].
    simpl in H. destruct (run a s k) as [f' |] eqn:E.
    + inversion H; subst.
      destruct (IHa Hga s k f Hok E) as (s1 & w1 & Hok1 & Hk1 & Hr1 & Hp1 & Hin1 & Hl1).
      exists s1, w1. split; [exact Hok1 |]. split; [exact Hk1 |].
      split; [exact Hr1 |]. split; [exact Hp1 |]. split.
      * intros Hw. cbn [within] in Hw. apply andb_true_iff in Hw.
        exact (Hin1 (proj1 Hw)).
      * intros n Hn. cbn [width] in Hn.
        destruct (width a) as [m1 |]; [| discriminate].
        destruct (width b) as [m2 |]; [| discriminate].
        inversion Hn; subst. pose proof (Hl1 m1 eq_refl). lia.
    + destruct (IHb Hgb s k f Hok H) as (s1 & w1 & Hok1 & Hk1 & Hr1 & Hp1 & Hin1 & Hl1).
      exists s1, w1. split; [exact Hok1 |]. split; [exact Hk1 |].
      split; [exact Hr1 |]. split; [exact Hp1 |]. split.
      * intros Hw. cbn [within] in Hw. apply andb_true_iff in Hw.
        exact (Hin1 (proj2 Hw)).
      * intros n Hn. cbn [width] in Hn.
        destruct (width a) as [m1 |]; [| discriminate].
        destruct (width b) as [m2 |]; [| discriminate].
        inversion Hn; subst. pose proof (Hl1 m2 eq_refl). lia.
  - cbn [group_within] in Hg.
    change (repeat_from (run a) lo hi greedy k
              (S (String.length (rest s))) 0 s = Some f) in H.
    destruct (repeat_from_sound T alphabet g (run a) lo hi greedy _ _ (IHa Hg)
                k _ _ s f Hok H) as (s' & w & Hok' & Hk & Hr & Hp & Hin).
    exists s', w. split; [exact Hok' |]. split; [exact Hk |].
    split; [exact Hr |]. split; [exact Hp |].
    split; [exact Hin | intros n Hn; discriminate Hn].
  - cbn [group_within] in Hg. apply andb_true_iff in Hg. destruct Hg as [Hga Hgi].
    simpl in H.
    destruct (IHa Hga s _ f Hok H) as (s1 & w & Hok1 & Hk1 & Hr1 & Hp1 & Hin1 & Hone).
    exists (capture i (pos s) s1), w.
    split.
    { destruct Hok1 as [Hrest Hcaps]. split; [exact Hrest |].
      cbn [capture caps]. constructor; [| exact Hcaps].
      cbn [fst snd]. intros Ei.
      rewrite (slice_of_run T alphabet g s s1 w Hok Hr1 Hp1).
      apply orb_true_iff in Hgi. destruct Hgi as [Hgi | Hs].
      - apply orb_true_iff in Hgi. destruct Hgi as [Hn | Hw].
        + apply negb_true_iff in Hn. apply Nat.eqb_neq in Hn. contradiction.
        + left. exact (Hin1 Hw).
      - right. unfold short in Hs.
        destruct (width a) as [m |]; [| discriminate].
        apply Nat.leb_le in Hs. pose proof (Hone m eq_refl). lia. }
    split; [exact Hk1 |]. split; [exact Hr1 |].
    split; [exact Hp1 |]. split; [exact Hin1 | exact Hone].
  - simpl in H. destruct (run a s Some); [| discriminate].
    exists s, ""%string. split; [exact Hok |]. split; [exact H |].
    split; [reflexivity |]. split; [simpl; lia |].
    split; [reflexivity | intros n _; simpl; lia].
  - simpl in H. destruct (t (prev s) (rest s)); [| discriminate].
    exists s, ""%string. split; [exact Hok |]. split; [exact H |].
    split; [reflexivity |]. split; [simpl; lia |].
    split; [reflexivity | intros n _; simpl; lia].
Qed.

(** The spans of group [g] in a match. *)
Lemma match_at_caps T alphabet g r p pv m :
  group_within alphabet g r = true ->
  match_at r p pv (drop p T) = Some m ->
  Forall (fun cap : nat * (nat * nat) =>
            fst cap = g -> plain alphabet (slice T (fst (snd cap)) (snd (snd cap))))
         (m_caps m).
Proof.
  intros Hg H. unfold match_at in H.
  destruct (run r (mkstate p pv (drop p T) []) Some) as [f |] eqn:E; [| discriminate].
  inversion H; subst. cbn [m_caps].
  assert (Hok : ok T alphabet g (mkstate p pv (drop p T) [])).
  { split; [reflexivity | constructor]. }
  destruct (run_sound T alphabet g r Hg _ _ _ Hok E) as (s' & w & Hok' & Hk & _).
  inversion Hk; subst. exact (proj2 Hok').
Qed.

Lemma scan_caps T alphabet g r :
  group_within alphabet g r = true ->
  forall rs p pv resume,
    rs = drop p T ->
    Forall (fun m =>
              Forall (fun cap : nat * (nat * nat) =>
                        fst cap = g ->
                        plain alphabet (slice T (fst (snd cap)) (snd (snd cap))))
                     (m_caps m))
           (scan r p pv rs resume).
Proof.
  intros Hg. induction rs as [| c t IH]; intros p pv resume Hrs; simpl.
  - destruct (if resume <=? p then match_at r p pv "" else None) as [m |] eqn:E;
      [| constructor].
    constructor; [| constructor].
    destruct (resume <=? p); [| discriminate E].
    rewrite Hrs in E. exact (match_at_caps T alphabet g r p pv m Hg E).
  - assert (Ht : t = drop (S p) T).
    { symmetry. apply (drop_step _ _ c). symmetry. exact Hrs. }
    destruct (if resume <=? p then match_at r p pv (String c t) else None)
      as [m |] eqn:E; [| apply IH; exact Ht].
    constructor; [| apply IH; exact Ht].
    destruct (resume <=? p); [| discriminate E].
    rewrite Hrs in E. exact (match_at_caps T alphabet g r p pv m Hg E).
Qed.

Lemma drop_0 (T : string) : drop 0 T = T.
Proof. destruct T; reflexivity. Qed.

(** What [m.group(g)] is for a match of [finditer]. *)
Lemma finditer_group alphabet g fl pattern text m :
  group_within alphabet g (compile fl pattern) = true ->
  In m (finditer fl pattern text) ->
  plain alphabet (match group text m g with Some x => x | None => "" end).
Proof.
  intros Hg Hm. unfold finditer in Hm.
  pose proof (scan_caps text alphabet g (compile fl pattern) Hg text 0 None 0
                (eq_sym (drop_0 text))) as H.
  rewrite Forall_forall in H. specialize (H m Hm).
  unfold group.
  assert (Hs : forall spans,
            Forall (fun cap : nat * (nat * nat) =>
                      fst cap = g ->
                      plain alphabet (slice text (fst (snd cap)) (snd (snd cap)))) spans ->
            plain alphabet
              (match match span_of g spans with
                     | Some (a, b) => Some (slice text a b)
                     | None => None
                     end
               with Some x => x | None => "" end)).
  { induction spans as [| [j [a b]] t IH]; intros Hc.
    - left. reflexivity.
    - inversion Hc as [| ? ? Hj Ht]; subst. cbn [span_of].
      destruct (g =? j) eqn:Ej.
      + apply Nat.eqb_eq in Ej. apply Hj. cbn [fst]. symmetry. exact Ej.
      + apply IH. exact Ht. }
  apply Hs. exact H.
Qed.

(** The four heading conventions enclose a numeral or one letter in
    their first group. *)
Lemma clause_patterns_group :
  forallb (fun pattern => group_within id_alphabet 1 (compile I_M pattern))
          ClauseExtractor.clause_patterns = true.
Proof. vm_compute. reflexivity. Qed.

Lemma heading_ids text :
  Forall (fun h => plain id_alphabet (ClauseExtractor.h_id h))
         (ClauseExtractor.all_matches text).
Proof.
  apply Forall_forall. intros h Hh. unfold ClauseExtractor.all_matches in Hh.
  apply (Permutation_in _ (Permutation_sym (PyListFacts.sorted_perm _ _ _))) in Hh.
  apply in_flat_map in Hh. destruct Hh as (pattern & Hp & Hh).
  apply in_map_iff in Hh. destruct Hh as (m & <- & Hm).
  cbn [ClauseExtractor.heading_of ClauseExtractor.h_id].
  unfold ClauseExtractor.group_str.
  apply (finditer_group id_alphabet 1 I_M pattern text m); [| exact Hm].
  pose proof clause_patterns_group as G. rewrite forallb_forall in G.
  exact (G pattern Hp).
Qed.

Lemma clause_ids py self text :
  Forall (fun c => plain id_alphabet (ClauseExtractor.clause_id c))
         (snd (ClauseExtractor.extract_clauses py self text)).
Proof.
  rewrite SegmentationFacts.extract_clauses_kept.
  apply Forall_forall. intros c Hc. apply in_map_iff in Hc.
  destruct Hc as (k & <- & Hk).
  apply SegmentationFacts.kept_in in Hk.
  pose proof (heading_ids text) as H. rewrite Forall_forall in H.
  exact (H _ Hk).
Qed.

Lemma plain_not (w : string) :
  all_in id_alphabet w = false -> 2 <= String.length w -> ~ plain id_alphabet w.
Proof. intros Ha Hl [H | H]; [rewrite H in Ha; discriminate | lia]. Qed.

End CapturedFacts.
Module CapturedProperties.
Import PyStr ClauseExtractor Captured.


End CapturedProperties.

(** ** The report of the pipeline *)

Module PipelineDistinctFacts.
Import PyStr RiskAssessor Scoring Supplied Invariants Provenance PassFacts Pipeline.

(** The findings an assessment leaves in the instance share no triple
    when no supplied clause is scoped to ["missing"]. *)
Lemma assess_contract_distinct self text clauses :
  (forall clause, In clause (supplied clauses) -> clause_id_of clause <> "missing") ->
  NoDup (map triple (self_findings (fst (assess_contract self text clauses)))).
Proof.
  intros Hc. unfold assess_contract. cbv zeta. cbn [fst].
  apply missing_pass_distinct.
  assert (H0 : distinct_unmissing (_analyze_text_risks (set_findings self []) text)).
  { apply text_pass_distinct. split; constructor. }
  destruct clauses as [[| clause more] |]; try exact H0.
  apply (fold_left_inv distinct_unmissing _analyze_clause_risks (clause :: more));
    [| exact H0].
  intros a c Hin Ha. apply clause_pass_distinct; [| exact Ha].
  apply Hc. exact Hin.
Qed.

Lemma clause_dict_ids py self text clause :
  In clause (map clause_dict (snd (ClauseExtractor.extract_clauses py self text))) ->
  Captured.plain Captured.id_alphabet (clause_id_of clause).
Proof.
  intros Hin. apply in_map_iff in Hin. destruct Hin as (c & <- & Hc).
  pose proof (CapturedFacts.clause_ids py self text) as H.
  rewrite Forall_forall in H. exact (H c Hc).
Qed.

End PipelineDistinctFacts.

Module PipelineDistinctProperties.
Import PyStr RiskAssessor Scoring Supplied Invariants Provenance PassFacts Pipeline.

(** X28: In the report the pipeline builds from a text, no two findings share
    risk type, clause id and original text, whatever the text: the ids of
    the extracted clauses never collide with the scope ["missing"]. *)
Theorem pipeline_findings_are_distinct
  (py : SetOrder) (cs : Components) (text : string) :
  NoDup (map triple (findings (risk_report (snd (process py cs text))))).
Proof.
  rewrite PipelineFacts.process_output. cbn [risk_report].
  rewrite ReportFacts.assess_contract_report.
  eapply Permutation_NoDup;
    [apply Permutation_map; apply report_findings_perm |].
  apply PipelineDistinctFacts.assess_contract_distinct.
  intros clause Hin E. cbn [supplied] in Hin.
  pose proof (PipelineDistinctFacts.clause_dict_ids py (clause_extractor cs) text
                clause Hin) as H.
  rewrite E in H. revert H. apply CapturedFacts.plain_not; [reflexivity | simpl; lia].
Qed.

(** X29: In a report of the pipeline the scope of a finding tells where it
    comes from: it is ["general"] exactly for the findings of a match in
    the text, ["missing"] exactly for those of a missing topic, and
    otherwise the id of an extracted clause that carries the indicator. *)
Theorem pipeline_scope_tells_origin
  (py : SetOrder) (cs : Components) (text : string) :
  Forall
    (fun f =>
       (clause_id f = "general" <-> from_text text f)
       /\ (clause_id f = "missing" <-> from_missing text f)
       /\ ((clause_id f <> "general" /\ clause_id f <> "missing")
           <-> exists c, In c (clauses (snd (process py cs text)))
                         /\ from_clause [clause_dict c] f))
    (findings (risk_report (snd (process py cs text)))).
Proof.
  rewrite PipelineFacts.process_output. cbn [risk_report clauses].
  set (extracted := snd (ClauseExtractor.extract_clauses py (clause_extractor cs) text)).
  apply Forall_forall. intros f Hf.
  rewrite ReportFacts.assess_contract_report in Hf.
  apply ProvenanceFacts.report_findings_in in Hf.
  pose proof (ProvenanceFacts.assess_contract_justified (risk_assessor cs) text
                (Some (map clause_dict extracted))) as J.
  rewrite Forall_forall in J. specialize (J f Hf).
  assert (Htext : from_text text f -> clause_id f = "general").
  { intros (e & p & m & _ & _ & _ & ->). reflexivity. }
  assert (Hmiss : from_missing text f -> clause_id f = "missing").
  { intros (e & _ & _ & ->). reflexivity. }
  assert (Hclause : forall c, In c extracted -> from_clause [clause_dict c] f ->
                      clause_id f <> "general" /\ clause_id f <> "missing").
  { intros c Hc (clause & i & w & [<- | []] & _ & _ & ->).
    pose proof (CapturedFacts.clause_ids py (clause_extractor cs) text) as H.
    rewrite Forall_forall in H. specialize (H c Hc).
    change (clause_id (clause_finding (clause_dict c) i w))
      with (ClauseExtractor.clause_id c).
    split; intros E; rewrite E in H; revert H;
      apply CapturedFacts.plain_not; [reflexivity | simpl; lia | reflexivity | simpl; lia]. }
  assert (Hsupplied : from_clause (map clause_dict extracted) f ->
                      exists c, In c extracted /\ from_clause [clause_dict c] f).
  { intros (clause & i & w & Hin & Hi & Hw & E).
    apply in_map_iff in Hin. destruct Hin as (c & <- & Hc).
    exists c. split; [exact Hc |].
    exists (clause_dict c), i, w. split; [left; reflexivity |].
    split; [exact Hi |]. split; [exact Hw | exact E]. }
  cbn [supplied] in J.
  split; [| split].
  - split; [| exact Htext].
    intros E. destruct J as [H | [H | H]]; [exact H | |].
    + destruct (Hsupplied H) as (c & Hc & Hfc).
      destruct (Hclause c Hc Hfc) as [Hg _]. contradiction.
    + rewrite (Hmiss H) in E. discriminate E.
  - split; [| exact Hmiss].
    intros E. destruct J as [H | [H | H]]; [| | exact H].
    + rewrite (Htext H) in E. discriminate E.
    + destruct (Hsupplied H) as (c & Hc & Hfc).
      destruct (Hclause c Hc Hfc) as [_ Hm]. contradiction.
  - split.
    + intros [Hg Hm]. destruct J as [H | [H | H]].
      * exfalso. exact (Hg (Htext H)).
      * exact (Hsupplied H).
      * exfalso. exact (Hm (Hmiss H)).
    + intros (c & Hc & Hfc). exact (Hclause c Hc Hfc).
Qed.

End PipelineDistinctProperties.

(** ** The summary of a report *)

Module SummaryFacts.
Import PyStr RiskAssessor Scoring Invariants.

(** [str(n)] begins with a digit. *)
Lemma str_digit (n : nat) :
  exists c t, PyNum.str n = String c t /\ isdigit c = true.
Proof.
  pose proof (DecimalNat.Unsigned.to_of (Nat.to_uint n)) as H.
  rewrite DecimalNat.Unsigned.of_to in H.
  unfold PyNum.str. rewrite H. unfold Decimal.unorm.
  destruct (Decimal.nzhead (Nat.to_uint n));
    cbn [NilEmpty.string_of_uint]; eexists; eexists; split; reflexivity.
Qed.

Lemma count_level_zero (level : RiskLevel) (fs : list RiskFinding) :
  count_level level fs = 0 <-> Forall (fun f => risk_level f <> level) fs.
Proof.
  rewrite ReportFacts.count_level_number. unfold number_of.
  induction fs as [| f t IH]; [split; [constructor | reflexivity] |].
  cbn [filter]. destruct (level_eqb (risk_level f) level) eqn:E.
  - split; [discriminate |]. intros H. inversion H as [| ? ? Hf _]; subst.
    exfalso. apply Hf. destruct (risk_level f), level; try discriminate E; reflexivity.
  - rewrite IH. split.
    + intros H. constructor; [| exact H].
      intros El. rewrite El in E. destruct level; discriminate E.
    + intros H. inversion H; subst. assumption.
Qed.

Lemma summary_part_nil (n : nat) (what : string) :
  summary_part n what = [] <-> n = 0.
Proof.
  unfold summary_part. destruct n; cbn [Nat.ltb Nat.leb]; split; intros H;
    try reflexivity; discriminate H.
Qed.

(** The parts of the summary are none, or the first begins with a
    digit. *)
Lemma summary_parts_digit (critical high medium : nat) :
  let parts :=
    (summary_part critical " critical risk(s) require immediate attention"
     ++ summary_part high " high-risk clause(s) should be renegotiated"
     ++ summary_part medium " medium-risk item(s) to review")%list in
  (parts = [] /\ critical = 0 /\ high = 0 /\ medium = 0)
  \/ (exists c t, join ". " parts = String c t /\ isdigit c = true)
     /\ parts <> []
     /\ ~ (critical = 0 /\ high = 0 /\ medium = 0).
Proof.
  cbv zeta.
  assert (Hfirst : forall n what more,
            exists c t,
              join ". " ((PyNum.str (S n) ++ what)%string :: more) = String c t
              /\ isdigit c = true).
  { intros n what more. destruct (str_digit (S n)) as (c & t & E & Hd).
    unfold join. cbn [String.concat]. rewrite E.
    destruct more as [| x xs]; cbn [String.append]; eexists; eexists;
      split; try reflexivity; exact Hd. }
  destruct critical as [| c'].
  - destruct high as [| h'].
    + destruct medium as [| m'].
      * left. repeat split.
      * right. split; [| split; [discriminate | intros (_ & _ & H); discriminate H]].
        apply Hfirst.
    + right. split; [| split; [discriminate | intros (_ & H & _); discriminate H]].
      apply Hfirst.
  - right. split; [| split; [discriminate | intros (H & _); discriminate H]].
    apply Hfirst.
Qed.

Lemma low_scores (f : RiskFinding) :
  risk_level f = _score_to_level (inject_Z (score f)) ->
  (3 <= score f <= 9)%Z ->
  (risk_level f = LOW <-> score f = 3%Z).
Proof.
  intros Hl Hs. rewrite Hl. unfold _score_to_level.
  assert (E : forall z : Z, Qle_bool (inject_Z z) (inject_Z (score f)) = (z <=? score f)%Z).
  { intros z. unfold Qle_bool, inject_Z. cbn [Qnum Qden]. rewrite !Z.mul_1_r. reflexivity. }
  change 8%Q with (inject_Z 8). change 6%Q with (inject_Z 6). change 4%Q with (inject_Z 4).
  rewrite !E.
  destruct (8 <=? score f)%Z eqn:E8; [apply Z.leb_le in E8; split; [discriminate | lia] |].
  destruct (6 <=? score f)%Z eqn:E6; [apply Z.leb_le in E6; split; [discriminate | lia] |].
  destruct (4 <=? score f)%Z eqn:E4; [apply Z.leb_le in E4; split; [discriminate | lia] |].
  apply Z.leb_gt in E4. split; [intros _; lia | reflexivity].
Qed.

End SummaryFacts.

Module SummaryProperties.
Import PyStr RiskAssessor Scoring Supplied Invariants Provenance PassFacts.

(** X11: The summary of a report says how risky the findings are: it is the
    sentence of the baseline exactly when there is no finding, it is
    ["Contract has acceptable risk levels."] exactly when there are
    findings and all of them are LOW (that is, all score 3), and in every
    other case it begins with a count. *)
Theorem summary_tells_the_levels
  (self : instance) (text : string) (clauses : option (list Clause)) :
  let report := snd (assess_contract self text clauses) in
  (summary report = "No significant risks found. Contract appears well-balanced."
   <-> findings report = [])
  /\ (summary report = "Contract has acceptable risk levels."
      <-> findings report <> []
          /\ Forall (fun f => risk_level f = LOW) (findings report))
  /\ (Forall (fun f => risk_level f = LOW) (findings report)
      <-> Forall (fun f => score f = 3%Z) (findings report))
  /\ (high_risk_count report + medium_risk_count report = 0
      \/ exists c t, summary report = String c t /\ isdigit c = true).
Proof.
  cbv zeta. rewrite ReportFacts.assess_contract_report.
  pose proof (ProvenanceFacts.assess_contract_justified self text clauses) as J.
  set (s := fst (assess_contract self text clauses)) in *.
  assert (G : Forall (fun f => risk_level f = LOW <-> score f = 3%Z) (self_findings s)).
  { apply Forall_forall. intros f Hf. rewrite Forall_forall in J.
    destruct (ProvenanceFacts.justified_graded _ _ _ (J f Hf)) as [Hl Hs].
    exact (SummaryFacts.low_scores f Hl Hs). }
  clear J.
  pose proof (report_findings_perm s) as P.
  assert (Hthird : Forall (fun f => risk_level f = LOW)
                          (findings (_calculate_overall_score s))
                   <-> Forall (fun f => score f = 3%Z)
                              (findings (_calculate_overall_score s))).
  { assert (G' : Forall (fun f => risk_level f = LOW <-> score f = 3%Z)
                        (findings (_calculate_overall_score s))).
    { exact (Permutation_Forall P G). }
    rewrite !Forall_forall in *. split; intros H f Hf; apply (G' f Hf); exact (H f Hf). }
  unfold _calculate_overall_score in *.
  destruct (self_findings s) as [| f0 t0] eqn:E.
  - cbn [summary findings high_risk_count medium_risk_count].
    split; [split; reflexivity |].
    split; [split; [discriminate | intros [H _]; contradiction] |].
    split; [split; intros _; constructor |].
    left. reflexivity.
  - cbv zeta in *. cbn [summary findings high_risk_count medium_risk_count] in *.
    set (fs := f0 :: t0) in *.
    assert (Hne : PyList.sorted score true fs <> []).
    { intros En. rewrite En in P. apply Permutation_length in P. discriminate P. }
    assert (Hlow : Forall (fun f => risk_level f = LOW) (PyList.sorted score true fs)
                   <-> count_level CRITICAL fs = 0 /\ count_level HIGH fs = 0
                       /\ count_level MEDIUM fs = 0).
    { rewrite !SummaryFacts.count_level_zero. split.
      - intros H. apply (Permutation_Forall (Permutation_sym P)) in H.
        rewrite !Forall_forall in *.
        repeat split; intros f Hf El; rewrite (H f Hf) in El; discriminate El.
      - intros (Hc & Hh & Hm). apply (Permutation_Forall P).
        rewrite !Forall_forall in *. intros f Hf.
        specialize (Hc f Hf). specialize (Hh f Hf). specialize (Hm f Hf).
        destruct (risk_level f); try reflexivity; contradiction. }
    destruct (SummaryFacts.summary_parts_digit (count_level CRITICAL fs)
                (count_level HIGH fs) (count_level MEDIUM fs))
      as [(Ep & Hc & Hh & Hm) | ((c & t & Ej & Hd) & Hp & Hnz)]; cbv zeta in *.
    + rewrite Ep.
      split; [split; [discriminate | intros H; contradiction] |].
      split; [split; [intros _; split; [exact Hne | apply Hlow; tauto] | reflexivity] |].
      split; [exact Hthird |].
      left. rewrite Hc, Hh, Hm. reflexivity.
    + destruct (summary_part (count_level CRITICAL fs) _ ++ _)%list as [| p ps] eqn:Ep;
        [contradiction |].
      rewrite Ej.
      split.
      { split; [intros H; inversion H; subst; discriminate Hd | intros H; contradiction]. }
      split.
      { split; [intros H; inversion H; subst; discriminate Hd |].
        intros [_ H]. exfalso. apply Hnz. apply Hlow. exact H. }
      split; [exact Hthird |].
      right. exists c, t. split; [reflexivity | exact Hd].
Qed.

End SummaryProperties.
(** ** The summary of a classification *)

Module ClassificationSummaryFacts.
Import PyStr ContractClassifier Confidence Classified.
Local Open Scope Q_scope.

Lemma round_half_even_whole (z : Z) : PyNum.round_half_even (inject_Z z) = z.
Proof.
  unfold PyNum.round_half_even. cbv zeta. rewrite Qfloor_Z.
  assert (E : (inject_Z z - inject_Z z ?= 1 # 2) = Lt).
  { unfold Qcompare, Qminus, Qplus, Qopp, inject_Z. cbn [Qnum Qden].
    apply Z.compare_lt_iff. lia. }
  rewrite E. reflexivity.
Qed.

Lemma hundredth_times_100 (z : Z) : inject_Z z / inject_Z 100 * 100 == inject_Z z.
Proof.
  unfold Qeq, Qdiv, Qmult, Qinv, inject_Z. cbn [Qnum Qden]. lia.
Qed.

Lemma percent_of_hundredth (z : Z) :
  percent (inject_Z z / inject_Z 100) = (PyNum.str (Z.to_nat z) ++ "%")%string.
Proof.
  unfold percent.
  rewrite (PyNumFacts.round_half_even_comp _ _ (hundredth_times_100 z)).
  rewrite round_half_even_whole. reflexivity.
Qed.

Lemma hundredth_at_least (k z : Z) :
  Qle_bool (k # 10) (inject_Z z / inject_Z 100) = (10 * k <=? z)%Z.
Proof.
  unfold Qle_bool, Qdiv, Qmult, Qinv, inject_Z. cbn [Qnum Qden].
  apply eq_iff_eq_true. rewrite !Z.leb_le. lia.
Qed.

(** The instance keeps the result it returns. *)
Lemma classify_keeps (self : instance) (text : string) :
  result (fst (classify self text)) = Some (snd (classify self text)).
Proof.
  unfold classify. cbv zeta.
  destruct (PyList.max_by _ (scores_of (lower text))); reflexivity.
Qed.

(** The confidence of a result, in hundredths. *)
Lemma confidence_in_hundredths (self : instance) (text : string) :
  (snd (classify self text) = mkClassificationResult "Unknown" 0 "" []
   /\ nothing_hits text)
  \/ (exists z : Z,
        (2 <= z <= 100)%Z
        /\ confidence (snd (classify self text)) = inject_Z z / inject_Z 100
        /\ ~ nothing_hits text).
Proof.
  destruct (ClassifiedFacts.classify_winner self text)
    as [[Er Hn] | (before & entry & after & Ecp & Hh & Et & _)];
    [left; split; assumption | right].
  assert (He : In entry CONTRACT_PATTERNS).
  { rewrite Ecp. apply in_or_app. right. left. reflexivity. }
  pose proof (ClassifierFacts.classify_result self text) as R.
  destruct (PyList.max_by (fun e : score_entry => fst (snd e)) (scores_of (lower text)))
    as [best |] eqn:Eb.
  - destruct R as [Rt Rc].
    destruct (ClassifierFacts.max_by_greatest _ _ _ Eb) as [Hin _].
    destruct (ClassifierFacts.scores_of_in _ _ Hin) as (e' & He' & Ef & Es & Hpos).
    pose proof ClassifierFacts.profiles_bounded as B. rewrite Forall_forall in B.
    destruct (B e' He') as [_ Bm].
    destruct (ClassifierClaims.confidence_hundredths
                (type_score (lower text) (snd e')) (max_possible (snd e')))
      as (z & Hz & Ez); [lia | exact Bm |].
    exists z. split; [exact Hz |]. split.
    + rewrite Rc. rewrite Ef. rewrite (ClassifierFacts.max_possible_of_entry e' He').
      rewrite Es. exact Ez.
    + intros Hn. rewrite (Hn entry He) in Hh. discriminate Hh.
  - exfalso. apply (AllScoresFacts.names_not_unknown entry He).
    rewrite <- Et. rewrite R. reflexivity.
Qed.

End ClassificationSummaryFacts.

Module ClassificationSummaryProperties.
Import PyStr ContractClassifier Confidence Classified.

(** X18: After a classification the summary describes its result: the type,
    the sub-type in brackets when there is one, the confidence as a whole
    percentage from 0 to 100 with the label High from 70 on, Medium from
    40 on and Low below, and the first five indicators when there are
    any. For a text that hits nothing it is the two lines of Unknown at
    0%; an instance that has classified nothing says so. *)
Theorem summary_describes_the_result (self : instance) (text : string) :
  let r := snd (classify self text) in
  (exists shown : nat,
     shown <= 100
     /\ (confidence r == inject_Z (Z.of_nat shown) / 100)%Q
     /\ get_classification_summary (fst (classify self text))
        = "Contract Type: " ++ contract_type r
          ++ (if String.eqb (sub_type r) "" then "" else " (" ++ sub_type r ++ ")")
          ++ LF ++ "Confidence: " ++ PyNum.str shown ++ "% ("
          ++ (if 70 <=? shown then "High" else if 40 <=? shown then "Medium" else "Low")
          ++ ")"
          ++ match key_indicators r with
             | [] => ""
             | _ => LF ++ "Key Indicators: " ++ join ", " (firstn 5 (key_indicators r))
             end)
  /\ (nothing_hits text ->
      get_classification_summary (fst (classify self text))
      = "Contract Type: Unknown" ++ LF ++ "Confidence: 0% (Low)")
  /\ get_classification_summary __init__ = "No classification performed yet.".
Proof.
  cbv zeta.
  assert (Hshape : forall r : ClassificationResult,
            forall z : Z, (0 <= z <= 100)%Z ->
            confidence r = (inject_Z z / inject_Z 100)%Q ->
            get_classification_summary (mkinstance (Some r))
            = "Contract Type: " ++ contract_type r
              ++ (if String.eqb (sub_type r) "" then "" else " (" ++ sub_type r ++ ")")
              ++ LF ++ "Confidence: " ++ PyNum.str (Z.to_nat z) ++ "% ("
              ++ (if 70 <=? Z.to_nat z then "High"
                  else if 40 <=? Z.to_nat z then "Medium" else "Low")
              ++ ")"
              ++ match key_indicators r with
                 | [] => ""
                 | _ => LF ++ "Key Indicators: "
                        ++ join ", " (firstn 5 (key_indicators r))
                 end).
  { intros r z Hz Ec. unfold get_classification_summary. cbn [result]. cbv zeta.
    rewrite Ec. rewrite ClassificationSummaryFacts.percent_of_hundredth.
    rewrite (ClassificationSummaryFacts.hundredth_at_least 7 z).
    rewrite (ClassificationSummaryFacts.hundredth_at_least 4 z).
    assert (E70 : (10 * 7 <=? z)%Z = (70 <=? Z.to_nat z)).
    { apply eq_iff_eq_true. rewrite Z.leb_le, Nat.leb_le. lia. }
    assert (E40 : (10 * 4 <=? z)%Z = (40 <=? Z.to_nat z)).
    { apply eq_iff_eq_true. rewrite Z.leb_le, Nat.leb_le. lia. }
    rewrite E70, E40.
    destruct (String.eqb (sub_type r) ""); destruct (key_indicators r);
      rewrite ?CapturedFacts.append_assoc; cbn [String.append];
      repeat (rewrite ?CapturedFacts.append_assoc; cbn [String.append]);
      reflexivity. }
  assert (Hinst : fst (classify self text) = mkinstance (Some (snd (classify self text)))).
  { pose proof (ClassificationSummaryFacts.classify_keeps self text) as K.
    destruct (fst (classify self text)) as [res]. cbn [result] in K. rewrite K.
    reflexivity. }
  split; [| split; [| reflexivity]].
  - rewrite Hinst.
    destruct (ClassificationSummaryFacts.confidence_in_hundredths self text)
      as [[Er _] | (z & Hz & Ec & _)].
    + exists 0. split; [lia |]. rewrite Er. split; [reflexivity |].
      vm_compute. reflexivity.
    + exists (Z.to_nat z). split; [lia |].
      split; [rewrite Ec; rewrite Z2Nat.id by lia; reflexivity |].
      apply (Hshape _ z); [lia | exact Ec].
  - intros Hn. rewrite Hinst.
    destruct (ClassificationSummaryFacts.confidence_in_hundredths self text)
      as [[Er _] | (z & _ & _ & Hnot)]; [| contradiction].
    rewrite Er. vm_compute. reflexivity.
Qed.

End ClassificationSummaryProperties.

(** ** The order of a set does not reach the scores *)

Module ReorderedFacts.
Import PyStr RiskAssessor Scoring Supplied Invariants Provenance PassFacts Reordered.












End ReorderedFacts.

Module ReorderedProperties.
Import PyStr RiskAssessor Scoring Supplied Invariants Provenance PassFacts Reordered Pipeline.


End ReorderedProperties.
(** ** More clauses, more findings *)

Module GrowthProperties.
Import PyStr RiskAssessor Scoring Supplied Invariants Provenance PassFacts.

(** X12: Supplying clauses never loses a finding: every finding of the report
    of a text alone is in the report of the text with clauses, and every
    finding of the report with some clauses is in the report with these
    and further clauses after them; the number of findings does not go
    down. *)
Theorem more_clauses_keep_findings
  (self : instance) (text : string) (cs more : list Clause) :
  let alone := snd (assess_contract self text None) in
  let some := snd (assess_contract self text (Some cs)) in
  let all := snd (assess_contract self text (Some (cs ++ more)%list)) in
  Forall (fun f => In f (findings some)) (findings alone)
  /\ Forall (fun f => In f (findings all)) (findings some)
  /\ List.length (findings alone) <= List.length (findings some)
     <= List.length (findings all).
Proof.
  cbv zeta. rewrite !ReportFacts.assess_contract_report.
  destruct (CompletenessFacts.assess_contract_passes self text None)
    as (s1 & s2 & E1 & _ & Ef & E2).
  destruct (CompletenessFacts.assess_contract_passes self text (Some cs))
    as (t1 & t2 & F1 & _ & Ff & F2).
  destruct (CompletenessFacts.assess_contract_passes self text (Some (cs ++ more)%list))
    as (u1 & u2 & G1 & _ & Gf & G2).
  subst s1 t1 u1.
  set (s1 := _analyze_text_risks (set_findings self []) text) in *.
  assert (F2' : t2 = fold_left _analyze_clause_risks cs s1)
    by (rewrite F2; destruct cs; reflexivity).
  assert (G2' : u2 = fold_left _analyze_clause_risks more t2).
  { rewrite G2, F2'. rewrite <- fold_left_app.
    destruct (cs ++ more)%list; reflexivity. }
  assert (X1 : extends s2 t2).
  { rewrite E2, F2'. apply fold_left_extends.
    intros a x. apply clause_pass_extends. }
  assert (X2 : extends t2 u2).
  { rewrite G2'. apply fold_left_extends. intros a x. apply clause_pass_extends. }
  assert (Hgrow : forall a b, extends a b ->
            (forall f, In f (self_findings (_check_missing_protections a text)) ->
                       In f (self_findings (_check_missing_protections b text)))
            /\ List.length (self_findings (_check_missing_protections a text))
               <= List.length (self_findings (_check_missing_protections b text))).
  { intros a b (added & Eb). rewrite !missing_pass_findings. rewrite Eb. split.
    - intros f Hf. apply in_app_or in Hf. apply in_or_app.
      destruct Hf as [Hf | Hf]; [left; apply in_or_app; left; exact Hf | right; exact Hf].
    - rewrite !length_app. lia. }
  assert (Hlen : forall s, List.length (findings (_calculate_overall_score s))
                           = List.length (self_findings s)).
  { intros s. symmetry. apply Permutation_length. apply report_findings_perm. }
  rewrite Ef, Ff, Gf.
  destruct (Hgrow s2 t2 X1) as [I1 L1]. destruct (Hgrow t2 u2 X2) as [I2 L2].
  split; [| split].
  - apply Forall_forall. intros f Hf.
    apply ProvenanceFacts.report_findings_in.
    apply ProvenanceFacts.report_findings_in in Hf. exact (I1 f Hf).
  - apply Forall_forall. intros f Hf.
    apply ProvenanceFacts.report_findings_in.
    apply ProvenanceFacts.report_findings_in in Hf. exact (I2 f Hf).
  - rewrite !Hlen. lia.
Qed.

End GrowthProperties.
